(** * IEC lookup service (src/app.py): CAPTCHA retry loop, table extraction,
      pagination walk and request handler

    A shallow embedding of the Python functions of [src/app.py].  The
    browser session, the HTTP client and stdout are external collaborators:
    their answers are given by an arbitrary world (class [WebDriver]), and
    every interaction is recorded in a trace of events.  Exceptions are
    explicit results. *)

From Stdlib Require Import List String Ascii ZArith Bool Lia DecimalString.
Import ListNotations.
Open Scope string_scope.
Open Scope Z_scope.
Set Warnings "-register-all".

(* ================================================================== *)
(** * Text: the [str] methods used by the program *)
(* ================================================================== *)

Module Text.

(** A character stands for a code point below 256.  Python's
    [str.isspace] there: TAB..CR, FS..US, SPACE, NEL (0x85) and NBSP
    (0xA0); [strip] and [split] remove exactly these. *)
Definition is_space (c : ascii) : bool :=
  let n := N_of_ascii c in
  ((9 <=? n) && (n <=? 13) || (28 <=? n) && (n <=? 32)
   || (n =? 133) || (n =? 160))%N.

Definition nl : string := String "010" EmptyString.

Definition nonempty (s : string) : bool :=
  match s with EmptyString => false | String _ _ => true end.

(** [any(l)] for a list of strings: some element is truthy (non-empty). *)
Definition any_str (l : list string) : bool := existsb nonempty l.

Fixpoint lstrip (s : string) : string :=
  match s with
  | EmptyString => EmptyString
  | String c s' => if is_space c then lstrip s' else s
  end.

Fixpoint rstrip (s : string) : string :=
  match s with
  | EmptyString => EmptyString
  | String c s' =>
      let r := rstrip s' in
      if is_space c && negb (nonempty r) then EmptyString else String c r
  end.

(** [s.strip()] *)
Definition strip (s : string) : string := rstrip (lstrip s).

(** [s.split()] with no argument: the maximal runs of non-whitespace
    characters.  [cur] is the word being scanned. *)
Fixpoint split_from (cur : string) (s : string) : list string :=
  match s with
  | EmptyString => if nonempty cur then [cur] else []
  | String c s' =>
      if is_space c
      then (if nonempty cur then cur :: split_from EmptyString s' else split_from EmptyString s')
      else split_from (cur ++ String c EmptyString) s'
  end.

Definition split (s : string) : list string := split_from EmptyString s.

(** [sep.join(l)] *)
Definition join (sep : string) (l : list string) : string := String.concat sep l.

(** [needle in hay] for two strings: substring test. *)
Fixpoint str_in (needle hay : string) : bool :=
  prefix needle hay
  || match hay with
     | EmptyString => false
     | String _ hay' => str_in needle hay'
     end.

(** The characters of a string, as Python iterates over it. *)
Fixpoint chars (s : string) : list string :=
  match s with
  | EmptyString => []
  | String c s' => String c EmptyString :: chars s'
  end.

(** A string is whitespace-normalized when it neither starts nor ends with
    whitespace, no two whitespace characters are adjacent, and every
    whitespace character in it is the single space. *)
Fixpoint no_ws_run (s : string) : bool :=
  match s with
  | EmptyString => true
  | String c s' =>
      (if is_space c
       then Ascii.eqb c " "
            && match s' with
               | EmptyString => true
               | String c' _ => negb (is_space c')
               end
       else true)
      && no_ws_run s'
  end.

Definition starts_with_space (s : string) : bool :=
  match s with EmptyString => false | String c _ => is_space c end.

Fixpoint ends_with_space (s : string) : bool :=
  match s with
  | EmptyString => false
  | String c EmptyString => is_space c
  | String _ s' => ends_with_space s'
  end.

Definition normalized (s : string) : bool :=
  negb (starts_with_space s) && negb (ends_with_space s) && no_ws_run s.

(** Only whitespace, or nothing at all: blank after trimming. *)
Fixpoint blank (s : string) : bool :=
  match s with
  | EmptyString => true
  | String c s' => is_space c && blank s'
  end.

(** No whitespace anywhere. *)
Fixpoint solid (s : string) : bool :=
  match s with
  | EmptyString => true
  | String c s' => negb (is_space c) && solid s'
  end.

End Text.

(* ================================================================== *)
(** * The parsed page: what [BeautifulSoup(page_source, 'html.parser')]
      yields *)
(* ================================================================== *)

Module Soup.

Inductive node : Type :=
| Text (s : string)
| Comment (s : string)
| Elem (tag : string) (attrs : list (string * string)) (children : list node).

Fixpoint assoc {A} (k : string) (l : list (string * A)) : option A :=
  match l with
  | [] => None
  | (k', v) :: l' => if String.eqb k k' then Some v else assoc k l'
  end.

(** [tag.descendants]: every node below [n], in document order. *)
Fixpoint descendants (n : node) : list node :=
  match n with
  | Elem _ _ cs =>
      (fix below (l : list node) : list node :=
         match l with
         | [] => []
         | c :: l' => c :: descendants c ++ below l'
         end) cs
  | _ => []
  end.

Definition is_tag (name : string) (n : node) : bool :=
  match n with
  | Elem t _ _ => String.eqb t name
  | _ => false
  end.

Definition has_attr (k v : string) (n : node) : bool :=
  match n with
  | Elem _ attrs _ =>
      match assoc k attrs with
      | Some v' => String.eqb v' v
      | None => false
      end
  | _ => false
  end.

(** [n.find_all(name)] *)
Definition find_all (name : string) (n : node) : list node :=
  filter (is_tag name) (descendants n).

(** [n.find(name)]: the first match, or [None]. *)
Definition find (name : string) (n : node) : option node :=
  hd_error (find_all name n).

(** [n.find(name, {k: v})] *)
Definition find_with (name k v : string) (n : node) : option node :=
  hd_error (filter (fun d => is_tag name d && has_attr k v d) (descendants n)).

(** The text fragments of the descendants; comments are not text. *)
Definition strings (n : node) : list string :=
  flat_map (fun d => match d with Text s => [s] | _ => [] end) (descendants n).

(** [n.get_text(strip=True)]: every fragment is stripped, the empty ones
    are dropped, the rest is concatenated with no separator. *)
Definition get_text_strip (n : node) : string :=
  Text.join EmptyString (filter Text.nonempty (map Text.strip (strings n))).

End Soup.

(* ================================================================== *)
(** * Structured table extractor: the parsing part of
      [extract_table_data_with_bs4] *)
(* ================================================================== *)

Module Table.
Import Soup.

(** The two shapes the extractor returns: the empty string when the table
    is absent (the empty str), a list of lines otherwise ([return rows]). *)
Inductive pyrows : Type :=
| PyStr (s : string)
| PyList (l : list string).


(** Truth value of a sequence: non-empty. *)
Definition py_truthy (r : pyrows) : bool :=
  match r with
  | PyStr s => Text.nonempty s
  | PyList l => match l with [] => false | _ :: _ => true end
  end.

(** [r[1:]] *)
Definition py_slice1 (r : pyrows) : pyrows :=
  match r with
  | PyStr s => PyStr (match s with EmptyString => EmptyString | String _ s' => s' end)
  | PyList l => PyList (tl l)
  end.

(** The items [list.extend(r)] appends. *)
Definition py_items (r : pyrows) : list string :=
  match r with
  | PyStr s => Text.chars s
  | PyList l => l
  end.

(** Line 154: [[th.get_text(strip=True) for th in thead.find_all('th')]] *)
Definition header_cells (thead : node) : list string :=
  map get_text_strip (find_all "th" thead).

(** Line 163: [' '.join(col.get_text(strip=True).split())] *)
Definition normalize (s : string) : string := Text.join " " (Text.split s).

Definition row_cells (tr : node) : list string :=
  map (fun col => normalize (get_text_strip col)) (find_all "td" tr).

(** Lines 152-156: the lines contributed by the head section. *)
Definition header_lines (delimiter : string) (table : node) : list string :=
  match find "thead" table with
  | Some thead =>
      let headers := header_cells thead in
      if Text.any_str headers then [Text.join delimiter headers] else []
  | None => []
  end.

(** Lines 159-165: the lines contributed by the body section. *)
Definition body_lines (delimiter : string) (table : node) : list string :=
  match find "tbody" table with
  | Some tbody =>
      flat_map (fun row =>
                  let row_data := row_cells row in
                  if Text.any_str row_data
                  then [Text.join delimiter row_data] else [])
               (find_all "tr" tbody)
  | None => []
  end.

Definition find_table (soup : node) (table_id : string) : option node :=
  find_with "table" "id" table_id soup.

(** Lines 144-167, on the parsed page. *)
Definition extract_rows (soup : node) (table_id delimiter : string) : pyrows :=
  match find_table soup table_id with
  | None => PyStr EmptyString
  | Some table =>
      PyList (header_lines delimiter table ++ body_lines delimiter table)
  end.

End Table.

(* ================================================================== *)
(** * Exceptions, JSON values, events *)
(* ================================================================== *)

(** The classes of [Exception] the program and its collaborators raise.
    [HTTPError] is a [RequestException]; everything here derives from
    [Exception], which is what [except Exception] catches. *)
Inductive exn_class : Type :=
| TimeoutException
| NoSuchElementException
| WebDriverException
| IECScraperException
| RequestException
| HTTPError
| JSONDecodeError
| KeyError
| IndexError
| TypeError
| AttributeError
| BadRequest.

(** An exception: its class and [str(e)]. *)
Record exn : Type := Exn { exn_class_of : exn_class; exn_str : string }.

Inductive result (A : Type) : Type :=
| Ok (a : A)
| Raise (e : exn).
Arguments Ok {A} a.
Arguments Raise {A} e.

(** Parsed JSON, as [response.json()] and [request.get_json()] return it.
    A dict is kept as its list of items, a number as an integer. *)
Inductive json : Type :=
| JNull
| JBool (b : bool)
| JNum (n : Z)
| JStr (s : string)
| JArr (l : list json)
| JObj (items : list (string * json)).

Inductive By : Type := XPATH | ID | CLASS_NAME | TAG_NAME | CSS_SELECTOR.
Definition locator : Type := (By * string)%type.

(** The handle of a page element and a captured image are opaque. *)
Definition element : Type := nat.
Definition image : Type := string.

Record http_response : Type := HttpResponse {
  status_code : Z;
  (** the message [raise_for_status] would carry *)
  status_line : string;
  (** what [response.json()] yields *)
  body_json : result json
}.

(** One interaction with a collaborator.  [EvSolve] marks a call of
    [solve_captcha_with_gpt4], [EvPost] the request it sends. *)
Inductive event : Type :=
| EvCreateDriver
| EvGet (url : string)
| EvWaitPresence (timeout : Z) (loc : locator)
| EvWaitAllPresent (timeout : Z) (loc : locator)
| EvWaitClickable (timeout : Z) (loc : locator)
| EvWaitRows (timeout : Z) (css : string)
| EvFindElement (loc : locator)
| EvFindChild (parent : element) (loc : locator)
| EvRender (e : element)
| EvClick (e : element)
| EvClear (e : element)
| EvSendKeys (e : element) (keys : json)
| EvGetText (e : element)
| EvGetAttribute (e : element) (name : string)
| EvPageSource (src : result Soup.node)
| EvSolve (img : option image)
| EvPost (url : string) (img_str : string) (timeout : Z)
| EvSleep (seconds : Z)
| EvPrint (line : string)
| EvQuit.

(** The collaborators: each operation answers from the current world and
    moves it on, and any of them may raise.  [wd_encode] is lines 98-100,
    the PNG and base64 encoding of an image: it reads no world, and may
    raise as well. *)
Class WebDriver (W : Type) : Type := {
  wd_create_driver : W -> result unit * W;
  wd_get : string -> W -> result unit * W;
  wd_wait_presence : Z -> locator -> W -> result element * W;
  wd_wait_all_present : Z -> locator -> W -> result (list element) * W;
  wd_wait_clickable : Z -> locator -> W -> result element * W;
  wd_wait_rows : Z -> string -> W -> result unit * W;
  wd_find_element : locator -> W -> result element * W;
  wd_find_child : element -> locator -> W -> result element * W;
  wd_render : element -> W -> result image * W;
  wd_click : element -> W -> result unit * W;
  wd_clear : element -> W -> result unit * W;
  wd_send_keys : element -> json -> W -> result unit * W;
  wd_text : element -> W -> result string * W;
  wd_get_attribute : element -> string -> W -> result (option string) * W;
  wd_page_source : W -> result Soup.node * W;
  wd_post : string -> string -> Z -> W -> result http_response * W;
  wd_quit : W -> result unit * W;
  wd_encode : image -> result string
}.

(* ================================================================== *)
(** * The monad of the program: world passing, a trace, exceptions *)
(* ================================================================== *)

(** A computation answers with a result, the new world and the events it
    emitted, oldest first. *)
Definition Comp (W A : Type) : Type := W -> result A * W * list event.

Section Monad.
Context {W : Type}.
Local Abbreviation M := (Comp W).

Definition ret {A} (a : A) : M A := fun w => (Ok a, w, []).

Definition raise {A} (e : exn) : M A := fun w => (Raise e, w, []).

Definition bind {A B} (m : M A) (f : A -> M B) : M B :=
  fun w =>
    match m w with
    | (Ok a, w1, t1) =>
        match f a w1 with
        | (r, w2, t2) => (r, w2, (t1 ++ t2)%list)
        end
    | (Raise e, w1, t1) => (Raise e, w1, t1)
    end.

(** [try: m  except <classes>: h e] *)
Definition try_except {A} (m : M A) (catches : exn_class -> bool)
           (h : exn -> M A) : M A :=
  fun w =>
    match m w with
    | (Ok a, w1, t1) => (Ok a, w1, t1)
    | (Raise e, w1, t1) =>
        if catches (exn_class_of e)
        then match h e w1 with
             | (r, w2, t2) => (r, w2, (t1 ++ t2)%list)
             end
        else (Raise e, w1, t1)
    end.

(** An operation of a collaborator, recorded as [ev]. *)
Definition call {A} (ev : event) (op : W -> result A * W) : M A :=
  fun w => match op w with (r, w1) => (r, w1, [ev]) end.

Definition emit (ev : event) : M unit := fun w => (Ok tt, w, [ev]).

End Monad.

Notation "x <- m ;; k" := (bind m (fun x => k))
  (at level 61, m at next level, right associativity).
Notation "m ;;; k" := (bind m (fun _ => k))
  (at level 61, right associativity).

Definition any_exception (c : exn_class) : bool := true.

Definition is_class (c : exn_class) (c' : exn_class) : bool :=
  match c, c' with
  | TimeoutException, TimeoutException
  | NoSuchElementException, NoSuchElementException
  | WebDriverException, WebDriverException
  | IECScraperException, IECScraperException
  | RequestException, RequestException
  | HTTPError, HTTPError
  | JSONDecodeError, JSONDecodeError
  | KeyError, KeyError
  | IndexError, IndexError
  | TypeError, TypeError
  | AttributeError, AttributeError
  | BadRequest, BadRequest => true
  | _, _ => false
  end.

(* ================================================================== *)
(** * Python values: truth, [in], subscripts *)
(* ================================================================== *)

Module Py.

Definition type_name (j : json) : string :=
  match j with
  | JNull => "NoneType"
  | JBool _ => "bool"
  | JNum _ => "int"
  | JStr _ => "str"
  | JArr _ => "list"
  | JObj _ => "dict"
  end.

(** Truth value of a parsed JSON value. *)
Definition truthy (j : json) : bool :=
  match j with
  | JNull => false
  | JBool b => b
  | JNum n => negb (n =? 0)
  | JStr s => Text.nonempty s
  | JArr l => match l with [] => false | _ :: _ => true end
  | JObj l => match l with [] => false | _ :: _ => true end
  end.

Definition is_str (k : string) (j : json) : bool :=
  match j with
  | JStr s => String.eqb s k
  | _ => false
  end.

(** [k in j] for a string [k]: a key of a dict, an element of a list, a
    substring of a string, a [TypeError] on anything else. *)
Definition contains (k : string) (j : json) : result bool :=
  match j with
  | JObj items =>
      Ok (match Soup.assoc k items with Some _ => true | None => false end)
  | JArr l => Ok (existsb (is_str k) l)
  | JStr s => Ok (Text.str_in k s)
  | _ => Raise (Exn TypeError
                    ("argument of type '" ++ type_name j ++ "' is not iterable"))
  end.

(** [j[k]] for a string [k].  The messages are those of CPython 3.11
    to 3.13. *)
Definition getitem (j : json) (k : string) : result json :=
  match j with
  | JObj items =>
      match Soup.assoc k items with
      | Some v => Ok v
      | None => Raise (Exn KeyError ("'" ++ k ++ "'"))
      end
  | JArr _ =>
      Raise (Exn TypeError "list indices must be integers or slices, not str")
  | JStr _ => Raise (Exn TypeError "string indices must be integers, not 'str'")
  | _ => Raise (Exn TypeError
                    ("'" ++ type_name j ++ "' object is not subscriptable"))
  end.

(** [j[0]] *)
Definition getitem0 (j : json) : result json :=
  match j with
  | JArr (x :: _) => Ok x
  | JArr [] => Raise (Exn IndexError "list index out of range")
  | JStr (String c _) => Ok (JStr (String c EmptyString))
  | JStr EmptyString => Raise (Exn IndexError "string index out of range")
  | JObj _ => Raise (Exn KeyError "0")
  | _ => Raise (Exn TypeError
                    ("'" ++ type_name j ++ "' object is not subscriptable"))
  end.

(** [j.strip()] *)
Definition strip (j : json) : result string :=
  match j with
  | JStr s => Ok (Text.strip s)
  | _ => Raise (Exn AttributeError
                    ("'" ++ type_name j ++ "' object has no attribute 'strip'"))
  end.

(** Truth value of [None] or a string. *)
Definition truthy_text (t : option string) : bool :=
  match t with
  | None => false
  | Some s => Text.nonempty s
  end.

(** [str(n)] for an integer. *)
Definition str_of_int (n : Z) : string :=
  match n with
  | Z0 => "0"
  | Zpos p => DecimalString.NilEmpty.string_of_uint (Pos.to_uint p)
  | Zneg p => "-" ++ DecimalString.NilEmpty.string_of_uint (Pos.to_uint p)
  end.

End Py.

(* ================================================================== *)
(** * The program *)
(* ================================================================== *)

Definition dquote : string := String (ascii_of_nat 34) EmptyString.

Definition captcha_xpath : string :=
  "//*[@id=" ++ dquote ++ "captcha" ++ dquote ++ "]".
Definition captcha_input_xpath : string :=
  "//*[@id=" ++ dquote ++ "txt_Captcha" ++ dquote ++ "]".
Definition submit_xpath : string := "//button[text()='View IEC']".
Definition success_xpath : string :=
  "/html/body/div[2]/div[9]/div/div/div[1]/div/div/div[1]/div[1]/h6".
Definition view_any_iec_xpath : string :=
  "/html/body/div[2]/div[9]/div[3]/div/div[2]/div[1]/div/a".
Definition iec_input_xpath : string :=
  "//*[@id=" ++ dquote ++ "iecNo" ++ dquote ++ "]".
Definition name_input_xpath : string :=
  "//*[@id=" ++ dquote ++ "entity" ++ dquote ++ "]".
Definition api_url : string := "https://api.openai.com/v1/chat/completions".
Definition portal_url : string := "https://dgft.gov.in/CP/?opt=view-any-ice".

Definition max_attempts : Z := 5.

Section Program.
Context {W : Type} {D : WebDriver W}.
Local Abbreviation M := (Comp W).

Definition lift {A} (r : result A) : M A :=
  match r with
  | Ok a => ret a
  | Raise e => raise e
  end.

(** [driver.page_source]; the trace keeps what was read. *)
Definition page_source : M Soup.node :=
  fun w => match wd_page_source w with (r, w1) => (r, w1, [EvPageSource r]) end.

Definition wait_presence (timeout : Z) (loc : locator) : M element :=
  call (EvWaitPresence timeout loc) (wd_wait_presence timeout loc).

Definition wait_clickable (timeout : Z) (loc : locator) : M element :=
  call (EvWaitClickable timeout loc) (wd_wait_clickable timeout loc).

Definition click (e : element) : M unit := call (EvClick e) (wd_click e).

Definition send_keys (e : element) (keys : json) : M unit :=
  call (EvSendKeys e keys) (wd_send_keys e keys).

Definition get_text (e : element) : M string := call (EvGetText e) (wd_text e).

(** Lines 38-59.  The options are fixed; only the construction can fail. *)
Definition create_driver : M unit :=
  try_except
    (call EvCreateDriver wd_create_driver)
    any_exception
    (fun e => raise (Exn IECScraperException
                         ("Failed to create Chrome driver: " ++ exn_str e))).

(** Lines 61-92.  [wd_render] stands for lines 67-88: scrolling, the
    screenshot, the crop and the upscaling of the captured region. *)
Definition capture_captcha_section : M (option image) :=
  try_except
    (captcha_element <- wait_presence 5 (XPATH, captcha_xpath) ;;
     captcha_image <- call (EvRender captcha_element) (wd_render captcha_element) ;;
     ret (Some captcha_image))
    (is_class TimeoutException)
    (fun _ => ret None).

(** [response.raise_for_status()]: an [HTTPError] for a 4xx or 5xx status. *)
Definition raise_for_status (response : http_response) : M unit :=
  if (400 <=? status_code response) && (status_code response <? 600)
  then raise (Exn HTTPError (status_line response))
  else ret tt.

(** Lines 129-138: the request and the reading of its response. *)
Definition ask_solver (img_str : string) : M (option string) :=
  response <- call (EvPost api_url img_str 10) (wd_post api_url img_str 10) ;;
  raise_for_status response ;;;
  body <- lift (body_json response) ;;
  choices <- lift (Py.getitem body "choices") ;;
  choice <- lift (Py.getitem0 choices) ;;
  message <- lift (Py.getitem choice "message") ;;
  content <- lift (Py.getitem message "content") ;;
  text <- lift (Py.strip content) ;;
  ret (Some text).

(** Lines 94-140.  Entering the function is recorded as [EvSolve].  The
    encoding of lines 98-100 comes before the [try] of line 129: what it
    raises is not wrapped. *)
Definition solve_captcha_with_gpt4 (captcha_image : option image)
  : M (option string) :=
  emit (EvSolve captcha_image) ;;;
  match captcha_image with
  | None => ret None
  | Some img =>
      img_str <- lift (wd_encode img) ;;
      try_except
        (ask_solver img_str)
        any_exception
        (fun e => raise (Exn IECScraperException
                             ("GPT-4 API error: " ++ exn_str e)))
  end.

(** Lines 142-167. *)
Definition extract_table_data_with_bs4 (table_id delimiter : string)
  : M Table.pyrows :=
  soup <- page_source ;;
  ret (Table.extract_rows soup table_id delimiter).

(** How one turn of the CAPTCHA loop ends: [continue] with a new counter,
    [return], or falling through to the increment of line 262. *)
Inductive turn : Type :=
| Continue (attempt : Z)
| Return (b : bool)
| Fall.

(** Lines 244-257: filling the field, submitting and looking for the
    success heading. *)
Definition submit_captcha (captcha_text : string) : M turn :=
  captcha_input <- wait_presence 3 (XPATH, captcha_input_xpath) ;;
  call (EvClear captcha_input) (wd_clear captcha_input) ;;;
  send_keys captcha_input (JStr captcha_text) ;;;
  submit_button <- wait_clickable 3 (XPATH, submit_xpath) ;;
  click submit_button ;;;
  try_except
    (success <- wait_presence 3 (XPATH, success_xpath) ;;
     heading <- get_text success ;;
     if Text.str_in "IEC Details" heading then ret (Return true) else ret Fall)
    (is_class TimeoutException)
    (fun _ => ret Fall).

(** Lines 237-257: the body of the [try] statement of one turn.  Past
    the test of line 240 the text is a non-empty string. *)
Definition attempt_body (attempt : Z) : M turn :=
  captcha_image <- capture_captcha_section ;;
  captcha_text <- solve_captcha_with_gpt4 captcha_image ;;
  if negb (Py.truthy_text captcha_text)
  then ret (Continue (attempt + 1))
  else submit_captcha (match captcha_text with Some t => t | None => EmptyString end).

(** Lines 236-260: the [try] statement of one turn. *)
Definition captcha_turn (attempt : Z) : M turn :=
  try_except
    (attempt_body attempt)
    any_exception
    (fun e =>
       emit (EvPrint ("Attempt " ++ Py.str_of_int (attempt + 1) ++ " error: "
                      ++ exn_str e)) ;;;
       ret Fall).

(** Lines 235-264: [while attempt < max_attempts].  [None] only when the
    fuel runs out before the loop ends. *)
Fixpoint captcha_loop (fuel : nat) (attempt : Z) : M (option bool) :=
  if attempt <? max_attempts then
    match fuel with
    | O => ret None
    | S fuel' =>
        t <- captcha_turn attempt ;;
        match t with
        | Continue attempt' => captcha_loop fuel' attempt'
        | Return b => ret (Some b)
        | Fall => captcha_loop fuel' (attempt + 1)
        end
    end
  else ret (Some false).

(** Lines 230-264. *)
Definition handle_captcha_submission : M (option bool) :=
  captcha_loop (Z.to_nat max_attempts) 0.

End Program.

Section Walker.
Context {W : Type} {D : WebDriver W}.
Local Abbreviation M := (Comp W).

(** Lines 185-188: what the page contributes to [all_rows]. *)
Definition page_contribution (page : Z) (current_page_rows : Table.pyrows)
  : list string :=
  if page =? 1 then Table.py_items current_page_rows
  else if Table.py_truthy current_page_rows
       then Table.py_items (Table.py_slice1 current_page_rows)
       else [].

(** Lines 204-206: the handler of the outer [try]. *)
Definition walk_error (page : Z) (e : exn) : M (option Z) :=
  emit (EvPrint ("Error on page " ++ Py.str_of_int page ++ ": " ++ exn_str e)) ;;;
  ret None.

(** Lines 191-202: the next page to load, or [None] to leave the loop. *)
Definition next_page (next_button_id : string) (page : Z) : M (option Z) :=
  try_except
    (next_button <- wait_presence 10 (ID, next_button_id) ;;
     class <- call (EvGetAttribute next_button "class")
                   (wd_get_attribute next_button "class") ;;
     match class with
     | None =>
         raise (Exn TypeError "argument of type 'NoneType' is not iterable")
     | Some cls =>
         if Text.str_in "disabled" cls then ret None
         else
           click next_button ;;;
           emit (EvSleep 1) ;;;
           ret (Some (page + 1))
     end)
    (fun c => is_class NoSuchElementException c || is_class TimeoutException c)
    (fun _ => ret None).

(** Lines 176-206: one turn of [while True].  [all_rows] is a list that
    is extended in place, so what was appended before an exception stays:
    the turn answers with the new list and the next page, if any. *)
Definition walk_turn (table_id next_button_id delimiter : string)
           (page : Z) (all_rows : list string) : M (list string * option Z) :=
  loaded <- try_except
              (call (EvWaitPresence 10 (ID, table_id))
                    (wd_wait_presence 10 (ID, table_id)) ;;;
               call (EvWaitRows 10 ("#" ++ table_id ++ " tbody tr"))
                    (wd_wait_rows 10 ("#" ++ table_id ++ " tbody tr")) ;;;
               current_page_rows <- extract_table_data_with_bs4 table_id delimiter ;;
               ret (Some current_page_rows))
              any_exception
              (fun e => walk_error page e ;;; ret None) ;;
  match loaded with
  | None => ret (all_rows, None)
  | Some current_page_rows =>
      let all_rows := (all_rows ++ page_contribution page current_page_rows)%list in
      next <- try_except (next_page next_button_id page) any_exception
                         (walk_error page) ;;
      ret (all_rows, next)
  end.

(** Lines 175-206.  [None] only when the fuel runs out: the loop has no
    bound of its own. *)
Fixpoint walk_loop (fuel : nat) (table_id next_button_id delimiter : string)
         (page : Z) (all_rows : list string) : M (option (list string)) :=
  match fuel with
  | O => ret None
  | S fuel' =>
      r <- walk_turn table_id next_button_id delimiter page all_rows ;;
      match r with
      | (all_rows, Some page) =>
          walk_loop fuel' table_id next_button_id delimiter page all_rows
      | (all_rows, None) => ret (Some all_rows)
      end
  end.

(** Lines 169-209. *)
Definition extract_table_data_with_pagination (fuel : nat)
           (table_id next_button_id delimiter : string) : M (option string) :=
  r <- walk_loop fuel table_id next_button_id delimiter 1 [] ;;
  ret (option_map (Text.join Text.nl) r).

(** Lines 217-224: the loop over the field groups. *)
Fixpoint iec_groups (form_groups : list element) (details : list string)
  : M (list string) :=
  match form_groups with
  | [] => ret details
  | form_group :: rest =>
      details <- try_except
                   (label_e <- call (EvFindChild form_group (TAG_NAME, "label"))
                                    (wd_find_child form_group (TAG_NAME, "label")) ;;
                    label_text <- get_text label_e ;;
                    value_e <- call (EvFindChild form_group (TAG_NAME, "p"))
                                    (wd_find_child form_group (TAG_NAME, "p")) ;;
                    value_text <- get_text value_e ;;
                    let label := Text.strip label_text in
                    let value := Text.strip value_text in
                    if Text.nonempty label && Text.nonempty value
                    then ret (details ++ [(label ++ ";" ++ value)%string])%list
                    else ret details)
                   (is_class NoSuchElementException)
                   (fun _ => ret details) ;;
      iec_groups rest details
  end.

(** Lines 211-228. *)
Definition extract_iec_details : M string :=
  details <- try_except
               (form_groups <- call (EvWaitAllPresent 10 (CLASS_NAME, "form-group"))
                                    (wd_wait_all_present 10 (CLASS_NAME, "form-group")) ;;
                iec_groups form_groups [])
               any_exception
               (fun e => raise (Exn IECScraperException
                                    ("Error extracting IEC details: " ++ exn_str e))) ;;
  ret (Text.join Text.nl details).

End Walker.

(* ================================================================== *)
(** * The request handler *)
(* ================================================================== *)

(** The inbound request: what [request.get_json()] yields, [None] being
    [JNull]; Flask raises for a body it cannot decode. *)
Record request : Type := Request { get_json : result json }.

(** A response: the JSON body and the HTTP status. *)
Definition response : Type := (json * Z)%type.

Definition failure (error : string) (status : Z) : response :=
  (JObj [("success", JBool false); ("error", JStr error)], status).

Definition missing_parameters : response :=
  failure "Missing required parameters: iec_code and name" 400.

Definition captcha_failure : response := failure "Failed to solve captcha" 400.

Definition success (iec_details branch_details : string) : response :=
  (JObj [("success", JBool true);
         ("details", JObj [("iec_details", JStr iec_details);
                           ("branch_details", JStr branch_details)])], 200).

(** Line 270: [not data or 'iec_code' not in data or 'name' not in data] *)
Definition lacks_parameters (data : json) : result bool :=
  if negb (Py.truthy data) then Ok true
  else match Py.contains "iec_code" data with
       | Raise e => Raise e
       | Ok false => Ok true
       | Ok true =>
           match Py.contains "name" data with
           | Raise e => Raise e
           | Ok b => Ok (negb b)
           end
       end.

Section Handler.
Context {W : Type} {D : WebDriver W}.
Local Abbreviation M := (Comp W).

(** Lines 284-294: opening the form and typing the two inputs. *)
Definition open_form (iec_code name : json) : M unit :=
  call (EvGet portal_url) (wd_get portal_url) ;;;
  view_any_iec_button <- wait_clickable 5 (XPATH, view_any_iec_xpath) ;;
  click view_any_iec_button ;;;
  iec_input <- wait_presence 5 (XPATH, iec_input_xpath) ;;
  name_input <- call (EvFindElement (XPATH, name_input_xpath))
                     (wd_find_element (XPATH, name_input_xpath)) ;;
  send_keys iec_input iec_code ;;;
  send_keys name_input name.

(** Lines 282-311: the browser work once the session exists. *)
Definition lookup (fuel : nat) (iec_code name : json) : M (option response) :=
  open_form iec_code name ;;;
  solved <- handle_captcha_submission ;;
  match solved with
  | None => ret None
  | Some false => ret (Some captcha_failure)
  | Some true =>
      iec_details <- extract_iec_details ;;
      branch <- extract_table_data_with_pagination
                  fuel "branchTable" "branchTable_next" ";" ;;
      match branch with
      | None => ret None
      | Some branch_details => ret (Some (success iec_details branch_details))
      end
  end.

(** Lines 279-320.  [driver] stays [None] when [create_driver] raises, so
    the [finally] clause quits the session only after a successful
    creation; what [driver.quit()] raises there takes the place of the
    response.  A lookup that is still walking when the fuel runs out has
    not reached the [finally] clause: nothing is quit. *)
Definition session (fuel : nat) (iec_code name : json) : M (option response) :=
  created <- try_except (create_driver ;;; ret None) any_exception
                        (fun e => ret (Some (failure (exn_str e) 500))) ;;
  match created with
  | Some resp => ret (Some resp)
  | None =>
      resp <- try_except (lookup fuel iec_code name) any_exception
                         (fun e => ret (Some (failure (exn_str e) 500))) ;;
      match resp with
      | None => ret None
      | Some r =>
          call EvQuit wd_quit ;;;
          ret (Some r)
      end
  end.

(** Lines 267-326. *)
Definition get_iec_details (fuel : nat) (req : request) : M (option response) :=
  try_except
    (data <- lift (get_json req) ;;
     lacking <- lift (lacks_parameters data) ;;
     if lacking then ret (Some missing_parameters)
     else
       iec_code <- lift (Py.getitem data "iec_code") ;;
       name <- lift (Py.getitem data "name") ;;
       session fuel iec_code name)
    any_exception
    (fun e => ret (Some (failure ("Server error: " ++ exn_str e) 500))).

End Handler.

(* ================================================================== *)
(** * A scripted world: the collaborators answer from a list, in order *)
(* ================================================================== *)

Module Script.

Inductive answer : Type :=
| AUnit
| AElem (e : element)
| AElems (l : list element)
| AImage (img : image)
| AText (s : string)
| AAttr (v : option string)
| APage (src : Soup.node)
| AHttp (r : http_response)
| AFail (e : exn).

Definition world : Type := list answer.

Definition off_script : exn := Exn WebDriverException "unexpected call".

(** The next answer, read by [pick]; a failure is raised. *)
Definition next {A} (pick : answer -> option A) (w : world) : result A * world :=
  match w with
  | [] => (Raise off_script, [])
  | AFail e :: w' => (Raise e, w')
  | a :: w' =>
      match pick a with
      | Some x => (Ok x, w')
      | None => (Raise off_script, w')
      end
  end.

Definition a_unit (a : answer) : option unit :=
  match a with AUnit => Some tt | _ => None end.
Definition a_elem (a : answer) : option element :=
  match a with AElem e => Some e | _ => None end.
Definition a_elems (a : answer) : option (list element) :=
  match a with AElems l => Some l | _ => None end.
Definition a_image (a : answer) : option image :=
  match a with AImage i => Some i | _ => None end.
Definition a_text (a : answer) : option string :=
  match a with AText s => Some s | _ => None end.
Definition a_attr (a : answer) : option (option string) :=
  match a with AAttr v => Some v | _ => None end.
Definition a_page (a : answer) : option Soup.node :=
  match a with APage p => Some p | _ => None end.
Definition a_http (a : answer) : option http_response :=
  match a with AHttp r => Some r | _ => None end.

#[global] Instance scripted : WebDriver world := {|
  wd_create_driver := next a_unit;
  wd_get := fun _ => next a_unit;
  wd_wait_presence := fun _ _ => next a_elem;
  wd_wait_all_present := fun _ _ => next a_elems;
  wd_wait_clickable := fun _ _ => next a_elem;
  wd_wait_rows := fun _ _ => next a_unit;
  wd_find_element := fun _ => next a_elem;
  wd_find_child := fun _ _ => next a_elem;
  wd_render := fun _ => next a_image;
  wd_click := fun _ => next a_unit;
  wd_clear := fun _ => next a_unit;
  wd_send_keys := fun _ _ => next a_unit;
  wd_text := fun _ => next a_text;
  wd_get_attribute := fun _ _ => next a_attr;
  wd_page_source := next a_page;
  wd_post := fun _ _ _ => next a_http;
  wd_quit := next a_unit;
  wd_encode := fun img => Ok img
|}.

Definition timeout : answer := AFail (Exn TimeoutException "Message: ").

(** The answers of one page of the paginated table: the table is
    present, it has rows, its source is [src], the next control carries
    the class [cls], and the click on it (when it is enabled) succeeds. *)
Definition page_answers (src : Soup.node) (cls : string) : list answer :=
  ([AElem 1%nat; AUnit; APage src; AElem 2%nat; AAttr (Some cls)]
   ++ (if Text.str_in "disabled" cls then [] else [AUnit]))%list.

Definition next_enabled : string := "paginate_button next".
Definition next_disabled : string := "paginate_button next disabled".

(** A portal that serves the pages in order; only the last has its next
    control disabled. *)
Fixpoint portal (pages : list Soup.node) : world :=
  match pages with
  | [] => []
  | [p] => page_answers p next_disabled
  | p :: rest => (page_answers p next_enabled ++ portal rest)%list
  end.

(** The answer of the solver service with the given status and token. *)
Definition solver_says (status : Z) (token : string) : answer :=
  AHttp (HttpResponse status "status"
           (Ok (JObj [("choices",
                       JArr [JObj [("message",
                                    JObj [("content", JStr token)])]])]))).

(** A table page with the given header cells and body rows. *)
Definition cell (tag text : string) : Soup.node :=
  Soup.Elem tag [] [Soup.Text text].

Definition table_page (id : string) (headers : list string)
           (rows : list (list string)) : Soup.node :=
  Soup.Elem "[document]" []
    [Soup.Elem "table" [("id", id)]
       [Soup.Elem "thead" [] [Soup.Elem "tr" [] (map (cell "th") headers)];
        Soup.Elem "tbody" []
          (map (fun r => Soup.Elem "tr" [] (map (cell "td") r)) rows)]].

End Script.

(* ================================================================== *)
(** * Concrete pages, requests and scripts *)
(* ================================================================== *)

Module Examples.
Import Script.

(** Two pages of the branch table, each with the header and two rows. *)
Definition branches1 : Soup.node :=
  table_page "branchTable" ["Branch"; "City"] [["B1"; "Pune"]; ["B2"; "Agra"]].
Definition branches2 : Soup.node :=
  table_page "branchTable" ["Branch"; "City"] [["B3"; "Kochi"]; ["B4"; "Surat"]].

(** The same rows under a head section whose cells are blank. *)
Definition bare1 : Soup.node :=
  table_page "branchTable" [" "; " "] [["B1"; "Pune"]; ["B2"; "Agra"]].
Definition bare2 : Soup.node :=
  table_page "branchTable" [" "; " "] [["B3"; "Kochi"]; ["B4"; "Surat"]].

(** A header cell with two inner spaces, a body cell with two inner
    spaces, and a row of blank cells. *)
Definition spaced : Soup.node :=
  table_page "branchTable" ["Branch  Name"; " City "]
             [["B1  East"; " Pune "]; ["  "; " "]].


(** The answers up to the CAPTCHA: the session is created, the portal
    loads, the link is found and clicked, the two inputs are found and
    filled. *)
Definition form_answers : world :=
  [AUnit; AUnit; AElem 1%nat; AUnit; AElem 2%nat; AElem 3%nat; AUnit; AUnit].

(** The same without the creation of the session. *)
Definition form_answers_created : world := tl form_answers.

(** A portal whose CAPTCHA never renders: each of the five captures
    times out; the session is then quit. *)
Definition captcha_never_renders : world :=
  (form_answers ++ repeat timeout 5 ++ [AUnit])%list.

(** The same, with a browser that is gone when the session is quit. *)
Definition captcha_never_renders_quit_fails : world :=
  (form_answers ++ repeat timeout 5
     ++ [AFail (Exn WebDriverException "chrome not reachable")])%list.

Definition acme_body : json :=
  JObj [("iec_code", JStr "0101000061"); ("name", JStr "ACME EXPORTS")].

Definition empty_body : list (string * json) :=
  [("iec_code", JStr EmptyString); ("name", JStr EmptyString)].

End Examples.

(* ================================================================== *)
(** * Reading a run: its result, its trace, and counts of events *)
(* ================================================================== *)

Definition outcome {W A} (run : result A * W * list event) : result A :=
  fst (fst run).

Definition trace {W A} (run : result A * W * list event) : list event :=
  snd run.

Definition count (p : event -> bool) (t : list event) : nat :=
  List.length (filter p t).

(** A call of [solve_captcha_with_gpt4]. *)
Definition is_solve (ev : event) : bool :=
  match ev with EvSolve _ => true | _ => false end.

(** A request sent to the solver service. *)
Definition is_post (ev : event) : bool :=
  match ev with EvPost _ _ _ => true | _ => false end.

(** Filling a field or clicking: what a submission is made of. *)
Definition is_submission (ev : event) : bool :=
  match ev with
  | EvClear _ | EvSendKeys _ _ | EvClick _ => true
  | _ => false
  end.

(** The page sources read during a run, in order. *)
Definition pages_read (t : list event) : list Soup.node :=
  flat_map (fun ev => match ev with EvPageSource (Ok p) => [p] | _ => [] end) t.

Definition is_page_source (ev : event) : bool :=
  match ev with EvPageSource _ => true | _ => false end.

(** At most [n] events of the trace satisfy [p], whatever the world. *)
Definition atmost {W A} (p : event -> bool) (n : nat) (m : Comp W A) : Prop :=
  forall w, (count p (trace (m w)) <= n)%nat.

(** The computation never raises. *)
Definition safe {W A} (m : Comp W A) : Prop :=
  forall w, exists a, outcome (m w) = Ok a.

(** Every value the computation returns satisfies [Q]. *)
Definition yields {W A} (Q : A -> Prop) (m : Comp W A) : Prop :=
  forall w a, outcome (m w) = Ok a -> Q a.

(** The merge policy of the pagination walk: the first page gives every
    line of its extraction, each later page its lines but the first. *)
Definition merged (table_id delimiter : string) (pages : list Soup.node)
  : list string :=
  match pages with
  | [] => []
  | first :: later =>
      (Table.py_items (Table.extract_rows first table_id delimiter)
       ++ flat_map (fun p => tl (Table.py_items
                                   (Table.extract_rows p table_id delimiter)))
                   later)%list
  end.

(** The table of the page yields the header line [h]. *)
Definition has_header (table_id delimiter : string) (p : Soup.node) (h : string)
  : Prop :=
  exists table, Table.find_table p table_id = Some table
                /\ Table.header_lines delimiter table = [h].

(** The body lines of the table of the page. *)
Definition body_of (table_id delimiter : string) (p : Soup.node) : list string :=
  match Table.find_table p table_id with
  | Some table => Table.body_lines delimiter table
  | None => []
  end.

(** The header lines the extractor emits for the page: none or one. *)
Definition header_of (table_id delimiter : string) (p : Soup.node) : list string :=
  match Table.find_table p table_id with
  | Some table => Table.header_lines delimiter table
  | None => []
  end.

(** How many of the lines are a header line of one of the pages. *)
Definition header_line_count (table_id delimiter : string)
           (pages : list Soup.node) (lines : list string) : nat :=
  List.length
    (filter (fun l => existsb (fun p => existsb (String.eqb l)
                                                (header_of table_id delimiter p))
                              pages)
            lines).

(** What the pages contribute, the first of them being page [page]. *)
Fixpoint contributions (table_id delimiter : string) (page : Z)
         (pages : list Soup.node) : list string :=
  match pages with
  | [] => []
  | p :: rest =>
      (page_contribution page (Table.extract_rows p table_id delimiter)
       ++ contributions table_id delimiter (page + 1) rest)%list
  end.

(** A world in which every operation raises. *)
Module Broken.

Definition crash : exn := Exn WebDriverException "chrome not reachable".

#[global] Instance broken : WebDriver unit := {|
  wd_create_driver := fun w => (Raise crash, w);
  wd_get := fun _ w => (Raise crash, w);
  wd_wait_presence := fun _ _ w => (Raise crash, w);
  wd_wait_all_present := fun _ _ w => (Raise crash, w);
  wd_wait_clickable := fun _ _ w => (Raise crash, w);
  wd_wait_rows := fun _ _ w => (Raise crash, w);
  wd_find_element := fun _ w => (Raise crash, w);
  wd_find_child := fun _ _ w => (Raise crash, w);
  wd_render := fun _ w => (Raise crash, w);
  wd_click := fun _ w => (Raise crash, w);
  wd_clear := fun _ w => (Raise crash, w);
  wd_send_keys := fun _ _ w => (Raise crash, w);
  wd_text := fun _ w => (Raise crash, w);
  wd_get_attribute := fun _ _ w => (Raise crash, w);
  wd_page_source := fun w => (Raise crash, w);
  wd_post := fun _ _ _ w => (Raise crash, w);
  wd_quit := fun w => (Raise crash, w);
  wd_encode := fun _ => Raise crash
|}.

End Broken.

(* ================================================================== *)
(** * Further observations: characters of a line, kinds of events,
      parts of a response *)
(* ================================================================== *)

(** The character occurs in the string. *)
Fixpoint mentions (c : ascii) (s : string) : bool :=
  match s with
  | EmptyString => false
  | String c' s' => Ascii.eqb c' c || mentions c s'
  end.

Definition newline : ascii := "010"%char.

Definition is_quit (ev : event) : bool :=
  match ev with EvQuit => true | _ => false end.

Definition is_create (ev : event) : bool :=
  match ev with EvCreateDriver => true | _ => false end.

Definition is_click (ev : event) : bool :=
  match ev with EvClick _ => true | _ => false end.

Definition is_render (ev : event) : bool :=
  match ev with EvRender _ => true | _ => false end.

Definition is_print (ev : event) : bool :=
  match ev with EvPrint _ => true | _ => false end.

(** A call of the solver that was given an image. *)
Definition is_solve_image (ev : event) : bool :=
  match ev with EvSolve (Some _) => true | _ => false end.

(** What lines 237-254 do, in order, when each step returns: the wait for
    the CAPTCHA and the capture of its region, the call of the solver and
    its request, the wait for the input field, its clearing and filling,
    the wait for the button and the click on it, the wait for the success
    heading and the reading of its text. *)
Definition solved_turn_events (captcha_element : element) (captcha_image : image)
           (img_str : string) (captcha_input : element) (captcha_text : string)
           (submit_button success : element) : list event :=
  [EvWaitPresence 5 (XPATH, captcha_xpath); EvRender captcha_element;
   EvSolve (Some captcha_image); EvPost api_url img_str 10;
   EvWaitPresence 3 (XPATH, captcha_input_xpath); EvClear captcha_input;
   EvSendKeys captcha_input (JStr captcha_text);
   EvWaitClickable 3 (XPATH, submit_xpath); EvClick submit_button;
   EvWaitPresence 3 (XPATH, success_xpath); EvGetText success].

(** The status of a response and its [success] flag. *)
Definition status_of (r : response) : Z := snd r.

Definition success_flag (r : response) : option bool :=
  match fst r with
  | JObj items =>
      match Soup.assoc "success" items with
      | Some (JBool b) => Some b
      | _ => None
      end
  | _ => None
  end.

(** The two shapes of a response: a success of status 200, a failure of
    status 400 or 500. *)
Definition well_formed (resp : response) : Prop :=
  (status_of resp = 200 /\ success_flag resp = Some true)
  \/ ((status_of resp = 400 \/ status_of resp = 500)
      /\ success_flag resp = Some false).

(** Where a line of the extractor comes from. *)
Inductive origin : Type := FromHead | FromBody.

(** The lines the extractor emits for the page, each with its origin. *)
Definition tagged_lines (table_id delimiter : string) (p : Soup.node)
  : list (origin * string) :=
  (map (pair FromHead) (header_of table_id delimiter p)
   ++ map (pair FromBody) (body_of table_id delimiter p))%list.

(** The merge policy of the walk on lines with their origin. *)
Definition merged_tagged (table_id delimiter : string) (pages : list Soup.node)
  : list (origin * string) :=
  match pages with
  | [] => []
  | first :: later =>
      (tagged_lines table_id delimiter first
       ++ flat_map (fun p => tl (tagged_lines table_id delimiter p)) later)%list
  end.

Definition from_head (l : origin * string) : bool :=
  match fst l with FromHead => true | FromBody => false end.

(** How many of the lines come from a head section. *)
Definition from_head_count (l : list (origin * string)) : nat :=
  List.length (filter from_head l).

(** The world a run leaves. *)
Definition world_after {W A} (run : result A * W * list event) : W :=
  snd (fst run).

(** The [n] attempts made from the counter [attempt] in the world [w]
    all fail: the body of none of them returns [True], be it that it
    ends otherwise or that it raises. *)
Fixpoint attempts_fail {W} {D : WebDriver W} (n : nat) (attempt : Z) (w : W)
  : Prop :=
  match n with
  | O => True
  | S n' =>
      outcome (attempt_body attempt w) <> Ok (Return true)
      /\ attempts_fail n' (attempt + 1) (world_after (captcha_turn attempt w))
  end.

(** A line of the detail panel: a stripped, non-empty label and a
    stripped, non-empty value around a semicolon. *)
Definition detail_line (line : string) : Prop :=
  exists label_text value_text,
    line = Text.strip label_text ++ ";" ++ Text.strip value_text
    /\ Text.nonempty (Text.strip label_text) = true
    /\ Text.nonempty (Text.strip value_text) = true.

Module MoreExamples.
Import Script.

(** One turn that solves the CAPTCHA: the image is captured, the solver
    answers [AB12] with spaces around it, the text is submitted and the
    heading of the details page shows. *)
Definition solved_turn : world :=
  [AElem 0%nat; AImage "png"; solver_says 200 " AB12 ";
   AElem 4%nat; AUnit; AUnit; AElem 5%nat; AUnit;
   AElem 6%nat; AText "IEC Details of the firm"].

(** One turn whose text is submitted without the success heading
    showing: the wait for the heading times out. *)
Definition unsolved_turn : world :=
  [AElem 0%nat; AImage "png"; solver_says 200 "AB12";
   AElem 4%nat; AUnit; AUnit; AElem 5%nat; AUnit; timeout].

(** A portal that never shows the success heading: five such turns. *)
Definition never_solved : world := List.concat (repeat unsolved_turn 5).

(** A detail panel of three groups: a full one, one without its value
    element, one whose value is blank. *)
Definition panel : world :=
  [AElems [10%nat; 11%nat; 12%nat];
   AElem 20%nat; AText " IEC Number "; AElem 21%nat; AText " 0101000061 ";
   AElem 22%nat; AText "PAN";
   AFail (Exn NoSuchElementException "no such element");
   AElem 24%nat; AText "Firm"; AElem 25%nat; AText "   "].

(** A whole lookup: the form, a solved CAPTCHA, the panel, two pages
    of branches, and the quit. *)
Definition lookup_answers : world :=
  (Examples.form_answers ++ solved_turn ++ panel
     ++ portal [Examples.branches1; Examples.branches2] ++ [AUnit])%list.

(** A lookup whose detail panel never shows after the solved CAPTCHA;
    the session is then quit. *)
Definition panel_missing : world :=
  (Examples.form_answers ++ solved_turn ++ [timeout; AUnit])%list.

(** A machine on which the browser does not start. *)
Definition no_browser : world := [AFail Broken.crash].

(** The whole lookup, with a browser that is gone when the session is
    quit. *)
Definition lookup_answers_quit_fails : world :=
  (Examples.form_answers ++ solved_turn ++ panel
     ++ portal [Examples.branches1; Examples.branches2]
     ++ [AFail Broken.crash])%list.

End MoreExamples.

(* ================================================================== *)
(** * Facts about text *)
(* ================================================================== *)

Module TextFacts.
Import Text.

Lemma solid_snoc (s : string) (c : ascii) :
  solid s = true -> is_space c = false -> solid (s ++ String c EmptyString) = true.
Proof.
  induction s as [|a s IH]; simpl; intros Hs Hc.
  - now rewrite Hc.
  - apply andb_true_iff in Hs as [Ha Hs]. rewrite Ha. simpl. auto.
Qed.

(** Every word [split] yields is non-empty and free of whitespace. *)
Lemma split_from_words (s cur : string) :
  solid cur = true ->
  Forall (fun w => nonempty w = true /\ solid w = true) (split_from cur s).
Proof.
  revert cur. induction s as [|c s IH]; intros cur Hcur; simpl.
  - destruct (nonempty cur) eqn:E; auto.
  - destruct (is_space c) eqn:Ec.
    + destruct (nonempty cur) eqn:E; auto.
    + apply IH. now apply solid_snoc.
Qed.

Lemma split_words (s : string) :
  Forall (fun w => nonempty w = true /\ solid w = true) (split s).
Proof. now apply split_from_words. Qed.

Lemma split_from_nil (s cur : string) :
  split_from cur s = [] <-> cur = EmptyString /\ blank s = true.
Proof.
  revert cur. induction s as [|c s IH]; intros cur; simpl.
  - destruct cur; simpl; split; easy.
  - destruct (is_space c) eqn:Ec; simpl.
    + destruct cur; simpl.
      * rewrite IH. tauto.
      * split; [discriminate | intros [? _]; discriminate].
    + rewrite IH. split; [intros [H _] | intros [_ H]; discriminate].
      destruct cur; discriminate.
Qed.

Lemma split_nil (s : string) : split s = [] <-> blank s = true.
Proof. unfold split. rewrite split_from_nil. tauto. Qed.

Lemma solid_no_ws_run (w : string) : solid w = true -> no_ws_run w = true.
Proof.
  induction w as [|c w IH]; simpl; auto.
  intros H. apply andb_true_iff in H as [Hc Hw].
  apply negb_true_iff in Hc. rewrite Hc. simpl. auto.
Qed.

Lemma solid_ends (w : string) : solid w = true -> ends_with_space w = false.
Proof.
  induction w as [|c w IH]; simpl; auto.
  intros H. apply andb_true_iff in H as [Hc Hw].
  apply negb_true_iff in Hc. destruct w; auto.
Qed.

Lemma ends_append (w r : string) :
  nonempty r = true -> ends_with_space (w ++ r) = ends_with_space r.
Proof.
  intros Hr. induction w as [|c w IH]; simpl; auto.
  rewrite <- IH. destruct (w ++ r) eqn:E; auto.
  destruct w; simpl in E; [subst r; discriminate | discriminate].
Qed.

Lemma no_ws_run_sep (w r : string) :
  solid w = true -> no_ws_run r = true -> starts_with_space r = false ->
  nonempty r = true ->
  no_ws_run (w ++ String " " r) = true.
Proof.
  intros Hw Hr Hs Hn. induction w as [|c w IH]; simpl.
  - destruct r as [|c' r']; [discriminate|]. simpl in Hs. rewrite Hs.
    simpl. exact Hr.
  - simpl in Hw. apply andb_true_iff in Hw as [Hc Hw].
    apply negb_true_iff in Hc. rewrite Hc. simpl. auto.
Qed.

Lemma starts_append (w r : string) :
  nonempty w = true -> starts_with_space (w ++ r) = starts_with_space w.
Proof. destruct w; simpl; [discriminate | auto]. Qed.

Lemma solid_starts (w : string) : solid w = true -> starts_with_space w = false.
Proof.
  destruct w; simpl; auto. intros H. apply andb_true_iff in H as [Hc _].
  now apply negb_true_iff in Hc.
Qed.

(** Words joined by single spaces form a normalized string. *)
Lemma join_words_normalized (ws : list string) :
  Forall (fun w => nonempty w = true /\ solid w = true) ws ->
  normalized (join " " ws) = true
  /\ (ws <> [] -> nonempty (join " " ws) = true).
Proof.
  induction 1 as [|w ws [Hn Hs] Hws [IHn IHe]]; [split; [reflexivity | congruence]|].
  unfold join in *. simpl. destruct ws as [|w' ws'].
  - split; [|auto]. unfold normalized.
    rewrite solid_starts, solid_ends, solid_no_ws_run; auto.
  - specialize (IHe ltac:(discriminate)).
    set (r := concat " " (w' :: ws')) in *.
    unfold normalized in IHn.
    apply andb_true_iff in IHn as [IHn Hrun].
    apply andb_true_iff in IHn as [Hst Hen].
    apply negb_true_iff in Hst, Hen.
    split.
    + unfold normalized. change (w ++ " " ++ r) with (w ++ String " " r).
      rewrite starts_append by auto. rewrite solid_starts by auto.
      rewrite ends_append by reflexivity.
      assert (ends_with_space (String " " r) = ends_with_space r) as ->.
      { destruct r; [discriminate | reflexivity]. }
      rewrite Hen. rewrite no_ws_run_sep; auto.
    + destruct w; [discriminate | reflexivity].
Qed.

Lemma lstrip_starts (s : string) : starts_with_space (lstrip s) = false.
Proof.
  induction s as [|c s IH]; simpl; auto.
  destruct (is_space c) eqn:E; simpl; auto.
Qed.

Lemma rstrip_starts (s : string) :
  starts_with_space s = false -> starts_with_space (rstrip s) = false.
Proof.
  destruct s as [|c s]; simpl; auto. intros E. rewrite E. simpl. exact E.
Qed.

Lemma strip_starts (s : string) : starts_with_space (strip s) = false.
Proof. apply rstrip_starts, lstrip_starts. Qed.

Lemma lstrip_blank (s : string) : lstrip s = EmptyString <-> blank s = true.
Proof.
  induction s as [|c s IH]; simpl; [tauto|].
  destruct (is_space c); simpl; [exact IH | split; discriminate].
Qed.

Lemma rstrip_empty (s : string) :
  starts_with_space s = false -> rstrip s = EmptyString -> s = EmptyString.
Proof.
  destruct s as [|c s]; simpl; auto. intros E. rewrite E. discriminate.
Qed.

(** [strip] leaves nothing exactly when the text is blank. *)
Lemma strip_blank (s : string) : strip s = EmptyString <-> blank s = true.
Proof.
  unfold strip. rewrite <- lstrip_blank. split.
  - apply rstrip_empty, lstrip_starts.
  - intros ->. reflexivity.
Qed.

Lemma starts_blank (s : string) :
  starts_with_space s = false -> nonempty s = negb (blank s).
Proof. destruct s; simpl; auto. intros ->. reflexivity. Qed.

End TextFacts.


(* ================================================================== *)
(** * Facts about the table extractor *)
(* ================================================================== *)

Module TableFacts.
Import Text TextFacts Soup Table.

(** Collapsing always yields a normalized string. *)
Lemma normalize_normalized (s : string) : normalized (normalize s) = true.
Proof. apply join_words_normalized, split_words. Qed.

Lemma normalize_starts (s : string) : starts_with_space (normalize s) = false.
Proof.
  pose proof (normalize_normalized s) as H. unfold normalized in H.
  apply andb_true_iff in H as [H _]. apply andb_true_iff in H as [H _].
  now apply negb_true_iff in H.
Qed.

(** Collapsing leaves nothing exactly when the text is blank. *)
Lemma normalize_blank (s : string) : normalize s = EmptyString <-> blank s = true.
Proof.
  rewrite <- split_nil. unfold normalize. split.
  - intros E. destruct (split s) as [|w ws] eqn:Es; auto.
    pose proof (split_words s) as Hw. rewrite Es in Hw.
    pose proof (proj2 (join_words_normalized _ Hw) ltac:(discriminate)) as Hne.
    rewrite E in Hne. discriminate.
  - intros ->. reflexivity.
Qed.

Lemma concat_starts (l : list string) :
  Forall (fun x => nonempty x = true /\ starts_with_space x = false) l ->
  starts_with_space (join EmptyString l) = false.
Proof.
  unfold join. destruct 1 as [|x l [Hn Hs] Hl]; simpl; auto.
  destruct l; auto. now rewrite starts_append.
Qed.

Lemma get_text_strip_starts (n : node) :
  starts_with_space (get_text_strip n) = false.
Proof.
  apply concat_starts. apply Forall_forall. intros x Hx.
  apply filter_In in Hx as [Hx Hn]. split; auto.
  apply in_map_iff in Hx as [y [<- _]]. apply strip_starts.
Qed.

(** A header cell is empty exactly when it is blank. *)
Lemma header_cell_blank (thead : node) (c : string) :
  In c (header_cells thead) -> nonempty c = negb (blank c).
Proof.
  intros H. apply in_map_iff in H as [n [<- _]].
  apply starts_blank, get_text_strip_starts.
Qed.

(** A body cell is empty exactly when it is blank. *)
Lemma row_cell_blank (tr : node) (c : string) :
  In c (row_cells tr) -> nonempty c = negb (blank c).
Proof.
  intros H. apply in_map_iff in H as [n [<- _]].
  apply starts_blank, normalize_starts.
Qed.

(** Every body cell is whitespace-normalized. *)
Lemma row_cells_normalized (tr : node) (c : string) :
  In c (row_cells tr) -> normalized c = true.
Proof.
  intros H. apply in_map_iff in H as [n [<- _]]. apply normalize_normalized.
Qed.

Lemma any_str_blank (cells : list string) :
  (forall c, In c cells -> nonempty c = negb (blank c)) ->
  any_str cells = negb (forallb blank cells).
Proof.
  induction cells as [|c cells IH]; intros H; simpl; auto.
  rewrite (H c) by now left. rewrite negb_andb. f_equal.
  apply IH. intros; apply H; now right.
Qed.

Lemma header_lines_cases (d : string) (table : node) :
  header_lines d table = []
  \/ exists thead, find "thead" table = Some thead
                   /\ any_str (header_cells thead) = true
                   /\ header_lines d table = [join d (header_cells thead)].
Proof.
  unfold header_lines. destruct (find "thead" table) as [thead|]; auto.
  destruct (any_str (header_cells thead)) eqn:E; eauto.
Qed.

(** The body lines are the joined cells of the non-blank rows, in order. *)
Lemma body_lines_filter (d : string) (table : node) :
  body_lines d table =
  match find "tbody" table with
  | Some tbody =>
      map (join d) (filter any_str (map row_cells (find_all "tr" tbody)))
  | None => []
  end.
Proof.
  unfold body_lines. destruct (find "tbody" table) as [tbody|]; auto.
  induction (find_all "tr" tbody) as [|r rs IH]; simpl; auto.
  destruct (any_str (row_cells r)); simpl; now rewrite IH.
Qed.

End TableFacts.


(* ================================================================== *)
(** * The table extractor: absent table, line order, blank lines,
      whitespace *)
(* ================================================================== *)

Section ExtractorClaims.
Context {W : Type} {D : WebDriver W}.
Import Text TextFacts Soup Table TableFacts.


(** C5.  No line of the extractor's output has only blank fields: every
    line is the join of cells of which at least one is not blank; the
    header line is omitted when every header cell is blank; and the body
    lines are exactly those of the rows with a non-blank cell. *)
Theorem extract_omits_blank_lines (soup : node) (table_id delimiter : string) :
  (forall line,
      In line (py_items (extract_rows soup table_id delimiter)) ->
      exists cells, line = join delimiter cells
                    /\ exists c, In c cells /\ blank c = false)
  /\ (forall table thead,
         find_table soup table_id = Some table ->
         find "thead" table = Some thead ->
         forallb blank (header_cells thead) = true ->
         header_lines delimiter table = [])
  /\ (forall table tbody,
         find_table soup table_id = Some table ->
         find "tbody" table = Some tbody ->
         body_lines delimiter table
         = map (join delimiter)
               (filter (fun cells => negb (forallb blank cells))
                       (map row_cells (find_all "tr" tbody)))).
Proof.
  split; [|split].
  - intros line. unfold extract_rows.
    destruct (find_table soup table_id) as [table|]; simpl; [|intros []].
    rewrite in_app_iff. intros [H|H].
    + destruct (header_lines_cases delimiter table) as [E|[thead [_ [Ha E]]]];
        rewrite E in H; [destruct H|].
      destruct H as [<-|[]].
      exists (header_cells thead). split; auto.
      apply existsb_exists in Ha as [c [Hc Hn]]. exists c. split; auto.
      rewrite (header_cell_blank thead c Hc) in Hn.
      now apply negb_true_iff in Hn.
    + rewrite body_lines_filter in H.
      destruct (find "tbody" table) as [tbody|]; [|destruct H].
      apply in_map_iff in H as [cells [<- Hc]].
      apply filter_In in Hc as [Hin Ha]. exists cells. split; auto.
      apply in_map_iff in Hin as [tr [<- _]].
      apply existsb_exists in Ha as [c [Hc Hn]]. exists c. split; auto.
      rewrite (row_cell_blank tr c Hc) in Hn. now apply negb_true_iff in Hn.
  - intros table thead _ Hf Hb. unfold header_lines. rewrite Hf.
    rewrite (any_str_blank _ (header_cell_blank thead)), Hb. reflexivity.
  - intros table tbody _ Hf. rewrite body_lines_filter, Hf. f_equal.
    induction (find_all "tr" tbody) as [|r rs IH]; simpl; auto.
    rewrite (any_str_blank _ (row_cell_blank r)), IH. reflexivity.
Qed.

End ExtractorClaims.


(** C4, on the page [Examples.spaced]: the body cells are collapsed to
    single spaces, the header cell keeps its two inner spaces and is not
    normalized. *)
Theorem header_cell_not_collapsed :
  Table.extract_rows Examples.spaced "branchTable" ";"
  = Table.PyList ["Branch  Name;City"; "B1 East;Pune"]
  /\ (exists thead,
         Soup.find "thead" Examples.spaced = Some thead
         /\ Table.header_cells thead = ["Branch  Name"; "City"])
  /\ Text.normalized "Branch  Name" = false
  /\ Text.normalized "B1 East" = true.
Proof.
  split; [reflexivity|]. split; [|split; reflexivity].
  eexists. split; reflexivity.
Qed.


(* ================================================================== *)
(** * Facts about runs *)
(* ================================================================== *)

Lemma count_app (p : event -> bool) (t1 t2 : list event) :
  count p (t1 ++ t2) = (count p t1 + count p t2)%nat.
Proof. unfold count. now rewrite filter_app, length_app. Qed.

Lemma pages_read_app (t1 t2 : list event) :
  pages_read (t1 ++ t2) = (pages_read t1 ++ pages_read t2)%list.
Proof. unfold pages_read. apply flat_map_app. Qed.

Section RunFacts.
Context {W : Type}.
Local Abbreviation M := (Comp W).

Lemma atmost_weaken {A} p n n' (m : M A) :
  (n <= n')%nat -> atmost p n m -> atmost p n' m.
Proof. intros Hn H w. specialize (H w). lia. Qed.

Lemma atmost_ret {A} p (a : A) : atmost p 0 (ret (W:=W) a).
Proof. intros w. reflexivity. Qed.

Lemma atmost_raise {A} p e : atmost p 0 (raise (W:=W) (A:=A) e).
Proof. intros w. reflexivity. Qed.

Lemma atmost_lift {A} p (r : result A) : atmost p 0 (lift (W:=W) r).
Proof. destruct r; [apply atmost_ret | apply atmost_raise]. Qed.

Lemma atmost_call {A} p ev (op : W -> result A * W) :
  p ev = false -> atmost p 0 (call ev op).
Proof. intros H w. unfold call. destruct (op w). unfold count. simpl. now rewrite H. Qed.

Lemma atmost_call_1 {A} p ev (op : W -> result A * W) : atmost p 1 (call ev op).
Proof.
  intros w. unfold call. destruct (op w). unfold count. simpl.
  destruct (p ev); simpl; lia.
Qed.

Lemma atmost_emit p ev : p ev = false -> atmost p 0 (emit (W:=W) ev).
Proof. intros H w. unfold count. simpl. now rewrite H. Qed.

Lemma atmost_emit_1 p ev : atmost p 1 (emit (W:=W) ev).
Proof. intros w. unfold count. simpl. destruct (p ev); simpl; lia. Qed.

Lemma atmost_bind {A B} p n1 n2 (m : M A) (f : A -> M B) :
  atmost p n1 m -> (forall a, atmost p n2 (f a)) ->
  atmost p (n1 + n2) (bind m f).
Proof.
  intros Hm Hf w. specialize (Hm w). unfold bind.
  destruct (m w) as [[[a|e] w1] t1]; simpl in *; [|lia].
  specialize (Hf a w1). destruct (f a w1) as [[r w2] t2]; simpl in *.
  rewrite count_app. lia.
Qed.

Lemma atmost_try {A} p n1 n2 (m : M A) c h :
  atmost p n1 m -> (forall e, atmost p n2 (h e)) ->
  atmost p (n1 + n2) (try_except m c h).
Proof.
  intros Hm Hh w. specialize (Hm w). unfold try_except.
  destruct (m w) as [[[a|e] w1] t1]; simpl in *; [lia|].
  destruct (c (exn_class_of e)); simpl; [|lia].
  specialize (Hh e w1). destruct (h e w1) as [[r w2] t2]; simpl in *.
  rewrite count_app. lia.
Qed.

Lemma safe_ret {A} (a : A) : safe (ret (W:=W) a).
Proof. intros w. now exists a. Qed.

Lemma safe_emit ev : safe (emit (W:=W) ev).
Proof. intros w. now exists tt. Qed.

Lemma safe_bind {A B} (m : M A) (f : A -> M B) :
  safe m -> (forall a, safe (f a)) -> safe (bind m f).
Proof.
  intros Hm Hf w. destruct (Hm w) as [a Ha]. unfold bind, outcome in *.
  destruct (m w) as [[r w1] t1]; simpl in *. subst r.
  destruct (Hf a w1) as [b Hb]. unfold outcome in Hb.
  destruct (f a w1) as [[r w2] t2]; simpl in *. eauto.
Qed.

(** [except Exception] with a handler that cannot raise. *)
Lemma safe_try_any {A} (m : M A) h :
  (forall e, safe (h e)) -> safe (try_except m any_exception h).
Proof.
  intros Hh w. unfold try_except, outcome.
  destruct (m w) as [[[a|e] w1] t1]; simpl; [eauto|].
  destruct (Hh e w1) as [b Hb]. unfold outcome in Hb.
  destruct (h e w1) as [[r w2] t2]; simpl in *. eauto.
Qed.

Lemma yields_ret {A} (Q : A -> Prop) a : Q a -> yields Q (ret (W:=W) a).
Proof. intros H w b E. unfold outcome in E. simpl in E. congruence. Qed.

Lemma yields_raise {A} (Q : A -> Prop) e : yields Q (raise (W:=W) e).
Proof. intros w b E. discriminate. Qed.

Lemma yields_bind {A B} (Q : B -> Prop) (m : M A) (f : A -> M B) :
  (forall a, yields Q (f a)) -> yields Q (bind m f).
Proof.
  intros Hf w b. unfold bind, outcome.
  destruct (m w) as [[[a|e] w1] t1]; simpl; [|discriminate].
  specialize (Hf a w1 b). unfold outcome in Hf.
  destruct (f a w1) as [[r w2] t2]; simpl in *. auto.
Qed.

Lemma yields_try {A} (Q : A -> Prop) (m : M A) c h :
  yields Q m -> (forall e, yields Q (h e)) -> yields Q (try_except m c h).
Proof.
  intros Hm Hh w b. specialize (Hm w b). unfold try_except, outcome in *.
  destruct (m w) as [[[a|e] w1] t1]; simpl in *; auto.
  destruct (c (exn_class_of e)); simpl; [|discriminate].
  specialize (Hh e w1 b). unfold outcome in Hh.
  destruct (h e w1) as [[r w2] t2]; simpl in *. auto.
Qed.

(** The run of a sequence, from the run of its first part. *)
Lemma bind_ok {A B} (m : M A) (f : A -> M B) w a w1 t1 :
  m w = (Ok a, w1, t1) ->
  bind m f w = (outcome (f a w1), snd (fst (f a w1)), (t1 ++ trace (f a w1))%list).
Proof.
  intros E. unfold bind. rewrite E. destruct (f a w1) as [[r w2] t2]. reflexivity.
Qed.

Lemma bind_raise {A B} (m : M A) (f : A -> M B) w e w1 t1 :
  m w = (Raise e, w1, t1) -> bind m f w = (Raise e, w1, t1).
Proof. intros E. unfold bind. now rewrite E. Qed.

Lemma bind_lift_ok {A B} (a : A) (f : A -> M B) w :
  bind (lift (Ok a)) f w = f a w.
Proof. unfold bind, lift, ret. now destruct (f a w) as [[r w2] t2]. Qed.

Lemma yields_bind_from {A B} (P : A -> Prop) (Q : B -> Prop)
      (m : M A) (f : A -> M B) :
  yields P m -> (forall a, P a -> yields Q (f a)) -> yields Q (bind m f).
Proof.
  intros Hm Hf w b. specialize (Hm w). unfold bind, outcome in *.
  destruct (m w) as [[[a|e] w1] t1]; simpl in *; [|discriminate].
  specialize (Hf a (Hm a eq_refl) w1 b). unfold outcome in Hf.
  destruct (f a w1) as [[r w2] t2]; simpl in *. auto.
Qed.

(** The trace of a sequence starts with the trace of its first part. *)
Lemma trace_bind {A B} (m : M A) (f : A -> M B) w :
  exists rest, trace (bind m f w) = (trace (m w) ++ rest)%list.
Proof.
  unfold bind, trace. destruct (m w) as [[[a|e] w1] t1]; simpl.
  - destruct (f a w1) as [[r w2] t2]. simpl. eauto.
  - exists []. now rewrite app_nil_r.
Qed.

Lemma trace_try {A} (m : M A) c h w :
  exists rest, trace (try_except m c h w) = (trace (m w) ++ rest)%list.
Proof.
  unfold try_except, trace. destruct (m w) as [[[a|e] w1] t1]; simpl.
  - exists []. now rewrite app_nil_r.
  - destruct (c (exn_class_of e)).
    + destruct (h e w1) as [[r w2] t2]. simpl. eauto.
    + exists []. now rewrite app_nil_r.
Qed.

Lemma trace_call {A} ev (op : W -> result A * W) w :
  trace (call ev op w) = [ev].
Proof. unfold call, trace. now destruct (op w). Qed.

Lemma try_ok {A} (m : M A) c h w a w1 t1 :
  m w = (Ok a, w1, t1) -> try_except m c h w = (Ok a, w1, t1).
Proof. intros E. unfold try_except. now rewrite E. Qed.

Lemma try_caught {A} (m : M A) c h w e w1 t1 :
  m w = (Raise e, w1, t1) -> c (exn_class_of e) = true ->
  try_except m c h w
  = (outcome (h e w1), snd (fst (h e w1)), (t1 ++ trace (h e w1))%list).
Proof.
  intros E Hc. unfold try_except. rewrite E, Hc.
  destruct (h e w1) as [[r w2] t2]. reflexivity.
Qed.

End RunFacts.

(** Bounds on the events of a computation, part by part. *)
Ltac quiet :=
  repeat first
    [ apply atmost_ret | apply atmost_raise | apply atmost_lift
    | apply atmost_call; reflexivity | apply atmost_emit; reflexivity
    | apply (atmost_bind _ 0 0); [|intros]
    | apply (atmost_try _ 0 0); [|intros]
    | match goal with
      | |- atmost _ _ (if ?b then _ else _) => destruct b
      | |- atmost _ _ (match ?x with _ => _ end) => destruct x
      end ].

Section CaptchaFacts.
Context {W : Type} {D : WebDriver W}.

Lemma capture_quiet (p : event -> bool) :
  (forall t l, p (EvWaitPresence t l) = false) ->
  (forall e, p (EvRender e) = false) ->
  atmost p 0 (capture_captcha_section (W:=W)).
Proof.
  intros H1 H2. unfold capture_captcha_section, wait_presence.
  apply (atmost_try _ 0 0); [|intros; apply atmost_ret].
  apply (atmost_bind _ 0 0); [apply atmost_call, H1|intros].
  apply (atmost_bind _ 0 0); [apply atmost_call, H2|intros; apply atmost_ret].
Qed.

Lemma solve_request_quiet (p : event -> bool) (img : image) :
  (forall img_str, p (EvPost api_url img_str 10) = false) ->
  atmost p 0
    (img_str <- lift (wd_encode img) ;;
     try_except
       (ask_solver img_str)
       any_exception
       (fun e => raise (Exn IECScraperException ("GPT-4 API error: " ++ exn_str e)))).
Proof.
  intros H. unfold ask_solver, raise_for_status.
  apply (atmost_bind _ 0 0); [apply atmost_lift|intros img_str].
  apply (atmost_try _ 0 0); [|intros; apply atmost_raise].
  apply (atmost_bind _ 0 0); [apply atmost_call, H|intros]. quiet.
Qed.

(** One call of the solver: one [EvSolve], at most one request, nothing
    submitted. *)
Lemma solve_counts (img : option image) :
  atmost is_solve 1 (solve_captcha_with_gpt4 (W:=W) img)
  /\ atmost is_post 1 (solve_captcha_with_gpt4 (W:=W) img)
  /\ atmost is_submission 0 (solve_captcha_with_gpt4 (W:=W) img).
Proof.
  unfold solve_captcha_with_gpt4. split; [|split].
  - apply (atmost_bind _ 1 0); [apply atmost_emit_1|intros].
    destruct img; [apply solve_request_quiet; reflexivity | apply atmost_ret].
  - apply (atmost_bind _ 0 1); [apply atmost_emit; reflexivity|intros].
    destruct img; [|apply atmost_weaken with 0%nat; [lia|apply atmost_ret]].
    unfold ask_solver, raise_for_status.
    apply (atmost_bind _ 0 1); [apply atmost_lift|intros img_str].
    apply (atmost_try _ 1 0); [|intros; apply atmost_raise].
    apply (atmost_bind _ 1 0); [apply atmost_call_1|intros]. quiet.
  - apply (atmost_bind _ 0 0); [apply atmost_emit; reflexivity|intros].
    destruct img; [apply solve_request_quiet; reflexivity | apply atmost_ret].
Qed.

Lemma submit_quiet (p : event -> bool) (text : string) :
  p = is_solve \/ p = is_post -> atmost p 0 (submit_captcha (W:=W) text).
Proof.
  unfold submit_captcha, wait_presence, wait_clickable, send_keys, click, get_text.
  intros [-> | ->]; quiet.
Qed.

(** A turn issues at most one solve call and at most one request. *)
Lemma attempt_body_counts (attempt : Z) :
  atmost is_solve 1 (attempt_body (W:=W) attempt)
  /\ atmost is_post 1 (attempt_body (W:=W) attempt).
Proof.
  unfold attempt_body. split.
  - apply (atmost_bind _ 0 1); [now apply capture_quiet|intros img].
    apply (atmost_bind _ 1 0); [apply solve_counts|intros txt].
    destruct (negb _); [apply atmost_ret | apply submit_quiet; auto].
  - apply (atmost_bind _ 0 1); [now apply capture_quiet|intros img].
    apply (atmost_bind _ 1 0); [apply solve_counts|intros txt].
    destruct (negb _); [apply atmost_ret | apply submit_quiet; auto].
Qed.

Lemma captcha_turn_counts (attempt : Z) :
  atmost is_solve 1 (captcha_turn (W:=W) attempt)
  /\ atmost is_post 1 (captcha_turn (W:=W) attempt).
Proof.
  unfold captcha_turn. split.
  - apply (atmost_try _ 1 0); [apply attempt_body_counts|intros; quiet].
  - apply (atmost_try _ 1 0); [apply attempt_body_counts|intros; quiet].
Qed.

Lemma captcha_turn_safe (attempt : Z) : safe (captcha_turn (W:=W) attempt).
Proof.
  apply safe_try_any. intros e.
  apply safe_bind; [apply safe_emit | intros; apply safe_ret].
Qed.

(** A turn ends in [continue] with the counter incremented, in
    [return True], or at the increment of line 262. *)
Lemma captcha_turn_yields (attempt : Z) :
  yields (fun t => t = Continue (attempt + 1) \/ t = Return true \/ t = Fall)
         (captcha_turn (W:=W) attempt).
Proof.
  unfold captcha_turn, attempt_body, submit_captcha.
  apply yields_try.
  - repeat (apply yields_bind; intros).
    destruct (negb _); [apply yields_ret; auto|].
    repeat (apply yields_bind; intros).
    apply yields_try; [|intros; apply yields_ret; auto].
    repeat (apply yields_bind; intros).
    destruct (Text.str_in _ _); apply yields_ret; auto.
  - intros e. apply yields_bind; intros. apply yields_ret; auto.
Qed.

End CaptchaFacts.


(* ================================================================== *)
(** * The CAPTCHA resolution loop *)
(* ================================================================== *)

Section CaptchaClaims.
Context {W : Type} {D : WebDriver W}.

Lemma captcha_loop_step (fuel : nat) (attempt : Z) :
  captcha_loop (W:=W) (S fuel) attempt
  = if attempt <? max_attempts
    then t <- captcha_turn attempt ;;
         match t with
         | Continue attempt' => captcha_loop fuel attempt'
         | Return b => ret (Some b)
         | Fall => captcha_loop fuel (attempt + 1)
         end
    else ret (Some false).
Proof. reflexivity. Qed.

Lemma captcha_loop_done (fuel : nat) (attempt : Z) (w : W) :
  max_attempts <= attempt ->
  captcha_loop fuel attempt w = (Ok (Some false), w, []).
Proof.
  intros H. destruct fuel; simpl;
    (destruct (attempt <? max_attempts) eqn:E; [apply Z.ltb_lt in E; lia|]);
    reflexivity.
Qed.

(** A turn returns [True] only when the body of its [try] does. *)
Lemma captcha_turn_true (attempt : Z) (w : W) :
  outcome (captcha_turn attempt w) = Ok (Return true) ->
  outcome (attempt_body attempt w) = Ok (Return true).
Proof.
  unfold captcha_turn, try_except, outcome.
  destruct (attempt_body attempt w) as [[[t|e] w1] t1]; simpl; auto.
  discriminate.
Qed.

Lemma attempt_body_true (attempt : Z) (w : W) :
  outcome (attempt_body attempt w) = Ok (Return true) ->
  outcome (captcha_turn attempt w) = Ok (Return true).
Proof.
  unfold captcha_turn, try_except, outcome.
  destruct (attempt_body attempt w) as [[[t|e] w1] t1]; simpl; auto.
  discriminate.
Qed.

Lemma attempts_fail_step (attempt : Z) (w : W) :
  attempt < max_attempts ->
  attempts_fail (Z.to_nat (max_attempts - attempt)) attempt w
  = (outcome (attempt_body attempt w) <> Ok (Return true)
     /\ attempts_fail (Z.to_nat (max_attempts - (attempt + 1))) (attempt + 1)
                      (world_after (captcha_turn attempt w))).
Proof.
  intros H.
  replace (Z.to_nat (max_attempts - attempt))
    with (S (Z.to_nat (max_attempts - (attempt + 1)))) by lia.
  reflexivity.
Qed.

Lemma attempts_fail_done (attempt : Z) (w : W) :
  max_attempts <= attempt ->
  attempts_fail (Z.to_nat (max_attempts - attempt)) attempt w.
Proof.
  intros H. replace (Z.to_nat (max_attempts - attempt)) with O by lia.
  exact I.
Qed.

Lemma captcha_loop_bounded (fuel : nat) :
  forall (attempt : Z) (w : W),
    (Z.to_nat (max_attempts - attempt) <= fuel)%nat ->
    exists b w' tr,
      captcha_loop fuel attempt w = (Ok (Some b), w', tr)
      /\ (count is_solve tr <= Z.to_nat (max_attempts - attempt))%nat
      /\ (count is_post tr <= Z.to_nat (max_attempts - attempt))%nat
      /\ (b = false
          <-> attempts_fail (Z.to_nat (max_attempts - attempt)) attempt w).
Proof.
  induction fuel as [|fuel IH]; intros attempt w Hfuel.
  - exists false, w, []. rewrite captcha_loop_done by lia.
    repeat split; auto; try (unfold count; simpl; lia).
    intros _. apply attempts_fail_done. lia.
  - destruct (Z_lt_le_dec attempt max_attempts) as [Hlt|Hge].
    2:{ exists false, w, []. rewrite captcha_loop_done by lia.
        repeat split; auto; try (unfold count; simpl; lia).
        intros _. now apply attempts_fail_done. }
    rewrite captcha_loop_step. apply Z.ltb_lt in Hlt as Hb. rewrite Hb.
    rewrite (attempts_fail_step attempt w Hlt).
    destruct (captcha_turn_safe attempt w) as [t Ht].
    pose proof (captcha_turn_yields attempt w t Ht) as Hcases.
    pose proof (proj1 (captcha_turn_counts attempt) w) as Hs.
    pose proof (proj2 (captcha_turn_counts attempt) w) as Hp.
    pose proof (captcha_turn_true attempt w) as Htrue.
    pose proof (attempt_body_true attempt w) as Hbody.
    unfold world_after.
    destruct (captcha_turn attempt w) as [[r w1] t1] eqn:Eturn.
    unfold outcome, trace in Ht, Hs, Hp, Htrue, Hbody.
    cbn [fst snd] in Ht, Hs, Hp, Htrue, Hbody. cbn [fst snd].
    subst r. rewrite (bind_ok _ _ _ _ _ _ Eturn).
    assert (Hnext : exists b w' tr,
               captcha_loop fuel (attempt + 1) w1 = (Ok (Some b), w', tr)
               /\ (count is_solve tr <= Z.to_nat (max_attempts - (attempt + 1)))%nat
               /\ (count is_post tr <= Z.to_nat (max_attempts - (attempt + 1)))%nat
               /\ (b = false
                   <-> attempts_fail (Z.to_nat (max_attempts - (attempt + 1)))
                                     (attempt + 1) w1)) by (apply IH; lia).
    destruct Hnext as [b [w' [tr [E [Hs' [Hp' Hb']]]]]].
    destruct Hcases as [-> | [-> | ->]].
    + exists b, w', (t1 ++ tr)%list. rewrite E. unfold outcome, trace. cbn [fst snd].
      rewrite !count_app. repeat split; auto; try lia.
      * intros Hyes. apply Hbody in Hyes. discriminate Hyes.
      * now apply Hb'.
      * intros [_ Hrest]. now apply Hb'.
    + exists true, w1, (t1 ++ [])%list. unfold outcome, trace. cbn [fst snd ret].
      rewrite !count_app. unfold count at 2 4. cbn [filter List.length].
      repeat split; auto; try lia; try discriminate.
      intros [Hnot _]. exfalso. apply Hnot. now apply Htrue.
    + exists b, w', (t1 ++ tr)%list. rewrite E. unfold outcome, trace. cbn [fst snd].
      rewrite !count_app. repeat split; auto; try lia.
      * intros Hyes. apply Hbody in Hyes. discriminate Hyes.
      * now apply Hb'.
      * intros [_ Hrest]. now apply Hb'.
Qed.

(** C2.  [handle_captcha_submission] always returns a boolean: nothing
    raised in an attempt reaches the caller and the loop ends within its
    five turns.  The run holds at most 5 calls of the solver and at most
    5 requests to the solver service, at most one call per turn.  The
    value is [False] exactly when the five attempts of this run, each
    made in the world its predecessor left, all fail: none finds the
    success heading, be it that its body ends otherwise or that it
    raises. *)
Theorem handle_captcha_bounded (w : W) :
  exists b w' tr,
    handle_captcha_submission w = (Ok (Some b), w', tr)
    /\ (count is_solve tr <= 5)%nat
    /\ (count is_post tr <= 5)%nat
    /\ (forall a w0, (count is_solve (trace (captcha_turn a w0)) <= 1)%nat)
    /\ (b = false <-> attempts_fail 5 0 w).
Proof.
  destruct (captcha_loop_bounded (Z.to_nat max_attempts) 0 w) as
    [b [w' [tr [E [Hs [Hp Hb]]]]]]; [simpl; lia|].
  change (Z.to_nat (max_attempts - 0)) with 5%nat in Hs, Hp, Hb.
  exists b, w', tr.
  split; [exact E|]. split; [exact Hs|]. split; [exact Hp|].
  split; [|exact Hb].
  intros a w0. apply captcha_turn_counts.
Qed.

(** C9.  When the solved text of a turn is absent or empty, the turn
    ends in [continue] with the counter incremented once, nothing is
    submitted during it (no field cleared or filled, nothing clicked),
    and the loop goes on from the incremented counter. *)
Theorem blank_text_consumes_attempt
        (fuel : nat) (attempt : Z) (w w1 w2 : W)
        (captcha_image : option image) (captcha_text : option string)
        (t1 t2 : list event) :
  capture_captcha_section w = (Ok captcha_image, w1, t1) ->
  solve_captcha_with_gpt4 captcha_image w1 = (Ok captcha_text, w2, t2) ->
  Py.truthy_text captcha_text = false ->
  captcha_turn attempt w = (Ok (Continue (attempt + 1)), w2, (t1 ++ t2)%list)
  /\ count is_submission (t1 ++ t2) = 0%nat
  /\ (attempt < max_attempts ->
      captcha_loop (S fuel) attempt w
      = (outcome (captcha_loop fuel (attempt + 1) w2),
         snd (fst (captcha_loop fuel (attempt + 1) w2)),
         ((t1 ++ t2) ++ trace (captcha_loop fuel (attempt + 1) w2))%list)).
Proof.
  intros Hcap Hsolve Hblank.
  assert (Hturn : captcha_turn attempt w
                  = (Ok (Continue (attempt + 1)), w2, (t1 ++ t2)%list)).
  { unfold captcha_turn. apply try_ok. unfold attempt_body.
    rewrite (bind_ok _ _ _ _ _ _ Hcap), (bind_ok _ _ _ _ _ _ Hsolve).
    rewrite Hblank. unfold outcome, trace. simpl. now rewrite app_nil_r. }
  split; [exact Hturn|]. split.
  - rewrite count_app.
    pose proof (capture_quiet is_submission (fun _ _ => eq_refl)
                              (fun _ => eq_refl) w) as H1.
    pose proof (proj2 (proj2 (solve_counts captcha_image)) w1) as H2.
    rewrite Hcap in H1. rewrite Hsolve in H2. unfold trace in H1, H2.
    simpl in H1, H2. lia.
  - intros Hlt. rewrite captcha_loop_step.
    apply Z.ltb_lt in Hlt. rewrite Hlt.
    now rewrite (bind_ok _ _ _ _ _ _ Hturn).
Qed.

(** C8.  Without an image the solver returns [None] and sends nothing.
    With an image that has been encoded, the request is sent, and a
    transport error of the request and a 4xx or 5xx response both end
    in an [IECScraperException] that carries the upstream message. *)
Theorem solver_absent_or_service_error (img : image) (img_str : string) (w : W) :
  solve_captcha_with_gpt4 None w = (Ok None, w, [EvSolve None])
  /\ (wd_encode img = Ok img_str ->
      (forall e w1,
          wd_post api_url img_str 10 w = (Raise e, w1) ->
          solve_captcha_with_gpt4 (Some img) w
          = (Raise (Exn IECScraperException ("GPT-4 API error: " ++ exn_str e)),
             w1, [EvSolve (Some img); EvPost api_url img_str 10]))
      /\ (forall response w1,
             wd_post api_url img_str 10 w = (Ok response, w1) ->
             400 <= status_code response < 600 ->
             solve_captcha_with_gpt4 (Some img) w
             = (Raise (Exn IECScraperException
                           ("GPT-4 API error: " ++ status_line response)),
                w1, [EvSolve (Some img); EvPost api_url img_str 10]))).
Proof.
  split; [reflexivity|]. intros Henc. split.
  - intros e w1 H.
    unfold solve_captcha_with_gpt4, ask_solver, bind, emit, try_except, call, lift.
    rewrite Henc. unfold ret at 1. cbn beta iota. rewrite H. reflexivity.
  - intros response w1 H [Hlo Hhi].
    unfold solve_captcha_with_gpt4, ask_solver, bind, emit, try_except, call,
      lift, raise_for_status.
    rewrite Henc. unfold ret at 1. cbn beta iota. rewrite H.
    apply Z.leb_le in Hlo. apply Z.ltb_lt in Hhi.
    rewrite Hlo, Hhi. reflexivity.
Qed.

End CaptchaClaims.

(** C9, on a turn whose solver answer is a single space. *)
Lemma blank_text_consumes_attempt_witness :
  captcha_turn 0 [Script.AElem 0%nat; Script.AImage "png";
                  Script.solver_says 200 " "]
  = (Ok (Continue 1), [],
     [EvWaitPresence 5 (XPATH, captcha_xpath); EvRender 0%nat;
      EvSolve (Some "png"); EvPost api_url "png" 10]).
Proof.
  exact (proj1 (blank_text_consumes_attempt
                  (D:=Script.scripted) 0%nat 0
                  [Script.AElem 0%nat; Script.AImage "png";
                   Script.solver_says 200 " "]
                  [Script.solver_says 200 " "] []
                  (Some "png") (Some EmptyString)
                  [EvWaitPresence 5 (XPATH, captcha_xpath); EvRender 0%nat]
                  [EvSolve (Some "png"); EvPost api_url "png" 10]
                  eq_refl eq_refl eq_refl)).
Defined.

(** C8: a response with status 300 and a well-formed body is not 2xx,
    yet the solver returns its token. *)
Lemma solver_accepts_status_300 :
  solve_captcha_with_gpt4 (Some "png") [Script.solver_says 300 "AB12"]
  = (Ok (Some "AB12"), [], [EvSolve (Some "png"); EvPost api_url "png" 10])
  /\ ~ (200 <= 300 < 300).
Proof. split; [reflexivity | lia]. Qed.


(* ================================================================== *)
(** * The request handler *)
(* ================================================================== *)

Section HandlerClaims.
Context {W : Type} {D : WebDriver W}.

Lemma captcha_failure_not_server_error (msg : string) :
  captcha_failure <> failure msg 500.
Proof. unfold captcha_failure, failure. intros E. discriminate E. Qed.

(** The session never answers with the missing-parameters response. *)
Lemma session_response (fuel : nat) (iec_code name : json) :
  yields (fun r => r <> Some missing_parameters)
         (session (W:=W) fuel iec_code name).
Proof.
  unfold session.
  apply yields_bind_from
    with (P := fun c => c = None \/ exists msg, c = Some (failure msg 500)).
  - apply yields_try.
    + apply yields_bind. intros. apply yields_ret. now left.
    + intros e. apply yields_ret. right. eauto.
  - intros created [-> | [msg ->]]; [|apply yields_ret; discriminate].
    apply yields_bind_from with (P := fun r => r <> Some missing_parameters).
    + apply yields_try; [|intros; apply yields_ret; discriminate].
      unfold lookup. apply yields_bind. intros _. apply yields_bind.
      intros [[|]|]; try (apply yields_ret; discriminate).
      apply yields_bind. intros d. apply yields_bind.
      intros [b|]; apply yields_ret; discriminate.
    + intros [r|] Hr; [|apply yields_ret; discriminate].
      apply yields_bind. intros. now apply yields_ret.
Qed.

(** With both parameters present the handler is the session, run under
    the [except Exception] clause of line 322. *)
Lemma handler_runs_session (fuel : nat) (req : request) (data iec_code name : json)
      (w : W) :
  get_json req = Ok data ->
  lacks_parameters data = Ok false ->
  Py.getitem data "iec_code" = Ok iec_code ->
  Py.getitem data "name" = Ok name ->
  get_iec_details fuel req w
  = try_except (session fuel iec_code name) any_exception
               (fun e => ret (Some (failure ("Server error: " ++ exn_str e) 500)))
               w.
Proof.
  intros Hj Hl Hi Hn. unfold get_iec_details, try_except.
  rewrite Hj, bind_lift_ok, Hl, bind_lift_ok, Hi, bind_lift_ok, Hn, bind_lift_ok.
  reflexivity.
Qed.

Lemma session_created (w w0 : W) (t0 : list event) :
  create_driver w = (Ok tt, w0, t0) ->
  try_except (create_driver ;;; ret (@None response)) any_exception
             (fun e => ret (Some (failure (exn_str e) 500))) w
  = (Ok None, w0, t0).
Proof.
  intros Hc. apply try_ok. rewrite (bind_ok _ _ _ _ _ _ Hc).
  unfold outcome, trace. simpl. now rewrite app_nil_r.
Qed.

(** The run of a session once the driver exists and the lookup has ended
    with the response [r]: the [finally] clause quits the session, and
    what [quit] raises takes the place of the response. *)
Lemma session_after_creation (fuel : nat) (iec_code name : json)
      (w w0 w2 : W) (t0 t2 : list event) (r : response) :
  create_driver w = (Ok tt, w0, t0) ->
  try_except (lookup fuel iec_code name) any_exception
             (fun e => ret (Some (failure (exn_str e) 500))) w0
  = (Ok (Some r), w2, t2) ->
  session fuel iec_code name w
  = (match fst (wd_quit w2) with
     | Ok _ => Ok (Some r)
     | Raise e => Raise e
     end,
     snd (wd_quit w2), (t0 ++ t2 ++ [EvQuit])%list).
Proof.
  intros Hc Hl. unfold session.
  rewrite (bind_ok _ _ _ _ _ _ (session_created w w0 t0 Hc)).
  rewrite (bind_ok _ _ _ _ _ _ Hl).
  unfold bind, call, ret, outcome, trace.
  destruct (wd_quit w2) as [[[]|e] w3]; reflexivity.
Qed.

(** The same for the handler: the exception of [quit] reaches the clause
    of line 322 and the answer is its server error. *)
Lemma handler_after_creation
      (fuel : nat) (req : request) (data iec_code name : json)
      (w w0 w2 : W) (t0 t2 : list event) (r : response) :
  get_json req = Ok data ->
  lacks_parameters data = Ok false ->
  Py.getitem data "iec_code" = Ok iec_code ->
  Py.getitem data "name" = Ok name ->
  create_driver w = (Ok tt, w0, t0) ->
  try_except (lookup fuel iec_code name) any_exception
             (fun e => ret (Some (failure (exn_str e) 500))) w0
  = (Ok (Some r), w2, t2) ->
  get_iec_details fuel req w
  = (Ok (Some (match fst (wd_quit w2) with
               | Ok _ => r
               | Raise e => failure ("Server error: " ++ exn_str e) 500
               end)),
     snd (wd_quit w2), (t0 ++ t2 ++ [EvQuit])%list).
Proof.
  intros Hj Hl Hi Hn Hc Hlk.
  rewrite (handler_runs_session fuel req data iec_code name w Hj Hl Hi Hn).
  unfold try_except at 1.
  rewrite (session_after_creation fuel iec_code name w w0 w2 t0 t2 r Hc Hlk).
  destruct (wd_quit w2) as [[[]|e] w3]; cbn [fst snd]; [reflexivity|].
  unfold any_exception, ret. now rewrite app_nil_r.
Qed.

(** C6.  When the loop of the CAPTCHA returns [False] and the
    [driver.quit()] of the [finally] clause returns, the handler answers
    success false, error "Failed to solve captcha", status 400, after
    quitting the session; this response differs from every response of
    status 500. *)
Theorem captcha_exhaustion_response
        (fuel : nat) (req : request) (data iec_code name : json)
        (w w0 w1 w2 w3 : W) (t0 t1 t2 : list event) :
  get_json req = Ok data ->
  lacks_parameters data = Ok false ->
  Py.getitem data "iec_code" = Ok iec_code ->
  Py.getitem data "name" = Ok name ->
  create_driver w = (Ok tt, w0, t0) ->
  open_form iec_code name w0 = (Ok tt, w1, t1) ->
  handle_captcha_submission w1 = (Ok (Some false), w2, t2) ->
  wd_quit w2 = (Ok tt, w3) ->
  get_iec_details fuel req w
  = (Ok (Some captcha_failure), w3, (t0 ++ t1 ++ t2 ++ [EvQuit])%list)
  /\ captcha_failure
     = (JObj [("success", JBool false); ("error", JStr "Failed to solve captcha")],
        400)
  /\ (forall msg, captcha_failure <> failure msg 500).
Proof.
  intros Hj Hl Hi Hn Hc Ho Hh Hq. split; [|split].
  - assert (Hlookup : try_except (lookup fuel iec_code name) any_exception
                                 (fun e => ret (Some (failure (exn_str e) 500))) w0
                      = (Ok (Some captcha_failure), w2, (t1 ++ t2)%list)).
    { apply try_ok. unfold lookup. rewrite (bind_ok _ _ _ _ _ _ Ho).
      rewrite (bind_ok _ _ _ _ _ _ Hh). unfold outcome, trace. simpl.
      now rewrite app_nil_r. }
    rewrite (handler_after_creation fuel req data iec_code name w w0 w2 t0
               (t1 ++ t2)%list captcha_failure Hj Hl Hi Hn Hc Hlookup).
    rewrite Hq. cbn [fst snd]. now rewrite <- app_assoc.
  - reflexivity.
  - apply captcha_failure_not_server_error.
Qed.

(** A body that is falsy, or an object without one of the two keys, is
    rejected before any browser work: the trace is empty. *)
Lemma missing_field_rejected (fuel : nat) (data : json) (w : W) :
  Py.truthy data = false
  \/ (exists items, data = JObj items
                    /\ (Soup.assoc "iec_code" items = None
                        \/ Soup.assoc "name" items = None)) ->
  get_iec_details fuel (Request (Ok data)) w = (Ok (Some missing_parameters), w, []).
Proof.
  intros H.
  assert (Hl : lacks_parameters data = Ok true).
  { unfold lacks_parameters. destruct (Py.truthy data) eqn:Et; simpl; auto.
    destruct H as [H|[items [-> [H|H]]]]; [discriminate| |]; simpl.
    - now rewrite H.
    - rewrite H. now destruct (Soup.assoc "iec_code" items). }
  unfold get_iec_details, try_except. simpl get_json.
  rewrite bind_lift_ok, Hl, bind_lift_ok. reflexivity.
Qed.

(** C7, on the JSON body [7]: it has neither field, the membership test
    of line 270 raises a [TypeError], and the handler answers with the
    server error of status 500 instead of the missing-parameters
    response; no browser session is created. *)
Theorem non_object_body_server_error (fuel : nat) (w : W) :
  get_iec_details fuel (Request (Ok (JNum 7))) w
  = (Ok (Some (failure "Server error: argument of type 'int' is not iterable" 500)),
     w, [])
  /\ failure "Server error: argument of type 'int' is not iterable" 500
     <> missing_parameters.
Proof. split; [reflexivity | discriminate]. Qed.

(** Every session starts with the creation of the driver. *)
Lemma session_starts_with_creation (fuel : nat) (iec_code name : json) (w : W) :
  exists rest, trace (session fuel iec_code name w) = EvCreateDriver :: rest.
Proof.
  unfold session.
  match goal with
  | |- context [trace (bind ?m ?f w)] =>
      destruct (trace_bind m f w) as [r1 ->]
  end.
  match goal with
  | |- context [trace (try_except ?m ?c ?h w)] =>
      destruct (trace_try m c h w) as [r2 ->]
  end.
  match goal with
  | |- context [trace (bind ?m ?f w)] =>
      destruct (trace_bind m f w) as [r3 ->]
  end.
  unfold create_driver.
  match goal with
  | |- context [trace (try_except ?m ?c ?h w)] =>
      destruct (trace_try m c h w) as [r4 ->]
  end.
  rewrite trace_call. simpl. eauto.
Qed.

(** Once the driver exists the session goes on with the form. *)
Lemma session_opens_form (fuel : nat) (iec_code name : json)
      (w w0 : W) (t0 : list event) :
  create_driver w = (Ok tt, w0, t0) ->
  exists rest,
    trace (session fuel iec_code name w)
    = (t0 ++ trace (open_form iec_code name w0) ++ rest)%list.
Proof.
  intros Hc. unfold session.
  rewrite (bind_ok _ _ _ _ _ _ (session_created w w0 t0 Hc)).
  unfold trace at 1. cbn [snd].
  match goal with
  | |- context [trace (bind ?m ?f w0)] =>
      destruct (trace_bind m f w0) as [r1 ->]
  end.
  match goal with
  | |- context [trace (try_except ?m ?c ?h w0)] =>
      destruct (trace_try m c h w0) as [r2 ->]
  end.
  unfold lookup.
  match goal with
  | |- context [trace (bind ?m ?f w0)] =>
      destruct (trace_bind m f w0) as [r3 ->]
  end.
  exists (r3 ++ r2 ++ r1)%list. now rewrite <- !app_assoc.
Qed.

(** C10.  A body whose two keys hold empty strings passes the check of
    line 270, and the handler is the session run on the two empty
    strings, under the [except Exception] clause of line 322: the driver
    is created first, and once it exists the form is opened and filled
    with them. *)
Theorem empty_strings_accepted
        (fuel : nat) (items : list (string * json)) (w : W) :
  Soup.assoc "iec_code" items = Some (JStr EmptyString) ->
  Soup.assoc "name" items = Some (JStr EmptyString) ->
  lacks_parameters (JObj items) = Ok false
  /\ get_iec_details fuel (Request (Ok (JObj items))) w
     = try_except (session fuel (JStr EmptyString) (JStr EmptyString))
                  any_exception
                  (fun e => ret (Some (failure ("Server error: " ++ exn_str e) 500)))
                  w
  /\ (exists rest,
         trace (get_iec_details fuel (Request (Ok (JObj items))) w)
         = EvCreateDriver :: rest)
  /\ (forall w0 t0,
         create_driver w = (Ok tt, w0, t0) ->
         exists rest,
           trace (get_iec_details fuel (Request (Ok (JObj items))) w)
           = (t0 ++ trace (open_form (JStr EmptyString) (JStr EmptyString) w0)
                 ++ rest)%list)
  /\ outcome (get_iec_details fuel (Request (Ok (JObj items))) w)
     <> Ok (Some missing_parameters).
Proof.
  intros Hi Hn.
  assert (Hl : lacks_parameters (JObj items) = Ok false).
  { unfold lacks_parameters. simpl. rewrite Hi, Hn.
    destruct items; [discriminate | reflexivity]. }
  assert (Hrun : get_iec_details fuel (Request (Ok (JObj items))) w
                 = try_except (session fuel (JStr EmptyString) (JStr EmptyString))
                     any_exception
                     (fun e => ret (Some (failure ("Server error: " ++ exn_str e)
                                                  500)))
                     w).
  { apply handler_runs_session with (data := JObj items); auto; simpl.
    - now rewrite Hi.
    - now rewrite Hn. }
  split; [exact Hl|]. split; [exact Hrun|]. rewrite Hrun.
  split; [|split].
  - match goal with
    | |- context [trace (try_except ?m ?c ?h w)] =>
        destruct (trace_try m c h w) as [r0 ->]
    end.
    destruct (session_starts_with_creation
                fuel (JStr EmptyString) (JStr EmptyString) w) as [rest ->].
    simpl. eauto.
  - intros w0 t0 Hc.
    match goal with
    | |- context [trace (try_except ?m ?c ?h w)] =>
        destruct (trace_try m c h w) as [r0 ->]
    end.
    destruct (session_opens_form
                fuel (JStr EmptyString) (JStr EmptyString) w w0 t0 Hc)
      as [rest ->].
    exists (rest ++ r0)%list. now rewrite <- !app_assoc.
  - assert (Hy : yields (fun r => r <> Some missing_parameters)
                   (try_except
                      (session (W:=W) fuel (JStr EmptyString) (JStr EmptyString))
                      any_exception
                      (fun e => ret (Some (failure ("Server error: " ++ exn_str e)
                                                   500))))).
    { apply yields_try; [apply session_response|].
      intros e. apply yields_ret. discriminate. }
    intros E. apply (Hy w _ E). reflexivity.
Qed.

End HandlerClaims.

(** C6, on a portal whose CAPTCHA never renders: five captures time out,
    the solver is never given an image, the session is quit, and the
    handler answers 400. *)
Lemma captcha_exhaustion_response_witness :
  outcome (get_iec_details 1 (Request (Ok Examples.acme_body))
                           Examples.captcha_never_renders)
  = Ok (Some (JObj [("success", JBool false);
                    ("error", JStr "Failed to solve captcha")], 400)).
Proof.
  pose proof (captcha_exhaustion_response
                (D:=Script.scripted) 1%nat
                (Request (Ok Examples.acme_body)) Examples.acme_body
                (JStr "0101000061") (JStr "ACME EXPORTS")
                Examples.captcha_never_renders
                (Examples.form_answers_created
                   ++ repeat Script.timeout 5 ++ [Script.AUnit])%list
                (repeat Script.timeout 5 ++ [Script.AUnit])%list
                [Script.AUnit] []
                _ _ _
                eq_refl eq_refl eq_refl eq_refl eq_refl eq_refl eq_refl eq_refl)
    as [H _].
  rewrite H. reflexivity.
Defined.

(** C6, on the same portal with a browser that is gone when the session
    is quit: the loop of the CAPTCHA returns [False] in this run, the
    [driver.quit()] of line 320 raises, and the handler answers with the
    server error of status 500 in place of the CAPTCHA failure. *)
Lemma captcha_exhaustion_quit_fails :
  outcome (handle_captcha_submission
             (world_after
                (open_form (JStr "0101000061") (JStr "ACME EXPORTS")
                   (world_after
                      (create_driver Examples.captcha_never_renders_quit_fails)))))
  = Ok (Some false)
  /\ outcome (get_iec_details 1 (Request (Ok Examples.acme_body))
                              Examples.captcha_never_renders_quit_fails)
     = Ok (Some (JObj [("success", JBool false);
                       ("error", JStr "Server error: chrome not reachable")],
                 500))
  /\ (JObj [("success", JBool false);
            ("error", JStr "Server error: chrome not reachable")], 500)
     <> captcha_failure.
Proof. split; [reflexivity|]. split; [reflexivity|]. discriminate. Qed.

(** C10, on the body with two empty strings: the session is created and
    both fields receive the empty string. *)
Lemma empty_strings_accepted_witness :
  get_iec_details 1 (Request (Ok (JObj Examples.empty_body))) Examples.form_answers
  = try_except (session 1 (JStr EmptyString) (JStr EmptyString))
               any_exception
               (fun e => ret (Some (failure ("Server error: " ++ exn_str e) 500)))
               Examples.form_answers
  /\ In (EvSendKeys 2%nat (JStr EmptyString))
        (trace (session 1 (JStr EmptyString) (JStr EmptyString)
                        Examples.form_answers))
  /\ In (EvSendKeys 3%nat (JStr EmptyString))
        (trace (session 1 (JStr EmptyString) (JStr EmptyString)
                        Examples.form_answers)).
Proof.
  split.
  - exact (proj1 (proj2 (empty_strings_accepted
                           (D:=Script.scripted) 1%nat Examples.empty_body
                           Examples.form_answers eq_refl eq_refl))).
  - vm_compute. split; tauto.
Defined.


(* ================================================================== *)
(** * The pagination walk *)
(* ================================================================== *)

Section WalkFacts.
Context {W : Type} {D : WebDriver W}.
Import Table.

(** Lines 185-188 in the words of the merge policy. *)
Lemma page_contribution_policy (page : Z) (r : pyrows) :
  page_contribution page r
  = if page =? 1 then py_items r else tl (py_items r).
Proof.
  unfold page_contribution. destruct (page =? 1); auto.
  destruct r as [s|l]; simpl.
  - destruct s; reflexivity.
  - destruct l; reflexivity.
Qed.

Lemma quiet_no_pages (t : list event) :
  count is_page_source t = 0%nat -> pages_read t = [].
Proof.
  unfold count, pages_read. induction t as [|ev t IH]; simpl; auto.
  destruct ev; simpl; auto. discriminate.
Qed.

Lemma walk_error_run (page : Z) (e : exn) (w : W) :
  exists line, walk_error page e w = (Ok None, w, [EvPrint line]).
Proof. unfold walk_error, bind, emit, ret. simpl. eauto. Qed.

(** Lines 191-206 read no page source, never raise, and either leave the
    loop or move to the next page. *)
Lemma next_page_run (next_button_id : string) (page : Z) (w : W) :
  exists next w' t,
    try_except (next_page next_button_id page) any_exception (walk_error page) w
    = (Ok next, w', t)
    /\ pages_read t = []
    /\ (next = None \/ next = Some (page + 1)).
Proof.
  set (m := try_except (next_page next_button_id page) any_exception
                       (walk_error page)).
  assert (Hsafe : safe m).
  { apply safe_try_any. intros e w0. destruct (walk_error_run page e w0) as [l ->].
    now exists None. }
  assert (Hquiet : atmost is_page_source 0 m).
  { unfold m, next_page, walk_error, wait_presence, click. quiet. }
  assert (Hval : yields (fun n => n = None \/ n = Some (page + 1)) m).
  { unfold m, next_page, walk_error. apply yields_try.
    - apply yields_try; [|intros; apply yields_ret; auto].
      repeat (apply yields_bind; intros).
      destruct a0; [|apply yields_raise].
      destruct (Text.str_in _ _); [apply yields_ret; auto|].
      repeat (apply yields_bind; intros). apply yields_ret; auto.
    - intros e. apply yields_bind; intros. apply yields_ret; auto. }
  destruct (Hsafe w) as [next Hn]. specialize (Hquiet w). specialize (Hval w next Hn).
  destruct (m w) as [[r w'] t]. unfold outcome, trace in *. simpl in *. subst r.
  exists next, w', t. repeat split; auto. apply quiet_no_pages. lia.
Qed.

(** Lines 177-182: either the page is loaded and its source read once,
    or an exception ends the walk and no source is read. *)
Lemma load_page_run (table_id delimiter : string) (page : Z) (w : W) :
  exists loaded w' t,
    try_except
      (call (EvWaitPresence 10 (ID, table_id)) (wd_wait_presence 10 (ID, table_id)) ;;;
       call (EvWaitRows 10 ("#" ++ table_id ++ " tbody tr"))
            (wd_wait_rows 10 ("#" ++ table_id ++ " tbody tr")) ;;;
       current_page_rows <- extract_table_data_with_bs4 table_id delimiter ;;
       ret (Some current_page_rows))
      any_exception
      (fun e => walk_error page e ;;; ret None) w
    = (Ok loaded, w', t)
    /\ match loaded with
       | Some rows =>
           exists soup, pages_read t = [soup]
                        /\ rows = extract_rows soup table_id delimiter
       | None => pages_read t = []
       end.
Proof.
  unfold try_except, bind, call, extract_table_data_with_bs4, page_source,
    walk_error, bind, emit, ret.
  destruct (wd_wait_presence 10 (ID, table_id) w) as [[e|x] w1];
    cbn [any_exception exn_class_of fst snd]; [|do 3 eexists; split; reflexivity].
  destruct (wd_wait_rows 10 _ w1) as [[u|x] w2];
    cbn [any_exception exn_class_of fst snd]; [|do 3 eexists; split; reflexivity].
  destruct (wd_page_source w2) as [[soup|x] w3];
    cbn [any_exception exn_class_of fst snd]; [|do 3 eexists; split; reflexivity].
  do 3 eexists. split; [reflexivity|]. exists soup. split; reflexivity.
Qed.

(** One turn of the walk. *)
Lemma walk_turn_run (table_id next_button_id delimiter : string)
      (page : Z) (all_rows : list string) (w : W) :
  exists rows next w' t,
    walk_turn table_id next_button_id delimiter page all_rows w
    = (Ok (rows, next), w', t)
    /\ ((pages_read t = [] /\ rows = all_rows /\ next = None)
        \/ (exists soup,
               pages_read t = [soup]
               /\ rows = (all_rows
                            ++ page_contribution
                                 page (extract_rows soup table_id delimiter))%list
               /\ (next = None \/ next = Some (page + 1)))).
Proof.
  unfold walk_turn.
  destruct (load_page_run table_id delimiter page w) as [loaded [w1 [t1 [E H]]]].
  rewrite (bind_ok _ _ _ _ _ _ E). destruct loaded as [current|].
  - destruct H as [soup [Hp ->]].
    destruct (next_page_run next_button_id page w1) as [next [w2 [t2 [E2 [Hq Hn]]]]].
    rewrite (bind_ok _ _ _ _ _ _ E2). unfold outcome, trace. cbn [fst snd ret].
    do 4 eexists. split; [reflexivity|]. right. exists soup.
    rewrite !pages_read_app, Hp, Hq. simpl. auto.
  - unfold outcome, trace. cbn [fst snd ret].
    do 4 eexists. split; [reflexivity|]. left.
    rewrite pages_read_app, H. auto.
Qed.

Lemma walk_loop_step (fuel : nat) (table_id next_button_id delimiter : string)
      (page : Z) (all_rows : list string) :
  walk_loop (W:=W) (S fuel) table_id next_button_id delimiter page all_rows
  = (r <- walk_turn table_id next_button_id delimiter page all_rows ;;
     match r with
     | (all_rows, Some page) =>
         walk_loop fuel table_id next_button_id delimiter page all_rows
     | (all_rows, None) => ret (Some all_rows)
     end).
Proof. reflexivity. Qed.

(** The loop never raises. *)
Lemma walk_loop_safe (fuel : nat) (table_id next_button_id delimiter : string) :
  forall page all_rows,
    safe (walk_loop (W:=W) fuel table_id next_button_id delimiter page all_rows).
Proof.
  induction fuel as [|fuel IH]; intros page all_rows w; [now exists None|].
  rewrite walk_loop_step.
  destruct (walk_turn_run table_id next_button_id delimiter page all_rows w)
    as [rows [next [w1 [t1 [E _]]]]].
  rewrite (bind_ok _ _ _ _ _ _ E). unfold outcome at 1. cbn [fst].
  destruct next as [page'|]; [apply IH | now exists (Some rows)].
Qed.

(** From the second page on every page gives its lines but the first. *)
Lemma walk_loop_later (fuel : nat) (table_id next_button_id delimiter : string) :
  forall page all_rows (w : W) rows w' t,
    2 <= page ->
    walk_loop fuel table_id next_button_id delimiter page all_rows w
    = (Ok (Some rows), w', t) ->
    rows = (all_rows
              ++ flat_map (fun p => tl (py_items (extract_rows p table_id delimiter)))
                          (pages_read t))%list.
Proof.
  induction fuel as [|fuel IH]; intros page all_rows w rows w' t Hpage Hrun;
    [discriminate|].
  rewrite walk_loop_step in Hrun.
  destruct (walk_turn_run table_id next_button_id delimiter page all_rows w)
    as [rows1 [next [w1 [t1 [E Hturn]]]]].
  rewrite (bind_ok _ _ _ _ _ _ E) in Hrun.
  assert (Hne : (page =? 1) = false) by (apply Z.eqb_neq; lia).
  destruct next as [page'|].
  - destruct Hturn as [[_ [_ Hn]]|[soup [Hp [Hr [Hn|Hn]]]]]; try discriminate.
    injection Hn as ->.
    destruct (walk_loop fuel table_id next_button_id delimiter (page + 1) rows1 w1)
      as [[r2 w2] t2] eqn:E2.
    unfold outcome, trace in Hrun. cbn [fst snd] in Hrun.
    injection Hrun as -> -> <-.
    rewrite (IH (page + 1) rows1 w1 _ _ _ ltac:(lia) E2), Hr, pages_read_app, Hp.
    rewrite page_contribution_policy, Hne. simpl. now rewrite <- app_assoc.
  - unfold outcome, trace in Hrun. cbn [fst snd ret] in Hrun.
    injection Hrun as <- _ <-. rewrite app_nil_r.
    destruct Hturn as [[Hp [Hr _]]|[soup [Hp [Hr _]]]]; rewrite Hp, Hr; simpl.
    + now rewrite app_nil_r.
    + now rewrite page_contribution_policy, Hne, app_nil_r.
Qed.

(** The accumulated rows follow the merge policy. *)
Lemma walk_loop_merged (fuel : nat) (table_id next_button_id delimiter : string)
      (w : W) rows w' t :
  walk_loop fuel table_id next_button_id delimiter 1 [] w = (Ok (Some rows), w', t) ->
  rows = merged table_id delimiter (pages_read t).
Proof.
  destruct fuel as [|fuel]; [discriminate|]. intros Hrun.
  rewrite walk_loop_step in Hrun.
  destruct (walk_turn_run table_id next_button_id delimiter 1 [] w)
    as [rows1 [next [w1 [t1 [E Hturn]]]]].
  rewrite (bind_ok _ _ _ _ _ _ E) in Hrun.
  destruct next as [page'|].
  - destruct Hturn as [[_ [_ Hn]]|[soup [Hp [Hr [Hn|Hn]]]]]; try discriminate.
    injection Hn as ->.
    destruct (walk_loop fuel table_id next_button_id delimiter 2 rows1 w1)
      as [[r2 w2] t2] eqn:E2.
    unfold outcome, trace in Hrun. cbn [fst snd] in Hrun.
    injection Hrun as -> -> <-.
    rewrite (walk_loop_later fuel table_id next_button_id delimiter 2 rows1 w1
               _ _ _ ltac:(lia) E2), Hr.
    rewrite pages_read_app, Hp. reflexivity.
  - unfold outcome, trace in Hrun. cbn [fst snd ret] in Hrun.
    injection Hrun as <- _ <-. rewrite app_nil_r.
    destruct Hturn as [[Hp [Hr _]]|[soup [Hp [Hr _]]]]; rewrite Hp, Hr; simpl.
    + reflexivity.
    + now rewrite app_nil_r.
Qed.

(** With a header line on every page, dropping index 0 drops a header. *)
Lemma merged_with_headers (table_id delimiter : string)
      (first : Soup.node) (later : list Soup.node) (h : string) :
  has_header table_id delimiter first h ->
  (forall p, In p later -> exists h', has_header table_id delimiter p h') ->
  merged table_id delimiter (first :: later)
  = h :: flat_map (body_of table_id delimiter) (first :: later).
Proof.
  intros [table [Hf Hh]] Hlater. unfold merged. simpl flat_map.
  unfold extract_rows at 1, body_of at 1. rewrite Hf. simpl. rewrite Hh. simpl.
  f_equal. f_equal.
  induction later as [|p later IH]; simpl; auto.
  destruct (Hlater p (or_introl eq_refl)) as [h' [tp [Hfp Hhp]]].
  unfold extract_rows at 1, body_of at 1. rewrite Hfp. simpl. rewrite Hhp. simpl.
  f_equal. apply IH. intros q Hq. apply Hlater. now right.
Qed.

(** The lines of the extractor are its tagged lines without the tags. *)
Lemma items_tagged (table_id delimiter : string) (p : Soup.node) :
  py_items (extract_rows p table_id delimiter)
  = map snd (tagged_lines table_id delimiter p).
Proof.
  unfold tagged_lines, header_of, body_of, extract_rows.
  destruct (find_table p table_id); [|reflexivity].
  cbn [py_items]. rewrite map_app, !map_map. cbn [snd]. now rewrite !map_id.
Qed.

Lemma tl_map_snd (l : list (origin * string)) : tl (map snd l) = map snd (tl l).
Proof. destruct l; reflexivity. Qed.

Lemma merged_is_tagged (table_id delimiter : string) (pages : list Soup.node) :
  merged table_id delimiter pages
  = map snd (merged_tagged table_id delimiter pages).
Proof.
  destruct pages as [|first later]; [reflexivity|].
  unfold merged, merged_tagged. rewrite map_app, items_tagged. f_equal.
  induction later as [|p later IH]; [reflexivity|].
  cbn [flat_map]. now rewrite map_app, IH, items_tagged, tl_map_snd.
Qed.

(** The head section of a table gives no line or one line. *)
Lemma header_of_short (table_id delimiter : string) (p : Soup.node) :
  header_of table_id delimiter p = []
  \/ exists h, header_of table_id delimiter p = [h].
Proof.
  unfold header_of. destruct (find_table p table_id) as [table|]; auto.
  destruct (TableFacts.header_lines_cases delimiter table)
    as [E|[thead [_ [_ E]]]]; rewrite E; eauto.
Qed.

Lemma from_head_count_app (a b : list (origin * string)) :
  from_head_count (a ++ b) = (from_head_count a + from_head_count b)%nat.
Proof. unfold from_head_count. now rewrite filter_app, length_app. Qed.

Lemma body_tagged_no_head (l : list string) :
  from_head_count (map (pair FromBody) l) = 0%nat.
Proof. induction l; auto. Qed.

(** What a later page contributes holds no line of a head section. *)
Lemma later_page_no_head (table_id delimiter : string) (p : Soup.node) :
  from_head_count (tl (tagged_lines table_id delimiter p)) = 0%nat.
Proof.
  unfold tagged_lines.
  destruct (header_of_short table_id delimiter p) as [-> | [h ->]];
    cbn [map app tl].
  - destruct (body_of table_id delimiter p) as [|l ls]; [reflexivity|].
    apply body_tagged_no_head.
  - apply body_tagged_no_head.
Qed.

Lemma later_pages_no_head (table_id delimiter : string) (later : list Soup.node) :
  from_head_count
    (flat_map (fun p => tl (tagged_lines table_id delimiter p)) later) = 0%nat.
Proof.
  induction later as [|p later IH]; [reflexivity|].
  cbn [flat_map]. now rewrite from_head_count_app, later_page_no_head, IH.
Qed.

(** With a header line on the first page, the merged lines hold one line
    of a head section, whatever the later pages hold: that header line,
    at the front. *)
Lemma merged_one_header (table_id delimiter : string)
      (first : Soup.node) (later : list Soup.node) (h : string) :
  has_header table_id delimiter first h ->
  from_head_count (merged_tagged table_id delimiter (first :: later)) = 1%nat
  /\ exists rest,
      merged_tagged table_id delimiter (first :: later) = (FromHead, h) :: rest.
Proof.
  intros [table [Hf Hh]]. unfold merged_tagged, tagged_lines at 1 3.
  unfold header_of, body_of. rewrite Hf, Hh. cbn [map app]. split; [|eauto].
  change ((FromHead, h)
            :: (map (pair FromBody) (body_lines delimiter table)
                  ++ flat_map (fun p => tl (tagged_lines table_id delimiter p))
                       later))%list
    with ([(FromHead, h)]
            ++ (map (pair FromBody) (body_lines delimiter table)
                  ++ flat_map (fun p => tl (tagged_lines table_id delimiter p))
                       later))%list.
  now rewrite !from_head_count_app, body_tagged_no_head, later_pages_no_head.
Qed.

(** On a page with a header line, dropping index 0 drops that line. *)
Lemma later_page_body (table_id delimiter : string) (p : Soup.node) (h : string) :
  has_header table_id delimiter p h ->
  tl (py_items (extract_rows p table_id delimiter)) = body_of table_id delimiter p.
Proof.
  intros [table [Hf Hh]]. unfold extract_rows, body_of. now rewrite Hf, Hh.
Qed.

(** Whenever the walk returns, its output is the newline-join of the
    merged lines of the pages it read.  With a header line on the first
    page, one of the merged lines comes from a head section, the first
    of them; with a header line on every page, the output is that line
    followed by the body lines of all the pages. *)
Lemma walk_output_merged
        (fuel : nat) (table_id next_button_id delimiter : string)
        (w w' : W) (out : string) (t : list event) :
  extract_table_data_with_pagination fuel table_id next_button_id delimiter w
  = (Ok (Some out), w', t) ->
  out = Text.join Text.nl (merged table_id delimiter (pages_read t))
  /\ (forall first later h,
         pages_read t = first :: later ->
         has_header table_id delimiter first h ->
         out = Text.join Text.nl
                 (map snd (merged_tagged table_id delimiter (first :: later)))
         /\ from_head_count (merged_tagged table_id delimiter (first :: later))
            = 1%nat
         /\ (exists rest,
                merged_tagged table_id delimiter (first :: later)
                = (FromHead, h) :: rest)
         /\ map snd (merged_tagged table_id delimiter (first :: later))
            = (py_items (extract_rows first table_id delimiter)
                 ++ flat_map
                      (fun p => tl (py_items (extract_rows p table_id delimiter)))
                      later)%list
         /\ (forall p h', In p later ->
                          has_header table_id delimiter p h' ->
                          tl (py_items (extract_rows p table_id delimiter))
                          = body_of table_id delimiter p)
         /\ ((forall p, In p later ->
                        exists h', has_header table_id delimiter p h') ->
             out = Text.join Text.nl
                     (h :: flat_map (body_of table_id delimiter)
                                    (first :: later)))).
Proof.
  unfold extract_table_data_with_pagination. intros Hrun.
  destruct (walk_loop_safe fuel table_id next_button_id delimiter 1 [] w) as [r Hr].
  destruct (walk_loop fuel table_id next_button_id delimiter 1 [] w)
    as [[r' w1] t1] eqn:E.
  unfold outcome in Hr. simpl in Hr. subst r'.
  rewrite (bind_ok _ _ _ _ _ _ E) in Hrun.
  unfold outcome, trace in Hrun. cbn [fst snd ret] in Hrun.
  rewrite app_nil_r in Hrun. injection Hrun as Hout -> ->.
  destruct r as [rows|]; [|discriminate]. injection Hout as <-.
  rewrite (walk_loop_merged _ _ _ _ _ _ _ _ E). split; [reflexivity|].
  intros first later h Hp Hh. rewrite Hp.
  destruct (merged_one_header table_id delimiter first later h Hh) as [Hone Hfront].
  split; [now rewrite merged_is_tagged|]. split; [exact Hone|].
  split; [exact Hfront|]. split; [now rewrite <- merged_is_tagged|].
  split; [intros p h' _ Hp'; now apply later_page_body with (h := h')|].
  intros Hl. now rewrite (merged_with_headers _ _ _ _ _ Hh Hl).
Qed.

End WalkFacts.


(* ================================================================== *)
(** * The walk over a portal of N pages *)
(* ================================================================== *)

Section PortalWalk.
Import Table Script.
Variables table_id next_button_id delimiter : string.

Lemma contributions_later (pages : list Soup.node) :
  forall page, 2 <= page ->
  contributions table_id delimiter page pages
  = flat_map (fun p => tl (py_items (extract_rows p table_id delimiter))) pages.
Proof.
  induction pages as [|p rest IH]; intros page Hp; simpl; auto.
  rewrite page_contribution_policy.
  assert ((page =? 1) = false) as -> by (apply Z.eqb_neq; lia).
  f_equal. apply IH. lia.
Qed.

Lemma contributions_merged (pages : list Soup.node) :
  contributions table_id delimiter 1 pages = merged table_id delimiter pages.
Proof.
  destruct pages as [|p rest]; simpl; auto.
  rewrite page_contribution_policy. simpl. f_equal.
  apply contributions_later. lia.
Qed.

Lemma portal_turn_last (p : Soup.node) (page : Z) (all_rows : list string) :
  exists t,
    walk_turn table_id next_button_id delimiter page all_rows (portal [p])
    = (Ok ((all_rows ++ page_contribution page
                          (extract_rows p table_id delimiter))%list, None), [], t)
    /\ pages_read t = [p].
Proof. eexists. split; reflexivity. Qed.

Lemma portal_turn_next (p : Soup.node) (rest : world) (page : Z)
      (all_rows : list string) :
  exists t,
    walk_turn table_id next_button_id delimiter page all_rows
              (page_answers p next_enabled ++ rest)%list
    = (Ok ((all_rows ++ page_contribution page
                          (extract_rows p table_id delimiter))%list,
           Some (page + 1)), rest, t)
    /\ pages_read t = [p].
Proof. eexists. split; reflexivity. Qed.

(** On a portal of N pages the loop ends within N turns, having read
    the N pages in order. *)
Lemma portal_walk (pages : list Soup.node) :
  forall page all_rows,
    pages <> [] ->
    exists t,
      walk_loop (List.length pages) table_id next_button_id delimiter
                page all_rows (portal pages)
      = (Ok (Some (all_rows ++ contributions table_id delimiter page pages)%list),
         [], t)
      /\ pages_read t = pages.
Proof.
  induction pages as [|p rest IH]; intros page all_rows Hne; [congruence|].
  destruct rest as [|q rest].
  - destruct (portal_turn_last p page all_rows) as [t [E Hp]].
    exists (t ++ [])%list. cbn [List.length]. rewrite walk_loop_step.
    rewrite (bind_ok _ _ _ _ _ _ E). unfold outcome, trace.
    cbn [fst snd ret contributions]. rewrite !app_nil_r. auto.
  - destruct (portal_turn_next p (portal (q :: rest)) page all_rows) as [t [E Hp]].
    destruct (IH (page + 1)
                 (all_rows ++ page_contribution page
                                (extract_rows p table_id delimiter))%list
                 ltac:(discriminate)) as [t' [E' Hp']].
    exists (t ++ t')%list.
    change (portal (p :: q :: rest))
      with (page_answers p next_enabled ++ portal (q :: rest))%list.
    change (List.length (p :: q :: rest)) with (S (List.length (q :: rest))).
    rewrite walk_loop_step, (bind_ok _ _ _ _ _ _ E). cbn beta iota.
    rewrite E'. unfold outcome, trace. cbn [fst snd].
    rewrite pages_read_app, Hp, Hp'. split; [|reflexivity].
    cbn [contributions]. now rewrite <- app_assoc.
Qed.

(** A walk over N >= 1 pages returns the merged lines of the N pages. *)
Lemma portal_walk_returns (pages : list Soup.node) :
  pages <> [] ->
  exists t,
    extract_table_data_with_pagination
      (List.length pages) table_id next_button_id delimiter (portal pages)
    = (Ok (Some (Text.join Text.nl (merged table_id delimiter pages))), [], t)
    /\ pages_read t = pages.
Proof.
  intros Hne. destruct (portal_walk pages 1 [] Hne) as [t [E Hp]].
  exists (t ++ [])%list. unfold extract_table_data_with_pagination.
  rewrite (bind_ok _ _ _ _ _ _ E). unfold outcome, trace. cbn [fst snd ret].
  rewrite contributions_merged, app_nil_r. auto.
Qed.

End PortalWalk.

(** C1.  Whenever the walk returns, its output is the newline-join of
    the merged lines of the pages it read: every line the extractor
    returns for the first page, and the lines of each later page with
    index 0 dropped.  When the table of the first page yields a header
    line, exactly one of the lines that are joined comes from a head
    section, whatever the number of pages: the header line of the first
    page, at the front; and a later page that yields a header line
    contributes its body lines.  With a header line on every page the
    output is the header line of the first page followed by the body
    lines of all the pages in order.  And on a portal of N >= 1 pages
    the walk does return, within N turns, having read the N pages. *)
Theorem walk_merges_pages :
  (forall (W : Type) (D : WebDriver W)
          (fuel : nat) (table_id next_button_id delimiter : string)
          (w w' : W) (out : string) (t : list event),
      extract_table_data_with_pagination fuel table_id next_button_id delimiter w
      = (Ok (Some out), w', t) ->
      out = Text.join Text.nl (merged table_id delimiter (pages_read t))
      /\ (forall first later h,
             pages_read t = first :: later ->
             has_header table_id delimiter first h ->
             out = Text.join Text.nl
                     (map snd (merged_tagged table_id delimiter (first :: later)))
             /\ from_head_count (merged_tagged table_id delimiter (first :: later))
                = 1%nat
             /\ (exists rest,
                    merged_tagged table_id delimiter (first :: later)
                    = (FromHead, h) :: rest)
             /\ map snd (merged_tagged table_id delimiter (first :: later))
                = (Table.py_items (Table.extract_rows first table_id delimiter)
                     ++ flat_map
                          (fun p => tl (Table.py_items
                                          (Table.extract_rows p table_id delimiter)))
                          later)%list
             /\ (forall p h', In p later ->
                              has_header table_id delimiter p h' ->
                              tl (Table.py_items
                                    (Table.extract_rows p table_id delimiter))
                              = body_of table_id delimiter p)
             /\ ((forall p, In p later ->
                            exists h', has_header table_id delimiter p h') ->
                 out = Text.join Text.nl
                         (h :: flat_map (body_of table_id delimiter)
                                        (first :: later)))))
  /\ (forall (table_id next_button_id delimiter : string) (pages : list Soup.node),
         pages <> [] ->
         exists t,
           extract_table_data_with_pagination
             (List.length pages) table_id next_button_id delimiter
             (Script.portal pages)
           = (Ok (Some (Text.join Text.nl (merged table_id delimiter pages))), [], t)
           /\ pages_read t = pages).
Proof.
  split.
  - intros. now apply walk_output_merged with (fuel := fuel)
                       (next_button_id := next_button_id) (w := w) (w' := w').
  - intros. now apply portal_walk_returns.
Qed.

(** C1, on the two pages of branches: of the five lines that are joined,
    one comes from a head section, the header line of the first page. *)
Lemma walk_merges_pages_witness :
  Text.join Text.nl ["Branch;City"; "B1;Pune"; "B2;Agra"; "B3;Kochi"; "B4;Surat"]
  = Text.join Text.nl
      (map snd (merged_tagged "branchTable" ";"
                              [Examples.branches1; Examples.branches2]))
  /\ from_head_count (merged_tagged "branchTable" ";"
                                    [Examples.branches1; Examples.branches2])
     = 1%nat
  /\ merged_tagged "branchTable" ";" [Examples.branches1; Examples.branches2]
     = [(FromHead, "Branch;City"); (FromBody, "B1;Pune"); (FromBody, "B2;Agra");
        (FromBody, "B3;Kochi"); (FromBody, "B4;Surat")].
Proof.
  split; [|split; [|reflexivity]].
  - refine (proj1 (proj2 (proj1 walk_merges_pages
                     _ Script.scripted 2%nat "branchTable" "branchTable_next" ";"
                     (Script.portal [Examples.branches1; Examples.branches2]) []
                     _ _ _)
                  Examples.branches1 [Examples.branches2] "Branch;City" _ _)).
    + vm_compute. reflexivity.
    + vm_compute. reflexivity.
    + eexists. split; vm_compute; reflexivity.
  - refine (proj1 (proj2 (proj2 (proj1 walk_merges_pages
                     _ Script.scripted 2%nat "branchTable" "branchTable_next" ";"
                     (Script.portal [Examples.branches1; Examples.branches2]) []
                     (Text.join Text.nl ["Branch;City"; "B1;Pune"; "B2;Agra";
                                         "B3;Kochi"; "B4;Surat"])
                     _ _)
                  Examples.branches1 [Examples.branches2] "Branch;City" _ _))).
    + vm_compute. reflexivity.
    + vm_compute. reflexivity.
    + eexists. split; vm_compute; reflexivity.
Defined.

(** C1: on two pages whose header cells are blank the extractor emits no
    header line, so none of the three lines that are joined comes from a
    head section, and none of them is a header line of a page; the line
    dropped from the second page is its first data row. *)
Lemma walk_without_header_line :
  outcome (extract_table_data_with_pagination
             2 "branchTable" "branchTable_next" ";"
             (Script.portal [Examples.bare1; Examples.bare2]))
  = Ok (Some (Text.join Text.nl ["B1;Pune"; "B2;Agra"; "B4;Surat"]))
  /\ pages_read (trace (extract_table_data_with_pagination
                          2 "branchTable" "branchTable_next" ";"
                          (Script.portal [Examples.bare1; Examples.bare2])))
     = [Examples.bare1; Examples.bare2]
  /\ merged_tagged "branchTable" ";" [Examples.bare1; Examples.bare2]
     = [(FromBody, "B1;Pune"); (FromBody, "B2;Agra"); (FromBody, "B4;Surat")]
  /\ from_head_count (merged_tagged "branchTable" ";"
                                    [Examples.bare1; Examples.bare2]) = 0%nat
  /\ header_line_count "branchTable" ";" [Examples.bare1; Examples.bare2]
       ["B1;Pune"; "B2;Agra"; "B4;Surat"] = 0%nat
  /\ Table.extract_rows Examples.bare2 "branchTable" ";"
     = Table.PyList ["B3;Kochi"; "B4;Surat"].
Proof. repeat split; reflexivity. Qed.

(** C2, in the world where every operation raises: each of the five
    attempts raises, and the loop returns [False]; and on a portal that
    never shows the success heading: each of the five attempts submits a
    text and fails without raising, and the loop returns [False]. *)
Lemma handle_captcha_bounded_witness :
  (exists w' tr,
      handle_captcha_submission (D:=Broken.broken) tt = (Ok (Some false), w', tr)
      /\ (count is_solve tr <= 5)%nat)
  /\ (exists w' tr,
         handle_captcha_submission MoreExamples.never_solved
         = (Ok (Some false), w', tr)
         /\ (count is_solve tr <= 5)%nat).
Proof.
  split.
  - destruct (handle_captcha_bounded (D:=Broken.broken) tt)
      as [b [w' [tr [E [Hs [_ [_ Hb]]]]]]].
    assert (Hfail : attempts_fail (D:=Broken.broken) 5 0 tt).
    { cbv. repeat split; intros H; discriminate H. }
    exists w', tr. split; [|exact Hs].
    rewrite <- (proj2 Hb Hfail). exact E.
  - destruct (handle_captcha_bounded (D:=Script.scripted) MoreExamples.never_solved)
      as [b [w' [tr [E [Hs [_ [_ Hb]]]]]]].
    assert (Hfail : attempts_fail (D:=Script.scripted) 5 0
                                  MoreExamples.never_solved).
    { vm_compute. repeat split; intros H; discriminate H. }
    exists w', tr. split; [|exact Hs].
    rewrite <- (proj2 Hb Hfail). exact E.
Defined.

(** On the portal that never shows the success heading the five turns
    make five solver calls, five requests and five clicks. *)
Example five_attempts_fail :
  outcome (handle_captcha_submission MoreExamples.never_solved) = Ok (Some false)
  /\ count is_solve (trace (handle_captcha_submission MoreExamples.never_solved))
     = 5%nat
  /\ count is_post (trace (handle_captcha_submission MoreExamples.never_solved))
     = 5%nat
  /\ count is_click (trace (handle_captcha_submission MoreExamples.never_solved))
     = 5%nat.
Proof. repeat split; reflexivity. Qed.

(** When every operation raises, each of the five turns ends in its
    handler and the loop returns [False] without a single solve call. *)
Example every_attempt_raises :
  handle_captcha_submission (D:=Broken.broken) tt
  = (Ok (Some false), tt,
     [EvWaitPresence 5 (XPATH, captcha_xpath);
      EvPrint "Attempt 1 error: chrome not reachable";
      EvWaitPresence 5 (XPATH, captcha_xpath);
      EvPrint "Attempt 2 error: chrome not reachable";
      EvWaitPresence 5 (XPATH, captcha_xpath);
      EvPrint "Attempt 3 error: chrome not reachable";
      EvWaitPresence 5 (XPATH, captcha_xpath);
      EvPrint "Attempt 4 error: chrome not reachable";
      EvWaitPresence 5 (XPATH, captcha_xpath);
      EvPrint "Attempt 5 error: chrome not reachable"]).
Proof. reflexivity. Qed.

(* ================================================================== *)
(** * More on text and on the lines of the table *)
(* ================================================================== *)

Section MoreText.
Import Text TextFacts Soup Table TableFacts.

Lemma append_nil_right (s : string) : s ++ EmptyString = s.
Proof. induction s; simpl; congruence. Qed.

Lemma append_snoc (cur : string) (c : ascii) (w : string) :
  (cur ++ String c EmptyString) ++ w = cur ++ String c w.
Proof. induction cur; simpl; congruence. Qed.

(** Scanning a word only extends the word being scanned. *)
Lemma split_from_solid (w : string) :
  forall cur rest,
    solid w = true ->
    split_from cur (w ++ rest) = split_from (cur ++ w) rest.
Proof.
  induction w as [|c w IH]; intros cur rest Hw; simpl.
  - now rewrite append_nil_right.
  - simpl in Hw. apply andb_true_iff in Hw as [Hc Hw].
    apply negb_true_iff in Hc. rewrite Hc, IH by auto.
    now rewrite append_snoc.
Qed.

(** Splitting what was joined with single spaces gives the words back. *)
Lemma split_join (ws : list string) :
  Forall (fun w => nonempty w = true /\ solid w = true) ws ->
  split (join " " ws) = ws.
Proof.
  unfold split, join.
  induction 1 as [|w ws [Hn Hs] Hws IH]; [reflexivity|].
  simpl. destruct ws as [|w' ws'].
  - rewrite <- (append_nil_right w) at 1. rewrite split_from_solid by auto.
    simpl. now rewrite Hn.
  - set (r := concat " " (w' :: ws')) in *.
    change (w ++ " " ++ r) with (w ++ String " " r).
    rewrite split_from_solid by auto. simpl. rewrite Hn. now rewrite IH.
Qed.

(** X1.  Collapsing whitespace is idempotent: a body cell that is
    collapsed again does not change. *)
Theorem normalize_idempotent (s : string) :
  normalize (normalize s) = normalize s.
Proof.
  unfold normalize at 1 3. f_equal. apply split_join, split_words.
Qed.

Lemma mentions_append (c : ascii) (a b : string) :
  mentions c (a ++ b) = mentions c a || mentions c b.
Proof.
  induction a as [|x a IH]; simpl; auto. now rewrite IH, orb_assoc.
Qed.

Lemma mentions_join (c : ascii) (d : string) (cells : list string) :
  mentions c d = false ->
  (forall x, In x cells -> mentions c x = false) ->
  mentions c (join d cells) = false.
Proof.
  intros Hd. unfold join. induction cells as [|x cells IH]; intros H; simpl; auto.
  destruct cells as [|y cells]; [apply H; now left|].
  rewrite !mentions_append, Hd, (H x) by now left. simpl.
  apply IH. intros z Hz. apply H. now right.
Qed.

(** In a string without whitespace runs the only whitespace is the
    space. *)
Lemma no_ws_run_mentions (c : ascii) (s : string) :
  is_space c = true -> c <> " "%char -> no_ws_run s = true ->
  mentions c s = false.
Proof.
  intros Hc Hne. induction s as [|x s IH]; simpl; auto.
  intros H. apply andb_true_iff in H as [Hx Hs]. rewrite (IH Hs), orb_false_r.
  destruct (Ascii.eqb x c) eqn:E; auto. apply Ascii.eqb_eq in E. subst x.
  rewrite Hc in Hx. apply andb_true_iff in Hx as [Hx _].
  apply Ascii.eqb_eq in Hx. contradiction.
Qed.

(** X2.  A body line holds no whitespace other than single spaces
    unless the delimiter brings it: with a delimiter free of line breaks
    (or tabs, or no-break spaces), every body row is one line of the
    newline-joined output. *)
Theorem body_line_has_no_break
        (c : ascii) (delimiter : string) (table : node) (line : string) :
  is_space c = true -> c <> " "%char ->
  mentions c delimiter = false ->
  In line (body_lines delimiter table) ->
  mentions c line = false.
Proof.
  intros Hc Hne Hd Hin. rewrite body_lines_filter in Hin.
  destruct (find "tbody" table) as [tbody|]; [|destruct Hin].
  apply in_map_iff in Hin as [cells [<- Hcells]].
  apply filter_In in Hcells as [Hcells _].
  apply in_map_iff in Hcells as [tr [<- _]].
  apply mentions_join; auto. intros x Hx.
  apply no_ws_run_mentions; auto.
  pose proof (row_cells_normalized tr x Hx) as Hn. unfold normalized in Hn.
  now apply andb_true_iff in Hn as [_ Hn].
Qed.

End MoreText.

(** X2, for the line break, the semicolon and the first row of the
    spaced page. *)
Lemma body_line_has_no_break_witness :
  mentions newline "B1 East;Pune" = false.
Proof.
  refine (body_line_has_no_break
            newline ";"
            (Soup.Elem "table" []
               [Soup.Elem "tbody" []
                  [Soup.Elem "tr" [] [Script.cell "td" "B1  East";
                                      Script.cell "td" " Pune "]]])
            "B1 East;Pune" eq_refl _ eq_refl _).
  - discriminate.
  - left. reflexivity.
Defined.

(* ================================================================== *)
(** * More on the pagination walk *)
(* ================================================================== *)

(** Case analysis on the answers of the collaborators, call after call. *)
Ltac crack :=
  unfold lift; unfold bind, try_except, call, emit, ret, raise;
  repeat
    (cbn [fst snd any_exception exn_class_of outcome trace app orb];
     match goal with
     | |- context [match ?x with _ => _ end] =>
         lazymatch x with
         | context [match _ with _ => _ end] => fail
         | _ =>
             lazymatch type of x with
             | (result _ * _)%type => destruct x as [[?|?] ?] eqn:?
             | option _ => is_var x; destruct x
             | bool => destruct x eqn:?
             end
         end
     end).

Section MoreWalk.
Context {W : Type} {D : WebDriver W}.
Import Table.

Lemma prefix_self (n b : string) : prefix n (n ++ b) = true.
Proof.
  induction n as [|c n IH]; simpl; [now destruct b|].
  destruct (ascii_dec c c); [exact IH | congruence].
Qed.

(** [in] on strings finds the needle wherever it lies. *)
Lemma str_in_middle (n a b : string) : Text.str_in n (a ++ n ++ b) = true.
Proof.
  induction a as [|c a IH]; simpl.
  - pose proof (prefix_self n b) as H.
    revert H. destruct (n ++ b); simpl; intros H; now rewrite H.
  - rewrite IH. apply orb_true_r.
Qed.

(** One turn: a click comes only after the page was read, an error line
    only as the walk ends, and the walk goes on only after a click. *)
Lemma walk_turn_events (table_id next_button_id delimiter : string)
      (page : Z) (all_rows : list string) (w : W) :
  exists rows next w' t,
    walk_turn table_id next_button_id delimiter page all_rows w
    = (Ok (rows, next), w', t)
    /\ (count is_click t <= List.length (pages_read t))%nat
    /\ (count is_print t <= 1)%nat
    /\ (next <> None ->
        count is_click t = 1%nat /\ List.length (pages_read t) = 1%nat
        /\ count is_print t = 0%nat)
    /\ (List.length (pages_read t) <= 1)%nat.
Proof.
  unfold walk_turn, next_page, walk_error, extract_table_data_with_bs4,
    page_source, wait_presence, click.
  crack; do 4 eexists; (split; [reflexivity|]);
    unfold count, pages_read; simpl;
    repeat split; auto; try lia; try congruence;
    try (intros _; repeat split; lia).
Qed.

Lemma walk_loop_events (fuel : nat) (table_id next_button_id delimiter : string) :
  forall page all_rows (w : W),
    let t := trace (walk_loop fuel table_id next_button_id delimiter
                              page all_rows w) in
    (count is_click t <= List.length (pages_read t))%nat
    /\ (List.length (pages_read t) <= count is_click t + 1)%nat
    /\ (count is_print t <= 1)%nat
    /\ (List.length (pages_read t) <= fuel)%nat.
Proof.
  induction fuel as [|fuel IH]; intros page all_rows w;
    [cbv; repeat split; lia|].
  cbv zeta. rewrite walk_loop_step.
  destruct (walk_turn_events table_id next_button_id delimiter page all_rows w)
    as [rows [next [w1 [t1 [E [Hc [Hp [Hn H1]]]]]]]].
  rewrite (bind_ok _ _ _ _ _ _ E).
  destruct next as [page'|].
  - destruct (Hn ltac:(discriminate)) as [Hc1 [Hr1 Hp1]].
    specialize (IH page' rows w1). cbv zeta in IH.
    destruct IH as [IH1 [IH2 [IH3 IH4]]].
    unfold trace in *. cbn [snd] in *.
    rewrite !count_app, pages_read_app, length_app. repeat split; lia.
  - unfold trace. cbn [snd ret]. rewrite !app_nil_r. repeat split; lia.
Qed.

(** A loop that is out of fuel has read a page and clicked on in each of
    its turns, and printed no error line. *)
Lemma walk_loop_unfinished (fuel : nat)
      (table_id next_button_id delimiter : string) :
  forall page all_rows (w : W),
    let run := walk_loop fuel table_id next_button_id delimiter page all_rows w in
    outcome run = Ok None ->
    List.length (pages_read (trace run)) = fuel
    /\ count is_click (trace run) = fuel
    /\ count is_print (trace run) = 0%nat.
Proof.
  induction fuel as [|fuel IH]; intros page all_rows w; cbv zeta;
    [intros _; cbv; auto|].
  rewrite walk_loop_step.
  destruct (walk_turn_events table_id next_button_id delimiter page all_rows w)
    as [rows [next [w1 [t1 [E [_ [_ [Hn _]]]]]]]].
  rewrite (bind_ok _ _ _ _ _ _ E).
  destruct next as [page'|]; [|discriminate].
  destruct (Hn ltac:(discriminate)) as [Hc1 [Hr1 Hp1]].
  specialize (IH page' rows w1). cbv zeta in IH.
  unfold outcome, trace in *. cbn [fst snd] in *. intros Hnone.
  destruct (IH Hnone) as [IH1 [IH2 IH3]].
  rewrite !count_app, pages_read_app, length_app. repeat split; lia.
Qed.

End MoreWalk.

(** X3.  The walk never raises, whatever the collaborators do: every
    exception ends the loop and the rows gathered so far are returned;
    at most one error line is printed.  The walk is without a value only
    when the loop is still going after all the turns it was allowed:
    each of them has then read a page and clicked on to the next, and no
    error line was printed. *)
Theorem walk_never_raises
        (W : Type) (D : WebDriver W)
        (fuel : nat) (table_id next_button_id delimiter : string) (w : W) :
  let run := extract_table_data_with_pagination
               fuel table_id next_button_id delimiter w in
  (exists r,
      outcome run = Ok r
      /\ (r = None ->
          List.length (pages_read (trace run)) = fuel
          /\ count is_click (trace run) = fuel
          /\ count is_print (trace run) = 0%nat))
  /\ (count is_print (trace run) <= 1)%nat.
Proof.
  cbv zeta. unfold extract_table_data_with_pagination.
  destruct (walk_loop_safe fuel table_id next_button_id delimiter 1 [] w) as [r Hr].
  pose proof (walk_loop_events fuel table_id next_button_id delimiter 1 [] w) as H.
  pose proof (walk_loop_unfinished fuel table_id next_button_id delimiter 1 [] w)
    as Hu.
  cbv zeta in H, Hu. destruct H as [_ [_ [Hp _]]].
  destruct (walk_loop fuel table_id next_button_id delimiter 1 [] w)
    as [[r' w1] t1] eqn:E.
  unfold outcome in Hr. simpl in Hr. subst r'.
  rewrite (bind_ok _ _ _ _ _ _ E). unfold outcome, trace in *. cbn [fst snd ret] in *.
  rewrite app_nil_r. split; [|exact Hp].
  exists (option_map (Text.join Text.nl) r). split; [reflexivity|].
  destruct r as [rows|]; [discriminate|]. intros _. now apply Hu.
Qed.

(** X4.  The walk reads a page, then clicks, in turn: a click on the
    next control comes only after a page was read, every page but the
    first is read after a click, and no more pages are read than turns
    are allowed. *)
Theorem walk_reads_then_clicks
        (W : Type) (D : WebDriver W)
        (fuel : nat) (table_id next_button_id delimiter : string) (w : W) :
  let t := trace (extract_table_data_with_pagination
                    fuel table_id next_button_id delimiter w) in
  (count is_click t <= List.length (pages_read t))%nat
  /\ (List.length (pages_read t) <= count is_click t + 1)%nat
  /\ (List.length (pages_read t) <= fuel)%nat.
Proof.
  cbv zeta. unfold extract_table_data_with_pagination.
  pose proof (walk_loop_events fuel table_id next_button_id delimiter 1 [] w) as H.
  cbv zeta in H. destruct H as [H1 [H2 [_ H3]]].
  destruct (walk_loop_safe fuel table_id next_button_id delimiter 1 [] w) as [r Hr].
  destruct (walk_loop fuel table_id next_button_id delimiter 1 [] w)
    as [[r' w1] t1] eqn:E.
  unfold outcome in Hr. simpl in Hr. subst r'.
  rewrite (bind_ok _ _ _ _ _ _ E). unfold trace in *. cbn [fst snd ret] in *.
  rewrite app_nil_r. auto.
Qed.

Section MoreWalkEdges.
Context {W : Type} {D : WebDriver W}.
Import Table.

(** X5.  When the table does not show on the first page, the walk
    returns the empty string after printing the error: a failure to load
    is not told apart from a table without rows. *)
Theorem walk_first_page_fails
        (fuel : nat) (table_id next_button_id delimiter : string)
        (w w1 : W) (e : exn) :
  wd_wait_presence 10 (ID, table_id) w = (Raise e, w1) ->
  extract_table_data_with_pagination (S fuel) table_id next_button_id delimiter w
  = (Ok (Some EmptyString), w1,
     [EvWaitPresence 10 (ID, table_id);
      EvPrint ("Error on page 1: " ++ exn_str e)]).
Proof.
  intros H. unfold extract_table_data_with_pagination. cbn [walk_loop].
  unfold walk_turn, walk_error, bind, try_except, call, emit, ret.
  rewrite H. reflexivity.
Qed.

(** X6.  Once a page is loaded and its next control found: a class
    that holds [disabled] anywhere ends the walk without a click, and a
    control without a class attribute ends it through the error handler;
    in both cases the rows of the page are kept. *)
Theorem walk_stops_at_disabled
        (table_id next_button_id delimiter : string)
        (page : Z) (all_rows : list string)
        (w w1 w2 w3 w4 : W) (tbl button : element) (soup : Soup.node) :
  wd_wait_presence 10 (ID, table_id) w = (Ok tbl, w1) ->
  wd_wait_rows 10 ("#" ++ table_id ++ " tbody tr") w1 = (Ok tt, w2) ->
  wd_page_source w2 = (Ok soup, w3) ->
  wd_wait_presence 10 (ID, next_button_id) w3 = (Ok button, w4) ->
  (forall before after w5,
      wd_get_attribute button "class" w4
      = (Ok (Some (before ++ "disabled" ++ after)), w5) ->
      exists t,
        walk_turn table_id next_button_id delimiter page all_rows w
        = (Ok ((all_rows ++ page_contribution
                              page (extract_rows soup table_id delimiter))%list,
               None), w5, t)
        /\ count is_click t = 0%nat /\ count is_print t = 0%nat)
  /\ (forall w5,
         wd_get_attribute button "class" w4 = (Ok None, w5) ->
         exists t,
           walk_turn table_id next_button_id delimiter page all_rows w
           = (Ok ((all_rows ++ page_contribution
                                 page (extract_rows soup table_id delimiter))%list,
                  None), w5, t)
           /\ count is_click t = 0%nat
           /\ In (EvPrint ("Error on page " ++ Py.str_of_int page
                           ++ ": argument of type 'NoneType' is not iterable")) t).
Proof.
  intros H1 H2 H3 H4. split.
  - intros before after w5 H5.
    unfold walk_turn, next_page, walk_error, extract_table_data_with_bs4,
      page_source, wait_presence, click, bind, try_except, call, emit, ret.
    rewrite H1, H2, H3. cbn [fst snd]. rewrite H4, H5. cbn [fst snd].
    rewrite str_in_middle. eexists. split; [reflexivity|]. split; reflexivity.
  - intros w5 H5.
    unfold walk_turn, next_page, walk_error, extract_table_data_with_bs4,
      page_source, wait_presence, click, bind, try_except, call, emit, ret, raise.
    rewrite H1, H2, H3. cbn [fst snd]. rewrite H4, H5.
    eexists. split; [reflexivity|]. split; [reflexivity|].
    simpl. tauto.
Qed.

End MoreWalkEdges.

(** X5, on a portal whose table never shows. *)
Lemma walk_first_page_fails_witness :
  extract_table_data_with_pagination
    1 "branchTable" "branchTable_next" ";" [Script.timeout]
  = (Ok (Some EmptyString), [],
     [EvWaitPresence 10 (ID, "branchTable"); EvPrint "Error on page 1: Message: "]).
Proof.
  exact (walk_first_page_fails
           (D:=Script.scripted) 0%nat "branchTable" "branchTable_next" ";"
           [Script.timeout] [] (Exn TimeoutException "Message: ") eq_refl).
Defined.

(** X6, on the last page of branches, the only page of its portal. *)
Lemma walk_stops_at_disabled_witness :
  exists t,
    walk_turn "branchTable" "branchTable_next" ";" 1 []
              (Script.portal [Examples.branches1])
    = (Ok (["Branch;City"; "B1;Pune"; "B2;Agra"], None), [], t)
    /\ count is_click t = 0%nat /\ count is_print t = 0%nat.
Proof.
  exact (proj1 (walk_stops_at_disabled
                  (D:=Script.scripted) "branchTable" "branchTable_next" ";" 1 []
                  (Script.portal [Examples.branches1])
                  (tl (Script.portal [Examples.branches1]))
                  (tl (tl (Script.portal [Examples.branches1])))
                  (tl (tl (tl (Script.portal [Examples.branches1]))))
                  (tl (tl (tl (tl (Script.portal [Examples.branches1])))))
                  1%nat 2%nat Examples.branches1
                  eq_refl eq_refl eq_refl eq_refl)
               "paginate_button next " EmptyString [] eq_refl).
Defined.

(* ================================================================== *)
(** * More on the capture, the solver and the CAPTCHA loop *)
(* ================================================================== *)

(** As [crack], with the results of pure steps as well. *)
Ltac crack_all :=
  unfold lift; unfold bind, try_except, call, emit, ret, raise;
  repeat
    (cbn [fst snd any_exception exn_class_of outcome trace app orb];
     match goal with
     | |- context [match ?x with _ => _ end] =>
         lazymatch x with
         | context [match _ with _ => _ end] => fail
         | _ =>
             lazymatch type of x with
             | (result _ * _)%type => destruct x as [[?|?] ?] eqn:?
             | result _ => destruct x eqn:?
             | option _ => is_var x; destruct x
             | bool => destruct x eqn:?
             end
         end
     end).

Section MoreCaptcha.
Context {W : Type} {D : WebDriver W}.

Lemma is_class_true (c c' : exn_class) : c = c' -> is_class c c' = true.
Proof. intros <-. destruct c; reflexivity. Qed.

Lemma is_class_false (c c' : exn_class) : c' <> c -> is_class c c' = false.
Proof. intros H. destruct c, c'; try reflexivity; now contradiction H. Qed.

(** X7.  The five ways [capture_captcha_section] ends.  A
    [TimeoutException] of the wait for the CAPTCHA or of the capture of
    its region gives [None]; an exception of any other class raised by
    either of them passes through unchanged, and the capture is not
    tried after a failed wait; when both return, the image is the
    captured one.  So no [TimeoutException] leaves the function, and an
    image is returned only after the region was captured. *)
Theorem capture_absorbs_timeouts (w : W) :
  (forall e, outcome (capture_captcha_section w) = Raise e ->
             exn_class_of e <> TimeoutException)
  /\ (forall e w1,
         wd_wait_presence 5 (XPATH, captcha_xpath) w = (Raise e, w1) ->
         (exn_class_of e = TimeoutException ->
          capture_captcha_section w
          = (Ok None, w1, [EvWaitPresence 5 (XPATH, captcha_xpath)]))
         /\ (exn_class_of e <> TimeoutException ->
             capture_captcha_section w
             = (Raise e, w1, [EvWaitPresence 5 (XPATH, captcha_xpath)])))
  /\ (forall c w1 e w2,
         wd_wait_presence 5 (XPATH, captcha_xpath) w = (Ok c, w1) ->
         wd_render c w1 = (Raise e, w2) ->
         (exn_class_of e = TimeoutException ->
          capture_captcha_section w
          = (Ok None, w2, [EvWaitPresence 5 (XPATH, captcha_xpath); EvRender c]))
         /\ (exn_class_of e <> TimeoutException ->
             capture_captcha_section w
             = (Raise e, w2,
                [EvWaitPresence 5 (XPATH, captcha_xpath); EvRender c])))
  /\ (forall c w1 img w2,
         wd_wait_presence 5 (XPATH, captcha_xpath) w = (Ok c, w1) ->
         wd_render c w1 = (Ok img, w2) ->
         capture_captcha_section w
         = (Ok (Some img), w2,
            [EvWaitPresence 5 (XPATH, captcha_xpath); EvRender c]))
  /\ (forall img, outcome (capture_captcha_section w) = Ok (Some img) ->
                  count is_render (trace (capture_captcha_section w)) = 1%nat).
Proof.
  split; [|split; [|split; [|split]]].
  - intros e. unfold capture_captcha_section, wait_presence. crack_all;
      try discriminate; intros H; injection H as <-; intros Hc;
      match goal with
      | H : is_class TimeoutException _ = false |- _ => now rewrite Hc in H
      end.
  - intros e w1 H. split; intros Hc;
      unfold capture_captcha_section, wait_presence, try_except, bind, call, ret;
      rewrite H; cbn [fst snd exn_class_of].
    + now rewrite Hc.
    + now rewrite (is_class_false _ _ Hc).
  - intros c w1 e w2 H Hr. split; intros Hc;
      unfold capture_captcha_section, wait_presence, try_except, bind, call, ret;
      rewrite H, Hr; cbn [fst snd exn_class_of app].
    + now rewrite Hc.
    + now rewrite (is_class_false _ _ Hc).
  - intros c w1 img w2 H Hr.
    unfold capture_captcha_section, wait_presence, try_except, bind, call, ret.
    now rewrite H, Hr.
  - intros img. unfold capture_captcha_section, wait_presence. crack_all;
      try discriminate; reflexivity.
Qed.

Lemma rstrip_ends (s : string) : Text.ends_with_space (Text.rstrip s) = false.
Proof.
  induction s as [|c s IH]; simpl; auto.
  destruct (Text.is_space c) eqn:Ec; simpl.
  - destruct (Text.rstrip s) eqn:Er; simpl; auto.
  - destruct (Text.rstrip s) eqn:Er; simpl; auto.
Qed.

(** X8.  A token returned by the solver is trimmed: it neither starts
    nor ends with whitespace; and with an image the solver never returns
    [None]. *)
Theorem solver_token_trimmed (img : image) (w : W) (r : option string) :
  outcome (solve_captcha_with_gpt4 (Some img) w) = Ok r ->
  exists token, r = Some token
                /\ Text.starts_with_space token = false
                /\ Text.ends_with_space token = false.
Proof.
  revert w r.
  change (yields (fun r => exists token,
                      r = Some token
                      /\ Text.starts_with_space token = false
                      /\ Text.ends_with_space token = false)
                 (solve_captcha_with_gpt4 (W:=W) (Some img))).
  unfold solve_captcha_with_gpt4, ask_solver. apply yields_bind. intros _.
  apply yields_bind. intros img_str.
  apply yields_try; [|intros; apply yields_raise].
  do 6 (apply yields_bind; intros). apply yields_bind. intros content.
  apply yields_bind_from
    with (P := fun t => Text.starts_with_space t = false
                        /\ Text.ends_with_space t = false).
  - destruct content as [| | |s| |]; simpl; try apply yields_raise.
    apply yields_ret. split; [apply TextFacts.strip_starts | apply rstrip_ends].
  - intros token [H1 H2]. apply yields_ret. eauto.
Qed.

(** X23.  The encoding of the image (lines 98-100) comes before the
    [try] of line 129: what it raises leaves [solve_captcha_with_gpt4]
    as it is, not wrapped in an [IECScraperException], and no request is
    sent.  In the loop the turn ends in its handler: the message is
    printed and the attempt is spent. *)
Theorem encoding_error_not_wrapped (img : image) (e : exn) (attempt : Z) (w : W) :
  wd_encode img = Raise e ->
  solve_captcha_with_gpt4 (Some img) w = (Raise e, w, [EvSolve (Some img)])
  /\ (forall c w1 w2,
         wd_wait_presence 5 (XPATH, captcha_xpath) w = (Ok c, w1) ->
         wd_render c w1 = (Ok img, w2) ->
         captcha_turn attempt w
         = (Ok Fall, w2,
            [EvWaitPresence 5 (XPATH, captcha_xpath); EvRender c;
             EvSolve (Some img);
             EvPrint ("Attempt " ++ Py.str_of_int (attempt + 1) ++ " error: "
                      ++ exn_str e)])).
Proof.
  intros He.
  assert (Hs : forall w0, solve_captcha_with_gpt4 (Some img) w0
                          = (Raise e, w0, [EvSolve (Some img)])).
  { intros w0. unfold solve_captcha_with_gpt4, bind, emit, lift.
    rewrite He. reflexivity. }
  split; [apply Hs|].
  intros c w1 w2 Hw Hr.
  assert (Hcap : capture_captcha_section w
                 = (Ok (Some img), w2,
                    [EvWaitPresence 5 (XPATH, captcha_xpath); EvRender c])).
  { unfold capture_captcha_section, wait_presence, try_except, bind, call, ret.
    now rewrite Hw, Hr. }
  assert (Hbody : attempt_body attempt w
                  = (Raise e, w2,
                     [EvWaitPresence 5 (XPATH, captcha_xpath); EvRender c;
                      EvSolve (Some img)])).
  { unfold attempt_body. rewrite (bind_ok _ _ _ _ _ _ Hcap).
    rewrite (bind_raise _ _ _ _ _ _ (Hs w2)). reflexivity. }
  unfold captcha_turn. rewrite (try_caught _ _ _ _ _ _ _ Hbody eq_refl).
  reflexivity.
Qed.

End MoreCaptcha.

Section MoreCaptchaLoop.
Context {W : Type} {D : WebDriver W}.

Lemma last_append (t1 t2 : list event) (d : event) :
  t2 <> [] -> last (t1 ++ t2) d = last t2 d.
Proof.
  intros H. induction t1 as [|x t1 IH]; simpl; auto.
  destruct (t1 ++ t2)%list eqn:E; auto.
  apply app_eq_nil in E as [_ E]. contradiction.
Qed.

(** One turn never raises, and sends a request only from a call of the
    solver that was given an image. *)
Lemma captcha_turn_events (attempt : Z) (w : W) :
  exists r w' t,
    captcha_turn attempt w = (Ok r, w', t)
    /\ (count is_post t <= count is_solve_image t)%nat.
Proof.
  unfold captcha_turn, attempt_body, submit_captcha, capture_captcha_section,
    solve_captcha_with_gpt4, ask_solver, raise_for_status, wait_presence,
    wait_clickable, send_keys, click, get_text.
  crack_all; do 3 eexists; (split; [reflexivity|]);
    unfold count; simpl; lia.
Qed.

(** A turn that returns [True] has done every step of lines 237-254, and
    the heading it read last contains "IEC Details". *)
Lemma captcha_turn_success (attempt : Z) (w w' : W) (t : list event) :
  captcha_turn attempt w = (Ok (Return true), w', t) ->
  exists c img img_str i text b h wr wr' wh heading,
    t = solved_turn_events c img img_str i text b h
    /\ wd_render c wr = (Ok img, wr')
    /\ wd_encode img = Ok img_str
    /\ Text.nonempty text = true
    /\ wd_text h wh = (Ok heading, w')
    /\ Text.str_in "IEC Details" heading = true.
Proof.
  unfold captcha_turn, attempt_body, submit_captcha, capture_captcha_section,
    solve_captcha_with_gpt4, ask_solver, raise_for_status, wait_presence,
    wait_clickable, send_keys, click, get_text.
  crack_all; intros H; try discriminate H; injection H as <- <-;
    try (exfalso;
         match goal with
         | Hn : negb (Py.truthy_text None) = false |- _ => discriminate Hn
         end).
  do 11 eexists. split; [reflexivity|]. split; [eassumption|].
  split; [eassumption|]. split; [now apply negb_false_iff|].
  split; eassumption.
Qed.

(** A turn whose capture gives no image sends no request. *)
Lemma captcha_turn_without_image (attempt : Z) (w : W) :
  (forall img, outcome (capture_captcha_section w) <> Ok (Some img)) ->
  count is_post (trace (captcha_turn attempt w)) = 0%nat.
Proof.
  intros Hno.
  pose proof (capture_quiet is_post (fun _ _ => eq_refl) (fun _ => eq_refl) w)
    as Hq.
  destruct (capture_captcha_section w) as [[[[img|]|e] w1] t1] eqn:E;
    unfold outcome, trace in Hno, Hq; cbn [fst snd] in Hno, Hq.
  - now contradiction (Hno img).
  - assert (Hturn : captcha_turn attempt w
                    = (Ok (Continue (attempt + 1)), w1,
                       (t1 ++ [EvSolve None])%list)).
    { unfold captcha_turn. apply try_ok. unfold attempt_body.
      rewrite (bind_ok _ _ _ _ _ _ E). reflexivity. }
    rewrite Hturn. unfold trace. cbn [fst snd]. rewrite count_app.
    unfold count in *. simpl. lia.
  - assert (Hbody : attempt_body attempt w = (Raise e, w1, t1)).
    { unfold attempt_body. now rewrite (bind_raise _ _ _ _ _ _ E). }
    unfold captcha_turn. rewrite (try_caught _ _ _ _ _ _ _ Hbody eq_refl).
    unfold trace, bind, emit, ret. cbn [fst snd]. rewrite count_app.
    unfold count in *. simpl. lia.
Qed.

Lemma captcha_loop_events (fuel : nat) :
  forall (attempt : Z) (w : W),
    let run := captcha_loop fuel attempt w in
    (count is_post (trace run) <= count is_solve_image (trace run))%nat
    /\ (outcome run = Ok (Some true) ->
        exists before c img img_str i text b h wr wr' wh heading,
          trace run = (before ++ solved_turn_events c img img_str i text b h)%list
          /\ wd_render c wr = (Ok img, wr')
    /\ wd_encode img = Ok img_str
          /\ Text.nonempty text = true
          /\ wd_text h wh = (Ok heading, world_after run)
          /\ Text.str_in "IEC Details" heading = true).
Proof.
  induction fuel as [|fuel IH]; intros attempt w; cbv zeta.
  - simpl. destruct (attempt <? max_attempts); cbv; split; auto; discriminate.
  - rewrite captcha_loop_step. destruct (attempt <? max_attempts);
      [|cbv; split; auto; discriminate].
    destruct (captcha_turn_events attempt w) as [r [w1 [t1 [E Hp]]]].
    rewrite (bind_ok _ _ _ _ _ _ E). unfold outcome, trace, world_after in *.
    cbn [fst snd].
    destruct r as [attempt'|b|].
    + destruct (IH attempt' w1) as [IH1 IH2]. unfold outcome, trace in *.
      rewrite !count_app. split; [lia|]. intros Hr.
      destruct (IH2 Hr)
        as [before [c [img [img_str [i [text [b [h [wr [wr' [wh [heading
              [Ht Hrest]]]]]]]]]]]]].
      exists (t1 ++ before)%list, c, img, img_str, i, text, b, h, wr, wr',
        wh, heading.
      split; [|exact Hrest]. rewrite Ht. now rewrite app_assoc.
    + cbn [ret fst snd]. rewrite !app_nil_r. split; [lia|]. intros Hr.
      injection Hr as ->.
      destruct (captcha_turn_success attempt w w1 t1 E)
        as [c [img [img_str [i [text [b [h [wr [wr' [wh [heading
              [Ht Hrest]]]]]]]]]]]].
      exists [], c, img, img_str, i, text, b, h, wr, wr', wh, heading.
      split; [exact Ht | exact Hrest].
    + destruct (IH (attempt + 1) w1) as [IH1 IH2]. unfold outcome, trace in *.
      rewrite !count_app. split; [lia|]. intros Hr.
      destruct (IH2 Hr)
        as [before [c [img [img_str [i [text [b [h [wr [wr' [wh [heading
              [Ht Hrest]]]]]]]]]]]]].
      exists (t1 ++ before)%list, c, img, img_str, i, text, b, h, wr, wr',
        wh, heading.
      split; [|exact Hrest]. rewrite Ht. now rewrite app_assoc.
Qed.

(** X9.  The solver service is asked only on behalf of a captured image:
    in every run of the loop the requests sent are no more than the
    calls of the solver that were given an image, and a turn whose
    capture gives no image, be it that it returns [None] or that it
    raises, sends no request. *)
Theorem requests_need_captures (w : W) :
  (count is_post (trace (handle_captcha_submission w))
   <= count is_solve_image (trace (handle_captcha_submission w)))%nat
  /\ (forall attempt w0,
         (forall img, outcome (capture_captcha_section w0) <> Ok (Some img)) ->
         count is_post (trace (captcha_turn attempt w0)) = 0%nat).
Proof.
  split.
  - apply (captcha_loop_events (Z.to_nat max_attempts) 0 w).
  - intros attempt w0. apply captcha_turn_without_image.
Qed.

(** X10.  The loop returns [True] only at the end of a turn that did
    every step of lines 237-254 in order: the CAPTCHA was awaited and
    captured, the solver called with the captured image and one request
    sent with its encoding, the input field awaited, cleared and filled with a
    non-empty text, the button awaited and clicked, the success heading
    awaited and read; the heading contains "IEC Details", and nothing
    follows its reading. *)
Theorem success_follows_submission (w : W) :
  outcome (handle_captcha_submission w) = Ok (Some true) ->
  exists before c img img_str i text b h wr wr' wh heading,
    trace (handle_captcha_submission w)
    = (before ++ solved_turn_events c img img_str i text b h)%list
    /\ wd_render c wr = (Ok img, wr')
    /\ wd_encode img = Ok img_str
    /\ Text.nonempty text = true
    /\ wd_text h wh = (Ok heading, world_after (handle_captcha_submission w))
    /\ Text.str_in "IEC Details" heading = true.
Proof. apply (captcha_loop_events (Z.to_nat max_attempts) 0 w). Qed.

End MoreCaptchaLoop.

(** X23, in the world where every operation raises, the encoding as
    well. *)
Lemma encoding_error_not_wrapped_witness :
  solve_captcha_with_gpt4 (D:=Broken.broken) (Some "png") tt
  = (Raise Broken.crash, tt, [EvSolve (Some "png")]).
Proof.
  exact (proj1 (encoding_error_not_wrapped
                  (D:=Broken.broken) "png" Broken.crash 0 tt eq_refl)).
Defined.

(** X8, on the answer of the solver to the captured image. *)
Lemma solver_token_trimmed_witness :
  exists token,
    Some "AB12" = Some token
    /\ Text.starts_with_space token = false
    /\ Text.ends_with_space token = false.
Proof.
  exact (solver_token_trimmed
           (D:=Script.scripted) "png" [Script.solver_says 200 " AB12 "]
           (Some "AB12") eq_refl).
Defined.

(** X10, on the turn that solves the CAPTCHA. *)
Lemma success_follows_submission_witness :
  exists before c img img_str i text b h (wr wr' : Script.world) wh heading,
    trace (handle_captcha_submission MoreExamples.solved_turn)
    = (before ++ solved_turn_events c img img_str i text b h)%list
    /\ wd_render c wr = (Ok img, wr')
    /\ wd_encode (WebDriver:=Script.scripted) img = Ok img_str
    /\ Text.nonempty text = true
    /\ wd_text h wh
       = (Ok heading,
          world_after (handle_captcha_submission MoreExamples.solved_turn))
    /\ Text.str_in "IEC Details" heading = true.
Proof.
  exact (success_follows_submission
           (D:=Script.scripted) MoreExamples.solved_turn eq_refl).
Defined.

(** The turn that solves the CAPTCHA, event by event. *)
Example solved_turn_run :
  handle_captcha_submission MoreExamples.solved_turn
  = (Ok (Some true), [],
     solved_turn_events 0%nat "png" "png" 4%nat "AB12" 5%nat 6%nat).
Proof. reflexivity. Qed.

(* ================================================================== *)
(** * The detail panel *)
(* ================================================================== *)

Section DetailPanel.
Context {W : Type} {D : WebDriver W}.

Lemma iec_groups_lines (form_groups : list element) :
  forall details,
    Forall detail_line details ->
    yields (Forall detail_line) (iec_groups (W:=W) form_groups details).
Proof.
  induction form_groups as [|fg rest IH]; intros details Hd; simpl.
  - now apply yields_ret.
  - apply yields_bind_from with (P := Forall detail_line); [|intros; now apply IH].
    apply yields_try; [|intros; now apply yields_ret].
    apply yields_bind. intros label_e. apply yields_bind. intros label_text.
    apply yields_bind. intros value_e. apply yields_bind. intros value_text.
    destruct (Text.nonempty (Text.strip label_text)) eqn:El;
      destruct (Text.nonempty (Text.strip value_text)) eqn:Ev; simpl;
      apply yields_ret; auto.
    apply Forall_app. split; auto. constructor; [|constructor].
    exists label_text, value_text. auto.
Qed.

Lemma nonempty_strip (s : string) :
  Text.nonempty (Text.strip s) = negb (Text.blank s).
Proof.
  destruct (Text.blank s) eqn:Eb.
  - apply TextFacts.strip_blank in Eb. now rewrite Eb.
  - destruct (Text.strip s) eqn:Es; [|reflexivity].
    apply TextFacts.strip_blank in Es. congruence.
Qed.

(** X11.  The detail panel, group by group.  The value of
    [extract_iec_details] is the newline-join of the lines the loop over
    the groups has gathered.  A group whose label and value are both
    read adds the line [label;value], both trimmed, when neither text is
    blank, and adds nothing when one of them is blank; the loop then
    goes on with the next group.  So every line gathered is
    [label;value] with a trimmed, non-empty label and a trimmed,
    non-empty value. *)
Theorem detail_lines_well_formed :
  (forall (w w1 w2 : W) (form_groups : list element) (details : list string)
          (t2 : list event),
      wd_wait_all_present 10 (CLASS_NAME, "form-group") w = (Ok form_groups, w1) ->
      iec_groups form_groups [] w1 = (Ok details, w2, t2) ->
      extract_iec_details w
      = (Ok (Text.join Text.nl details), w2,
         EvWaitAllPresent 10 (CLASS_NAME, "form-group") :: t2))
  /\ (forall (form_group : element) (rest : list element) (details : list string)
             (w w1 w2 w3 w4 : W) (label_e value_e : element)
             (label_text value_text : string),
         wd_find_child form_group (TAG_NAME, "label") w = (Ok label_e, w1) ->
         wd_text label_e w1 = (Ok label_text, w2) ->
         wd_find_child form_group (TAG_NAME, "p") w2 = (Ok value_e, w3) ->
         wd_text value_e w3 = (Ok value_text, w4) ->
         let details' :=
           if negb (Text.blank label_text) && negb (Text.blank value_text)
           then (details ++ [(Text.strip label_text ++ ";"
                                ++ Text.strip value_text)%string])%list
           else details in
         iec_groups (form_group :: rest) details w
         = (outcome (iec_groups rest details' w4),
            snd (fst (iec_groups rest details' w4)),
            ([EvFindChild form_group (TAG_NAME, "label"); EvGetText label_e;
              EvFindChild form_group (TAG_NAME, "p"); EvGetText value_e]
               ++ trace (iec_groups rest details' w4))%list))
  /\ (forall (w : W) (out : string),
         outcome (extract_iec_details w) = Ok out ->
         exists lines,
           out = Text.join Text.nl lines /\ Forall detail_line lines).
Proof.
  split; [|split].
  - intros w w1 w2 form_groups details t2 Hw Hg.
    unfold extract_iec_details, bind, try_except, call.
    rewrite Hw. cbn [fst snd]. rewrite Hg. unfold ret. cbn [app].
    now rewrite app_nil_r.
  - intros form_group rest details w w1 w2 w3 w4 label_e value_e
           label_text value_text H1 H2 H3 H4. cbv zeta.
    cbn [iec_groups]. unfold bind at 1. unfold try_except.
    unfold bind, get_text, call.
    rewrite H1. cbn [fst snd]. rewrite H2. cbn [fst snd].
    rewrite H3. cbn [fst snd]. rewrite H4. cbn [fst snd].
    rewrite !nonempty_strip.
    destruct (negb (Text.blank label_text) && negb (Text.blank value_text));
      unfold ret; cbn [fst snd app];
      match goal with
      | |- context [iec_groups rest ?d w4] =>
          destruct (iec_groups rest d w4) as [[r w5] t5]
      end; reflexivity.
  - change (yields (fun out => exists lines,
                        out = Text.join Text.nl lines /\ Forall detail_line lines)
                   (extract_iec_details (W:=W))).
    unfold extract_iec_details.
    apply yields_bind_from with (P := Forall detail_line).
    + apply yields_try; [|intros; apply yields_raise].
      apply yields_bind. intros. now apply iec_groups_lines.
    + intros lines Hl. apply yields_ret. eauto.
Qed.

(** X12.  Whatever goes wrong in the detail panel reaches the caller as
    an [IECScraperException] whose message starts with "Error extracting
    IEC details: "; a panel that never shows is such a failure. *)
Theorem detail_errors_are_scraper_errors (w : W) :
  (forall e, outcome (extract_iec_details w) = Raise e ->
             exn_class_of e = IECScraperException
             /\ exists msg, exn_str e = "Error extracting IEC details: " ++ msg)
  /\ (forall e w1,
         wd_wait_all_present 10 (CLASS_NAME, "form-group") w = (Raise e, w1) ->
         extract_iec_details w
         = (Raise (Exn IECScraperException
                       ("Error extracting IEC details: " ++ exn_str e)),
            w1, [EvWaitAllPresent 10 (CLASS_NAME, "form-group")])).
Proof.
  split.
  - intros e. unfold extract_iec_details, bind at 1, outcome.
    match goal with
    | |- context [try_except ?m ?c ?h w] =>
        unfold try_except; destruct (m w) as [[[a|x] w1] t1]
    end; cbn [fst snd any_exception raise ret]; [discriminate|].
    intros E. injection E as <-. simpl. eauto.
  - intros e w1 H. unfold extract_iec_details, bind, try_except, call, raise.
    rewrite H. reflexivity.
Qed.

(** X13.  A group without its label element is skipped and the groups
    after it are read as if it were not there; an exception of another
    class in a group ends the whole extraction. *)
Theorem detail_group_skipped
        (form_group : element) (rest : list element) (details : list string)
        (w w1 : W) (e : exn) :
  wd_find_child form_group (TAG_NAME, "label") w = (Raise e, w1) ->
  (exn_class_of e = NoSuchElementException ->
   iec_groups (form_group :: rest) details w
   = (outcome (iec_groups rest details w1),
      snd (fst (iec_groups rest details w1)),
      EvFindChild form_group (TAG_NAME, "label")
        :: trace (iec_groups rest details w1)))
  /\ (exn_class_of e <> NoSuchElementException ->
      iec_groups (form_group :: rest) details w
      = (Raise e, w1, [EvFindChild form_group (TAG_NAME, "label")])).
Proof.
  intros H. split; intros Hc.
  - cbn [iec_groups]. unfold bind at 1, try_except, bind at 1, call.
    rewrite H. cbn [fst snd exn_class_of]. rewrite Hc.
    cbn [is_class ret fst snd app].
    destruct (iec_groups rest details w1) as [[r w2] t2]. reflexivity.
  - cbn [iec_groups]. unfold bind at 1, try_except, bind at 1, call.
    rewrite H. cbn [fst snd].
    destruct (is_class NoSuchElementException (exn_class_of e)) eqn:E;
      [|reflexivity].
    destruct (exn_class_of e); try discriminate E. contradiction.
Qed.

End DetailPanel.

(** X11, on the panel of three groups: only the full group leaves a
    line; and on a group whose value is blank, which leaves none. *)
Lemma detail_lines_well_formed_witness :
  (exists lines,
      "IEC Number;0101000061" = Text.join Text.nl lines
      /\ Forall detail_line lines)
  /\ iec_groups [12%nat] ["IEC Number;0101000061"]
       [Script.AElem 24%nat; Script.AText "Firm";
        Script.AElem 25%nat; Script.AText "   "]
     = (Ok ["IEC Number;0101000061"], [],
        [EvFindChild 12%nat (TAG_NAME, "label"); EvGetText 24%nat;
         EvFindChild 12%nat (TAG_NAME, "p"); EvGetText 25%nat]).
Proof.
  split.
  - exact (proj2 (proj2 (detail_lines_well_formed (D:=Script.scripted)))
                 MoreExamples.panel "IEC Number;0101000061" eq_refl).
  - exact (proj1 (proj2 (detail_lines_well_formed (D:=Script.scripted)))
                 12%nat [] ["IEC Number;0101000061"]
                 [Script.AElem 24%nat; Script.AText "Firm";
                  Script.AElem 25%nat; Script.AText "   "]
                 [Script.AText "Firm"; Script.AElem 25%nat; Script.AText "   "]
                 [Script.AElem 25%nat; Script.AText "   "]
                 [Script.AText "   "] []
                 24%nat 25%nat "Firm" "   "
                 eq_refl eq_refl eq_refl eq_refl).
Defined.

(** X13, on a panel whose only group has no label. *)
Lemma detail_group_skipped_witness :
  iec_groups [10%nat] []
             [Script.AFail (Exn NoSuchElementException "no such element")]
  = (Ok [], [], [EvFindChild 10%nat (TAG_NAME, "label")]).
Proof.
  exact (proj1 (detail_group_skipped
                  (D:=Script.scripted) 10%nat [] []
                  [Script.AFail (Exn NoSuchElementException "no such element")] []
                  (Exn NoSuchElementException "no such element") eq_refl)
               eq_refl).
Defined.

(* ================================================================== *)
(** * More on the request handler: the session and the responses *)
(* ================================================================== *)

Section MoreHandler.
Context {W : Type} {D : WebDriver W}.

Lemma bind_inv {A B} (m : Comp W A) (f : A -> Comp W B) w r w' t :
  bind m f w = (Ok r, w', t) ->
  exists a w1 t1 t2,
    m w = (Ok a, w1, t1) /\ f a w1 = (Ok r, w', t2) /\ t = (t1 ++ t2)%list.
Proof.
  unfold bind. destruct (m w) as [[[a|e] w1] t1]; [|discriminate].
  destruct (f a w1) as [[r2 w2] t2] eqn:E. intros H.
  injection H as -> -> <-. exists a, w1, t1, t2. auto.
Qed.

Lemma quiet_run {A} (m : Comp W A) w r w' t :
  atmost is_page_source 0 m -> m w = (r, w', t) -> pages_read t = [].
Proof.
  intros H E. specialize (H w). rewrite E in H. unfold trace in H.
  cbn [snd] in H. apply quiet_no_pages. lia.
Qed.

Lemma open_form_quiet (p : event -> bool) (iec_code name : json) :
  p = is_quit \/ p = is_create \/ p = is_page_source ->
  atmost p 0 (open_form (W:=W) iec_code name).
Proof.
  intros Hp. unfold open_form, wait_clickable, wait_presence, click, send_keys.
  destruct Hp as [-> | [-> | ->]]; quiet.
Qed.

Lemma captcha_loop_quiet (p : event -> bool) (fuel : nat) :
  p = is_quit \/ p = is_create \/ p = is_page_source ->
  forall attempt, atmost p 0 (captcha_loop (W:=W) fuel attempt).
Proof.
  intros Hp. induction fuel as [|fuel IH]; intros attempt; simpl.
  - destruct (attempt <? max_attempts); apply atmost_ret.
  - destruct (attempt <? max_attempts); [|apply atmost_ret].
    apply (atmost_bind _ 0 0).
    + unfold captcha_turn, attempt_body, submit_captcha, capture_captcha_section,
        solve_captcha_with_gpt4, ask_solver, raise_for_status, wait_presence,
        wait_clickable, send_keys, click, get_text.
      destruct Hp as [-> | [-> | ->]]; quiet.
    + intros [a|b|]; [apply IH | apply atmost_ret | apply IH].
Qed.

Lemma iec_groups_quiet (p : event -> bool) (form_groups : list element) :
  p = is_quit \/ p = is_create \/ p = is_page_source ->
  forall details, atmost p 0 (iec_groups (W:=W) form_groups details).
Proof.
  intros Hp. induction form_groups as [|fg rest IH]; intros details; simpl.
  - apply atmost_ret.
  - apply (atmost_bind _ 0 0); [|intros; apply IH].
    unfold get_text. destruct Hp as [-> | [-> | ->]]; quiet.
Qed.

Lemma details_quiet (p : event -> bool) :
  p = is_quit \/ p = is_create \/ p = is_page_source ->
  atmost p 0 (extract_iec_details (W:=W)).
Proof.
  intros Hp. unfold extract_iec_details.
  apply (atmost_bind _ 0 0); [|intros; apply atmost_ret].
  apply (atmost_try _ 0 0); [|intros; apply atmost_raise].
  apply (atmost_bind _ 0 0); [destruct Hp as [-> | [-> | ->]]; quiet|intros].
  now apply iec_groups_quiet.
Qed.

Lemma walk_loop_quiet (p : event -> bool) (fuel : nat)
      (table_id next_button_id delimiter : string) :
  p = is_quit \/ p = is_create ->
  forall page all_rows,
    atmost p 0 (walk_loop (W:=W) fuel table_id next_button_id delimiter
                          page all_rows).
Proof.
  intros Hp. induction fuel as [|fuel IH]; intros page all_rows; simpl.
  - apply atmost_ret.
  - apply (atmost_bind _ 0 0).
    + unfold walk_turn, next_page, walk_error, extract_table_data_with_bs4,
        wait_presence, click.
      assert (Hsrc : atmost p 0 (page_source (W:=W))).
      { intros w. unfold page_source, trace, count.
        destruct (wd_page_source w) as [r w1]. simpl.
        destruct Hp as [-> | ->]; reflexivity. }
      apply (atmost_bind _ 0 0).
      * apply (atmost_try _ 0 0).
        -- apply (atmost_bind _ 0 0); [destruct Hp as [-> | ->]; quiet|intros].
           apply (atmost_bind _ 0 0); [destruct Hp as [-> | ->]; quiet|intros].
           apply (atmost_bind _ 0 0); [|intros; apply atmost_ret].
           apply (atmost_bind _ 0 0); [exact Hsrc|intros; apply atmost_ret].
        -- intros. destruct Hp as [-> | ->]; quiet.
      * intros [rows|]; [|apply atmost_ret].
        destruct Hp as [-> | ->]; quiet.
    + intros [rows [page'|]]; [apply IH | apply atmost_ret].
Qed.

(** The browser work of a lookup neither creates nor quits a session. *)
Lemma lookup_quiet (p : event -> bool) (fuel : nat) (iec_code name : json) :
  p = is_quit \/ p = is_create ->
  atmost p 0
    (try_except (lookup (W:=W) fuel iec_code name) any_exception
                (fun e => ret (Some (failure (exn_str e) 500)))).
Proof.
  intros Hp.
  assert (Hp3 : p = is_quit \/ p = is_create \/ p = is_page_source)
    by (destruct Hp; auto).
  apply (atmost_try _ 0 0); [|intros; apply atmost_ret].
  unfold lookup. apply (atmost_bind _ 0 0); [now apply open_form_quiet|].
  intros _. apply (atmost_bind _ 0 0).
  { now apply captcha_loop_quiet. }
  intros [[|]|]; try apply atmost_ret.
  apply (atmost_bind _ 0 0); [now apply details_quiet|].
  intros details. apply (atmost_bind _ 0 0).
  { unfold extract_table_data_with_pagination.
    apply (atmost_bind _ 0 0); [now apply walk_loop_quiet|intros; apply atmost_ret]. }
  intros [b|]; apply atmost_ret.
Qed.

(** A lookup is without a response only when the walk of the branch
    table is: that walk has then read as many pages as it was allowed
    turns, and they are the pages the lookup read. *)
Lemma lookup_unfinished (fuel : nat) (iec_code name : json) (w w' : W)
      (t : list event) :
  lookup fuel iec_code name w = (Ok None, w', t) ->
  List.length (pages_read t) = fuel.
Proof.
  unfold lookup. intros H.
  apply bind_inv in H as ([] & w1 & t1 & ta & E1 & H & ->).
  apply bind_inv in H as (solved & w2 & t2 & tb & E2 & H & ->).
  destruct solved as [[|]|].
  - apply bind_inv in H as (details & w3 & t3 & tc & E3 & H & ->).
    apply bind_inv in H as (branch & w4 & t4 & td & E4 & H & ->).
    destruct branch as [branch|]; [discriminate H|].
    injection H as _ <-.
    rewrite !pages_read_app.
    rewrite (quiet_run _ _ _ _ _
               (open_form_quiet is_page_source iec_code name
                  (or_intror (or_intror eq_refl))) E1).
    rewrite (quiet_run _ _ _ _ _
               (captcha_loop_quiet is_page_source (Z.to_nat max_attempts)
                  (or_intror (or_intror eq_refl)) 0) E2).
    rewrite (quiet_run _ _ _ _ _
               (details_quiet is_page_source (or_intror (or_intror eq_refl))) E3).
    cbn [app pages_read flat_map]. rewrite app_nil_r.
    unfold extract_table_data_with_pagination in E4.
    apply bind_inv in E4 as (r & w5 & t5 & te & E5 & H & ->).
    destruct r as [rows|]; [discriminate H|]. injection H as _ <-.
    rewrite app_nil_r.
    pose proof (walk_loop_unfinished fuel "branchTable" "branchTable_next" ";"
                                     1 [] w3) as Hu.
    cbv zeta in Hu. rewrite E5 in Hu. now apply Hu.
  - discriminate H.
  - destruct (captcha_loop_bounded (Z.to_nat max_attempts) 0 w1 ltac:(simpl; lia))
      as [b [w0 [tr [E _]]]].
    unfold handle_captcha_submission in E2. rewrite E in E2. discriminate E2.
Qed.

(** The response of a lookup is a success of status 200 or a failure of
    status 400 or 500. *)
Lemma lookup_well_formed (fuel : nat) (iec_code name : json) :
  yields (fun r => forall resp, r = Some resp -> well_formed resp)
         (try_except (lookup (W:=W) fuel iec_code name) any_exception
                     (fun e => ret (Some (failure (exn_str e) 500)))).
Proof.
  assert (Hfail : forall msg st (resp : response),
             st = 400 \/ st = 500 ->
             Some (failure msg st) = Some resp -> well_formed resp).
  { intros msg st resp Hst E. injection E as <-. right. split; [exact Hst|reflexivity]. }
  apply yields_try.
  2:{ intros e. apply yields_ret. intros resp. apply Hfail. auto. }
  unfold lookup. apply yields_bind. intros _. apply yields_bind.
  intros [[|]|].
  - apply yields_bind. intros d. apply yields_bind.
    intros [b|]; apply yields_ret; [|discriminate].
    intros resp E. injection E as <-. left. split; reflexivity.
  - apply yields_ret. intros resp. apply Hfail. auto.
  - apply yields_ret. discriminate.
Qed.

(** The handler either touches no collaborator or is a session run under
    the clause of line 322. *)
Lemma handler_is_session (fuel : nat) (req : request) (w : W) :
  (exists resp, get_iec_details fuel req w = (Ok (Some resp), w, [])
                /\ status_of resp <> 200 /\ success_flag resp = Some false
                /\ (status_of resp = 400 \/ status_of resp = 500))
  \/ (exists iec_code name,
         get_iec_details fuel req w
         = try_except (session fuel iec_code name) any_exception
             (fun e => ret (Some (failure ("Server error: " ++ exn_str e) 500)))
             w).
Proof.
  destruct req as [[data|e]].
  - destruct (lacks_parameters data) as [[|]|e] eqn:El.
    + left. exists missing_parameters. unfold get_iec_details, try_except.
      simpl get_json. rewrite bind_lift_ok, El, bind_lift_ok.
      repeat split; auto; discriminate.
    + destruct (Py.getitem data "iec_code") as [ic|e] eqn:Ei.
      * destruct (Py.getitem data "name") as [nm|e] eqn:En.
        -- right. exists ic, nm.
           now apply handler_runs_session with (data := data).
        -- left. eexists. unfold get_iec_details, try_except. simpl get_json.
           rewrite bind_lift_ok, El, bind_lift_ok, Ei, bind_lift_ok, En.
           split; [reflexivity|]. repeat split; auto; discriminate.
      * left. eexists. unfold get_iec_details, try_except. simpl get_json.
        rewrite bind_lift_ok, El, bind_lift_ok, Ei.
        split; [reflexivity|]. repeat split; auto; discriminate.
    + left. eexists. unfold get_iec_details, try_except. simpl get_json.
      rewrite bind_lift_ok, El.
      split; [reflexivity|]. repeat split; auto; discriminate.
  - left. eexists. unfold get_iec_details, try_except. simpl get_json.
    split; [reflexivity|]. repeat split; auto; discriminate.
Qed.

(** A session whose driver cannot be created. *)
Lemma session_not_created (fuel : nat) (iec_code name : json) (w w0 : W) (e : exn) :
  wd_create_driver w = (Raise e, w0) ->
  try_except (session fuel iec_code name) any_exception
    (fun e => ret (Some (failure ("Server error: " ++ exn_str e) 500))) w
  = (Ok (Some (failure ("Failed to create Chrome driver: " ++ exn_str e) 500)),
     w0, [EvCreateDriver]).
Proof.
  intros Hw.
  assert (Hcd : create_driver w
                = (Raise (Exn IECScraperException
                              ("Failed to create Chrome driver: " ++ exn_str e)),
                   w0, [EvCreateDriver])).
  { unfold create_driver, try_except, call, raise. now rewrite Hw. }
  apply try_ok. unfold session, bind, try_except. rewrite Hcd. reflexivity.
Qed.

(** The four ways the handler runs: without a collaborator; with a
    driver that cannot be created; with a lookup whose walk is still
    going when the fuel is out; with a lookup that ends, after which the
    session is quit, the exception of [quit] taking the place of the
    response. *)
Lemma handler_cases (fuel : nat) (req : request) (w : W) :
  (exists resp, get_iec_details fuel req w = (Ok (Some resp), w, [])
                /\ status_of resp <> 200 /\ success_flag resp = Some false
                /\ (status_of resp = 400 \/ status_of resp = 500))
  \/ (exists e w0,
         wd_create_driver w = (Raise e, w0)
         /\ get_iec_details fuel req w
            = (Ok (Some (failure ("Failed to create Chrome driver: "
                                    ++ exn_str e) 500)), w0, [EvCreateDriver]))
  \/ (exists w0 w2 t2,
         wd_create_driver w = (Ok tt, w0)
         /\ count is_quit t2 = 0%nat /\ count is_create t2 = 0%nat
         /\ List.length (pages_read t2) = fuel
         /\ get_iec_details fuel req w = (Ok None, w2, EvCreateDriver :: t2))
  \/ (exists w0 w2 t2 resp,
         wd_create_driver w = (Ok tt, w0)
         /\ count is_quit t2 = 0%nat /\ count is_create t2 = 0%nat
         /\ well_formed resp
         /\ get_iec_details fuel req w
            = (Ok (Some (match fst (wd_quit w2) with
                         | Ok _ => resp
                         | Raise e => failure ("Server error: " ++ exn_str e) 500
                         end)),
               snd (wd_quit w2), (EvCreateDriver :: t2 ++ [EvQuit])%list)).
Proof.
  destruct (handler_is_session fuel req w) as [H|[ic [nm E]]]; [now left|].
  right. rewrite E.
  destruct (wd_create_driver w) as [[[]|e] w0] eqn:Hw.
  2:{ left. exists e, w0. split; [reflexivity|]. now apply session_not_created. }
  right.
  assert (Hcd : create_driver w = (Ok tt, w0, [EvCreateDriver])).
  { unfold create_driver, try_except, call. now rewrite Hw. }
  pose proof (lookup_quiet is_quit fuel ic nm (or_introl eq_refl) w0) as Hq.
  pose proof (lookup_quiet is_create fuel ic nm (or_intror eq_refl) w0) as Hc.
  pose proof (lookup_well_formed fuel ic nm w0) as Hwf.
  assert (Hs : safe (try_except (lookup (W:=W) fuel ic nm) any_exception
                       (fun e => ret (Some (failure (exn_str e) 500))))).
  { apply safe_try_any. intros; apply safe_ret. }
  destruct (Hs w0) as [r Hr].
  destruct (try_except (lookup fuel ic nm) any_exception
              (fun e => ret (Some (failure (exn_str e) 500))) w0)
    as [[r' w2] t2] eqn:El.
  unfold outcome, trace in Hq, Hc, Hr, Hwf. cbn [fst snd] in Hq, Hc, Hr, Hwf.
  subst r'. destruct r as [resp|].
  - right. exists w0, w2, t2, resp. split; [reflexivity|].
    split; [lia|]. split; [lia|]. split; [now apply (Hwf _ eq_refl)|].
    unfold try_except at 1.
    rewrite (session_after_creation fuel ic nm w w0 w2 [EvCreateDriver] t2 resp
               Hcd El).
    destruct (wd_quit w2) as [[[]|e] w3]; cbn [fst snd app]; [reflexivity|].
    unfold any_exception, ret. now rewrite app_nil_r.
  - left. exists w0, w2, t2. split; [reflexivity|].
    split; [lia|]. split; [lia|].
    assert (Hlk : lookup fuel ic nm w0 = (Ok None, w2, t2)).
    { unfold try_except in El.
      destruct (lookup fuel ic nm w0) as [[[r|e] w'] t'];
        cbn [any_exception ret] in El; [exact El | discriminate El]. }
    split; [now apply lookup_unfinished with (1 := Hlk)|].
    apply try_ok. unfold session.
    rewrite (bind_ok _ _ _ _ _ _ (session_created w w0 [EvCreateDriver] Hcd)).
    rewrite (bind_ok _ _ _ _ _ _ El).
    unfold outcome, trace, ret. cbn [fst snd app]. now rewrite app_nil_r.
Qed.

Lemma last_snoc (t : list event) (x d : event) : last (t ++ [x]) d = x.
Proof. induction t as [|y t IH]; simpl; auto. destruct (t ++ [x])%list eqn:E; auto.
       destruct t; discriminate. Qed.

(** X14.  For every request the handler creates at most one session and
    quits no session it did not create.  When the creation succeeded and
    the handler answers, the session was quit once, and the quit is the
    last thing the handler did, whether the lookup ended in a response
    or in an exception.  When the creation failed nothing is quit; and a
    handler that is without a response, its walk still going on, has not
    quit the session. *)
Theorem handler_releases_session (fuel : nat) (req : request) (w : W) :
  let run := get_iec_details fuel req w in
  (count is_create (trace run) <= 1)%nat
  /\ (count is_quit (trace run) <= count is_create (trace run))%nat
  /\ (count is_quit (trace run) = 1%nat
      -> last (trace run) EvCreateDriver = EvQuit)
  /\ (forall w0 resp,
         wd_create_driver w = (Ok tt, w0) ->
         count is_create (trace run) = 1%nat ->
         outcome run = Ok (Some resp) ->
         count is_quit (trace run) = 1%nat)
  /\ (forall e w0,
         wd_create_driver w = (Raise e, w0) ->
         count is_quit (trace run) = 0%nat)
  /\ (outcome run = Ok None -> count is_quit (trace run) = 0%nat).
Proof.
  cbv zeta.
  destruct (handler_cases fuel req w)
    as [[resp [E _]]
       |[[e [w0 [Hw E]]]
        |[[w0 [w2 [t2 [Hw [Hq [Hc [_ E]]]]]]]
         |[w0 [w2 [t2 [resp [Hw [Hq [Hc [_ E]]]]]]]]]]];
    rewrite E; unfold outcome, trace; cbn [fst snd].
  - cbv. repeat split; auto; discriminate.
  - cbv -[wd_create_driver]. repeat split; auto; try discriminate.
    intros w1 resp H1. rewrite Hw in H1. discriminate.
  - change (EvCreateDriver :: t2)%list with ([EvCreateDriver] ++ t2)%list.
    rewrite !count_app, Hq, Hc. cbn. repeat split; auto; try discriminate.
  - change (EvCreateDriver :: t2 ++ [EvQuit])%list
      with ([EvCreateDriver] ++ t2 ++ [EvQuit])%list.
    rewrite !count_app, Hq, Hc. cbn. repeat split; auto; try discriminate.
    + intros _. apply (last_snoc (EvCreateDriver :: t2)).
    + intros e w1 H1. rewrite Hw in H1. discriminate.
Qed.

(** X15.  The handler never raises.  It answers with a success of status
    200 or a failure of status 400 or 500; it is without a response only
    when the walk of the branch table is still going after all the turns
    it was allowed, each of which read a page. *)
Theorem handler_always_responds (fuel : nat) (req : request) (w : W) :
  exists r,
    outcome (get_iec_details fuel req w) = Ok r
    /\ (r = None ->
        List.length (pages_read (trace (get_iec_details fuel req w))) = fuel)
    /\ forall resp,
        r = Some resp ->
        (status_of resp = 200 /\ success_flag resp = Some true)
        \/ ((status_of resp = 400 \/ status_of resp = 500)
            /\ success_flag resp = Some false).
Proof.
  destruct (handler_cases fuel req w)
    as [[resp [E [_ [Hf Hst]]]]
       |[[e [w0 [Hw E]]]
        |[[w0 [w2 [t2 [Hw [Hq [Hc [Hp E]]]]]]]
         |[w0 [w2 [t2 [resp [Hw [Hq [Hc [Hwf E]]]]]]]]]]];
    rewrite E; unfold outcome, trace; cbn [fst snd]; eexists;
    (split; [reflexivity|]); (split; [try discriminate|]).
  - intros r H. injection H as <-. right. auto.
  - intros r H. injection H as <-. right. split; [now right|reflexivity].
  - intros _. exact Hp.
  - discriminate.
  - intros r H. injection H as <-.
    destruct (fst (wd_quit w2)); [exact Hwf|].
    right. split; [now right|reflexivity].
Qed.

End MoreHandler.

(* ================================================================== *)
(** * The paths of a lookup *)
(* ================================================================== *)

Section LookupPaths.
Context {W : Type} {D : WebDriver W}.

(** X16.  When the browser session cannot be created, the handler answers
    with status 500 and the message of [create_driver]; it touches no
    other collaborator and quits nothing. *)
Theorem create_failure_response
        (fuel : nat) (req : request) (data iec_code name : json)
        (w w0 : W) (e : exn) :
  get_json req = Ok data ->
  lacks_parameters data = Ok false ->
  Py.getitem data "iec_code" = Ok iec_code ->
  Py.getitem data "name" = Ok name ->
  wd_create_driver w = (Raise e, w0) ->
  get_iec_details fuel req w
  = (Ok (Some (failure ("Failed to create Chrome driver: " ++ exn_str e) 500)),
     w0, [EvCreateDriver]).
Proof.
  intros Hj Hl Hi Hn Hw.
  rewrite (handler_runs_session fuel req data iec_code name w Hj Hl Hi Hn).
  now apply session_not_created.
Qed.

(** X17.  A lookup that goes well: the CAPTCHA is solved, the panel and
    the table are extracted, the session is quit, and, the quit having
    returned, the response is a success of status 200 that carries the
    two blocks of text. *)
Theorem lookup_success_response
        (fuel : nat) (req : request) (data iec_code name : json)
        (w w0 w1 w2 w3 w4 w5 : W) (t0 t1 t2 t3 t4 : list event)
        (iec_details branch_details : string) :
  get_json req = Ok data ->
  lacks_parameters data = Ok false ->
  Py.getitem data "iec_code" = Ok iec_code ->
  Py.getitem data "name" = Ok name ->
  create_driver w = (Ok tt, w0, t0) ->
  open_form iec_code name w0 = (Ok tt, w1, t1) ->
  handle_captcha_submission w1 = (Ok (Some true), w2, t2) ->
  extract_iec_details w2 = (Ok iec_details, w3, t3) ->
  extract_table_data_with_pagination fuel "branchTable" "branchTable_next" ";" w3
  = (Ok (Some branch_details), w4, t4) ->
  wd_quit w4 = (Ok tt, w5) ->
  get_iec_details fuel req w
  = (Ok (Some (success iec_details branch_details)), w5,
     (t0 ++ (t1 ++ t2 ++ t3 ++ t4) ++ [EvQuit])%list).
Proof.
  intros Hj Hl Hi Hn Hc Ho Hh Hd Hb Hq.
  assert (Hlookup : try_except (lookup fuel iec_code name) any_exception
                               (fun e => ret (Some (failure (exn_str e) 500))) w0
                    = (Ok (Some (success iec_details branch_details)), w4,
                       (t1 ++ t2 ++ t3 ++ t4)%list)).
  { apply try_ok. unfold lookup.
    rewrite (bind_ok _ _ _ _ _ _ Ho), (bind_ok _ _ _ _ _ _ Hh).
    cbn beta iota. rewrite (bind_ok _ _ _ _ _ _ Hd), (bind_ok _ _ _ _ _ _ Hb).
    unfold outcome, trace. cbn [fst snd ret]. now rewrite app_nil_r. }
  rewrite (handler_after_creation fuel req data iec_code name w w0 w4 t0 _ _
             Hj Hl Hi Hn Hc Hlookup).
  now rewrite Hq.
Qed.

(** X18.  After a solved CAPTCHA, a detail panel that never shows fails
    the lookup: the table is not walked, the session is quit, and, the
    quit having returned, the response has status 500 and the message of
    the extractor. *)
Theorem panel_failure_response
        (fuel : nat) (req : request) (data iec_code name : json)
        (w w0 w1 w2 w3 w4 : W) (t0 t1 t2 : list event) (e : exn) :
  get_json req = Ok data ->
  lacks_parameters data = Ok false ->
  Py.getitem data "iec_code" = Ok iec_code ->
  Py.getitem data "name" = Ok name ->
  create_driver w = (Ok tt, w0, t0) ->
  open_form iec_code name w0 = (Ok tt, w1, t1) ->
  handle_captcha_submission w1 = (Ok (Some true), w2, t2) ->
  wd_wait_all_present 10 (CLASS_NAME, "form-group") w2 = (Raise e, w3) ->
  wd_quit w3 = (Ok tt, w4) ->
  get_iec_details fuel req w
  = (Ok (Some (failure ("Error extracting IEC details: " ++ exn_str e) 500)),
     w4,
     (t0 ++ (t1 ++ t2 ++ [EvWaitAllPresent 10 (CLASS_NAME, "form-group")])
         ++ [EvQuit])%list).
Proof.
  intros Hj Hl Hi Hn Hc Ho Hh Hp Hq.
  assert (Hd : extract_iec_details w2
               = (Raise (Exn IECScraperException
                             ("Error extracting IEC details: " ++ exn_str e)),
                  w3, [EvWaitAllPresent 10 (CLASS_NAME, "form-group")])).
  { unfold extract_iec_details, bind, try_except, call, raise. now rewrite Hp. }
  assert (Hlookup : lookup fuel iec_code name w0
                    = (Raise (Exn IECScraperException
                                  ("Error extracting IEC details: " ++ exn_str e)),
                       w3,
                       (t1 ++ t2
                           ++ [EvWaitAllPresent 10 (CLASS_NAME, "form-group")])%list)).
  { unfold lookup. rewrite (bind_ok _ _ _ _ _ _ Ho), (bind_ok _ _ _ _ _ _ Hh).
    cbn beta iota. rewrite (bind_raise _ _ _ _ _ _ Hd). reflexivity. }
  assert (Htry : try_except (lookup fuel iec_code name) any_exception
                            (fun e => ret (Some (failure (exn_str e) 500))) w0
                 = (Ok (Some (failure ("Error extracting IEC details: "
                                         ++ exn_str e) 500)),
                    w3,
                    (t1 ++ t2
                        ++ [EvWaitAllPresent 10 (CLASS_NAME, "form-group")])%list)).
  { rewrite (try_caught _ _ _ _ _ _ _ Hlookup eq_refl).
    unfold outcome, trace. cbn [fst snd ret exn_str]. now rewrite app_nil_r. }
  rewrite (handler_after_creation fuel req data iec_code name w w0 w3 t0 _ _
             Hj Hl Hi Hn Hc Htry).
  now rewrite Hq.
Qed.

(** X22.  Once the session exists and the lookup has ended with a
    response, be it the success, the CAPTCHA failure or the failure made
    of a caught exception, an exception of the [driver.quit()] of line
    320 takes the place of that response: the handler answers with
    status 500 and "Server error: " followed by the message of the
    exception. *)
Theorem quit_failure_replaces_response
        (fuel : nat) (req : request) (data iec_code name : json)
        (w w0 w2 w3 : W) (t0 t2 : list event) (r : response) (e : exn) :
  get_json req = Ok data ->
  lacks_parameters data = Ok false ->
  Py.getitem data "iec_code" = Ok iec_code ->
  Py.getitem data "name" = Ok name ->
  create_driver w = (Ok tt, w0, t0) ->
  try_except (lookup fuel iec_code name) any_exception
             (fun e => ret (Some (failure (exn_str e) 500))) w0
  = (Ok (Some r), w2, t2) ->
  wd_quit w2 = (Raise e, w3) ->
  get_iec_details fuel req w
  = (Ok (Some (failure ("Server error: " ++ exn_str e) 500)), w3,
     (t0 ++ t2 ++ [EvQuit])%list).
Proof.
  intros Hj Hl Hi Hn Hc Hlk Hq.
  rewrite (handler_after_creation fuel req data iec_code name w w0 w2 t0 t2 r
             Hj Hl Hi Hn Hc Hlk).
  now rewrite Hq.
Qed.

(** X19.  Every body cell is whitespace-normalized, and unchanged by a
    second collapse. *)
Theorem body_cell_normalized (tr : Soup.node) (c : string) :
  In c (Table.row_cells tr) ->
  Text.normalized c = true /\ Table.normalize c = c.
Proof.
  intros H. split; [now apply TableFacts.row_cells_normalized with (tr := tr)|].
  apply in_map_iff in H as [n [<- _]]. unfold Table.normalize at 1 3.
  f_equal. apply split_join, TextFacts.split_words.
Qed.

End LookupPaths.

(** X16, on a machine without a browser. *)
Lemma create_failure_response_witness :
  get_iec_details 1 (Request (Ok Examples.acme_body)) MoreExamples.no_browser
  = (Ok (Some (failure "Failed to create Chrome driver: chrome not reachable" 500)),
     [], [EvCreateDriver]).
Proof.
  exact (create_failure_response
           (D:=Script.scripted) 1%nat (Request (Ok Examples.acme_body))
           Examples.acme_body (JStr "0101000061") (JStr "ACME EXPORTS")
           MoreExamples.no_browser [] Broken.crash
           eq_refl eq_refl eq_refl eq_refl eq_refl).
Defined.

(** X17, on the whole lookup of the examples. *)
Lemma lookup_success_response_witness :
  outcome (get_iec_details 2 (Request (Ok Examples.acme_body))
                           MoreExamples.lookup_answers)
  = Ok (Some (success
                "IEC Number;0101000061"
                (Text.join Text.nl ["Branch;City"; "B1;Pune"; "B2;Agra";
                                    "B3;Kochi"; "B4;Surat"]))).
Proof.
  erewrite (lookup_success_response
              (D:=Script.scripted) 2%nat (Request (Ok Examples.acme_body))
              Examples.acme_body (JStr "0101000061") (JStr "ACME EXPORTS")
              MoreExamples.lookup_answers);
    [|reflexivity ..]. reflexivity.
Defined.

(** X18, on a lookup whose panel never shows. *)
Lemma panel_failure_response_witness :
  outcome (get_iec_details 2 (Request (Ok Examples.acme_body))
                           MoreExamples.panel_missing)
  = Ok (Some (failure "Error extracting IEC details: Message: " 500)).
Proof.
  erewrite (panel_failure_response
              (D:=Script.scripted) 2%nat (Request (Ok Examples.acme_body))
              Examples.acme_body (JStr "0101000061") (JStr "ACME EXPORTS")
              MoreExamples.panel_missing);
    [|reflexivity ..]. reflexivity.
Defined.

(** X22, on the whole lookup of the examples, with a browser that is
    gone at the end: the success is lost. *)
Lemma quit_failure_replaces_response_witness :
  outcome (get_iec_details 2 (Request (Ok Examples.acme_body))
                           MoreExamples.lookup_answers_quit_fails)
  = Ok (Some (failure "Server error: chrome not reachable" 500)).
Proof.
  erewrite (quit_failure_replaces_response
              (D:=Script.scripted) 2%nat (Request (Ok Examples.acme_body))
              Examples.acme_body (JStr "0101000061") (JStr "ACME EXPORTS")
              MoreExamples.lookup_answers_quit_fails);
    [|reflexivity ..]. reflexivity.
Defined.

(** X19, on the first row of the spaced page. *)
Lemma body_cell_normalized_witness :
  Text.normalized "B1 East" = true /\ Table.normalize "B1 East" = "B1 East".
Proof.
  apply (body_cell_normalized
           (Soup.Elem "tr" [] [Script.cell "td" "B1  East"]) "B1 East").
  left. reflexivity.
Defined.

Section MoreValidation.
Context {W : Type} {D : WebDriver W}.
Import Text TextFacts Soup Table TableFacts.

(** X20.  A body that is falsy (null, an empty object, list or string,
    zero, false), or an object without one of the two keys, is answered
    with the missing-parameters response of status 400 before any
    collaborator is touched: the trace is empty. *)
Theorem incomplete_body_rejected (fuel : nat) (data : json) (w : W) :
  Py.truthy data = false
  \/ (exists items, data = JObj items
                    /\ (assoc "iec_code" items = None
                        \/ assoc "name" items = None)) ->
  get_iec_details fuel (Request (Ok data)) w = (Ok (Some missing_parameters), w, [])
  /\ missing_parameters
     = (JObj [("success", JBool false);
              ("error", JStr "Missing required parameters: iec_code and name")],
        400).
Proof. intros H. split; [now apply missing_field_rejected | reflexivity]. Qed.

(** X21.  A body row leaves no line exactly when the text of each of its
    cells is blank; a row without cells is such a row. *)
Theorem row_skipped_iff_blank (tr : node) :
  any_str (row_cells tr) = false
  <-> forall td, In td (find_all "td" tr) -> blank (get_text_strip td) = true.
Proof.
  unfold any_str, row_cells. split.
  - intros H td Htd. apply normalize_blank.
    destruct (normalize (get_text_strip td)) eqn:E; auto.
    assert (Hex : existsb nonempty
                    (map (fun col => normalize (get_text_strip col))
                         (find_all "td" tr)) = true).
    { apply existsb_exists. exists (normalize (get_text_strip td)).
      split; [apply in_map_iff; eauto | now rewrite E]. }
    rewrite H in Hex. discriminate.
  - intros H. destruct (existsb _ _) eqn:E; auto.
    apply existsb_exists in E as [c [Hc Hn]].
    apply in_map_iff in Hc as [td [<- Htd]].
    apply H, normalize_blank in Htd. rewrite Htd in Hn. discriminate.
Qed.

End MoreValidation.

(** X20, on a body with the code and without the name. *)
Lemma incomplete_body_rejected_witness :
  get_iec_details 1 (Request (Ok (JObj [("iec_code", JStr "0101000061")])))
                  MoreExamples.no_browser
  = (Ok (Some missing_parameters), MoreExamples.no_browser, []).
Proof.
  apply (incomplete_body_rejected (D:=Script.scripted)).
  right. eexists. split; [reflexivity|]. right. reflexivity.
Defined.
